(** * tcell: terminfo and console screens, and the terminal input decoder

    A shallow embedding of [tscreen.go] (the terminfo backend, type
    [tScreen]) and of [console_win.go] (the Windows console backend, type
    [cScreen]), followed by the properties of the screen operations and of
    the input decoder.

    Conventions.
    - Go's [int] is the 64-bit signed integer; arithmetic that Go performs
      on [int] goes through [GoInt] and wraps around.
    - A Go [string] and a [[]byte] are both sequences of bytes, [list Z]
      with every element in 0..255.
    - A [[]rune] is a slice header pointing into a backing array that lives
      in a store ([RuneHeap]); copying a [Cell] copies the header only.
    - Every public method runs under the screen's mutex; one call is one
      atomic state transition.
    - A run-time panic (index out of range, nil dereference, closing a
      closed channel) is the outcome [Panics]. *)

From Stdlib Require Import ZArith Lia String Ascii.
From stdpp Require Import base option list gmap numbers.
Local Open Scope Z_scope.

(** ** Go integers *)

Module GoInt.
Definition bits : Z := 64.
Definition modulus : Z := 2 ^ bits.
Definition half : Z := 2 ^ (bits - 1).

(** Two's complement wrap-around into [-2^63, 2^63). *)
Definition wrap (z : Z) : Z := (z + half) mod modulus - half.

Definition add (a b : Z) : Z := wrap (a + b).
Definition sub (a b : Z) : Z := wrap (a - b).
Definition mul (a b : Z) : Z := wrap (a * b).
Definition neg (a : Z) : Z := wrap (- a).

Definition in_range (z : Z) : Prop := - half <= z < half.
End GoInt.

(** [uint8] arithmetic, as in [b[i] - '0']. *)
Definition byte_sub (a b : Z) : Z := (a - b) mod 256.

(** ** Go strings and byte slices *)

Definition gostring := list Z.

Definition byte_of_ascii (a : ascii) : Z := Z.of_N (N_of_ascii a).

Fixpoint lit (s : string) : gostring :=
  match s with
  | EmptyString => []
  | String a s' => byte_of_ascii a :: lit s'
  end.

Definition bytes_eqb (a b : list Z) : bool := bool_decide (a = b).

(** [bytes.HasPrefix(s, prefix)]. *)
Fixpoint HasPrefix (s prefix : list Z) : bool :=
  match prefix, s with
  | [], _ => true
  | _ :: _, [] => false
  | p :: prefix', c :: s' => (c =? p) && HasPrefix s' prefix'
  end.

(** ** Run-time outcomes *)

Inductive outcome (A : Type) : Type :=
| Returns (a : A)
| Panics.
Arguments Returns {A} a.
Arguments Panics {A}.

Definition obind {A B} (o : outcome A) (k : A -> outcome B) : outcome B :=
  match o with
  | Returns a => k a
  | Panics => Panics
  end.

Notation "x <- e1 ;; e2" := (obind e1 (fun x => e2))
  (at level 100, e1 at next level, right associativity).

(** ** Rune slices and their store *)

Definition rune := Z.

(** The backing arrays of all [[]rune] values, by address. *)
Abbreviation RuneHeap := (gmap nat (list rune)).

(** A slice header: backing array, offset of the first element, length.
    The nil slice has length 0. *)
Record RuneSlice := { s_arr : nat; s_off : nat; s_len : nat }.

Definition nil_slice : RuneSlice := {| s_arr := 0; s_off := 0; s_len := 0 |}.

(** The runes a slice currently denotes. *)
Definition slice_runes (hp : RuneHeap) (s : RuneSlice) : list rune :=
  take (s_len s) (drop (s_off s) (default [] (hp !! s_arr s))).

(** [s[i] = r]: writes through the header into the shared backing array. *)
Definition slice_store (hp : RuneHeap) (s : RuneSlice) (i : Z) (r : rune)
  : outcome RuneHeap :=
  if (0 <=? i) && (i <? Z.of_nat (s_len s)) then
    match hp !! s_arr s with
    | Some a => Returns (<[s_arr s := <[(s_off s + Z.to_nat i)%nat := r]> a]> hp)
    | None => Panics
    end
  else Panics.

(** ** Styles, cells, events: types declared outside the two backends *)

Definition Style := Z.
Definition Color := Z.
Definition AttrMask := Z.
Definition ModMask := Z.
Definition ButtonMask := Z.

(** Modelled from the spec: the [Cell] structure is declared in a file
    outside the two backends.  A cell holds its runes (the primary rune
    and any combining runes, in order), a style, a width and a dirty flag.
    The backends name the fields [Ch], [Style], [Width] and [Dirty]; they
    take [len(cell.Ch)], range over [cell.Ch], convert it with [string]
    and pass it to [utf16.Encode], so [Ch] is a rune slice, [[]rune]. *)
Module Cell.
Record t := mk { Ch : RuneSlice; Style : Style; Dirty : bool; Width : Z }.
Definition with_Dirty (d : bool) (c : t) : t :=
  mk (Ch c) (Style c) d (Width c).
End Cell.
Abbreviation Cell := Cell.t.

(** Modelled from the spec: the key constants are declared in a file
    outside the two backends.  [Key] enumerates the named keys the
    backends mention, plus the sentinel [KeyRune] saying that the rune
    field of the event carries the character.  [KeyF n] stands for the
    constants [KeyF1] .. [KeyF64]. *)
Inductive Key :=
| KeyRune | KeyNUL | KeyBackspace | KeyTab | KeyEnter | KeyClear | KeyPause
| KeyInsert | KeyDelete | KeyHome | KeyEnd | KeyUp | KeyDown | KeyLeft
| KeyRight | KeyPgUp | KeyPgDn | KeyHelp | KeyPrint | KeyCancel | KeyExit
| KeyBacktab
| KeyF (n : nat).

Global Instance Key_eq_dec : EqDecision Key.
Proof. solve_decision. Defined.

Definition Key_consts : list Key :=
  [KeyRune; KeyNUL; KeyBackspace; KeyTab; KeyEnter; KeyClear; KeyPause;
   KeyInsert; KeyDelete; KeyHome; KeyEnd; KeyUp; KeyDown; KeyLeft; KeyRight;
   KeyPgUp; KeyPgDn; KeyHelp; KeyPrint; KeyCancel; KeyExit; KeyBacktab].

Definition Key_encode (k : Key) : nat + nat :=
  match k with
  | KeyF n => inr n
  | KeyRune => inl 0 | KeyNUL => inl 1 | KeyBackspace => inl 2
  | KeyTab => inl 3 | KeyEnter => inl 4 | KeyClear => inl 5
  | KeyPause => inl 6 | KeyInsert => inl 7 | KeyDelete => inl 8
  | KeyHome => inl 9 | KeyEnd => inl 10 | KeyUp => inl 11
  | KeyDown => inl 12 | KeyLeft => inl 13 | KeyRight => inl 14
  | KeyPgUp => inl 15 | KeyPgDn => inl 16 | KeyHelp => inl 17
  | KeyPrint => inl 18 | KeyCancel => inl 19 | KeyExit => inl 20
  | KeyBacktab => inl 21
  end%nat.

Definition Key_decode (c : nat + nat) : Key :=
  match c with
  | inr n => KeyF n
  | inl i => nth i Key_consts KeyRune
  end.

Global Instance Key_countable : Countable Key.
Proof.
  refine (inj_countable' Key_encode Key_decode _).
  intros []; reflexivity.
Defined.

(** Modelled from the spec: the event constructors [NewEventKey],
    [NewEventMouse] and [NewEventResize] live in files that are not part of
    the two backends.  An event is a tagged variant [Key {key, rune, mods}],
    [Mouse {x, y, buttons, mods}], [Resize {w, h}] or a user payload. *)
Inductive Event :=
| NewEventKey (k : Key) (r : rune) (m : ModMask)
| NewEventMouse (x y : Z) (b : ButtonMask) (m : ModMask)
| NewEventResize (w h : Z)
| EventUser (payload : Z).

(** The modifier and button constants, declared next to the event types
    and outside the two backends: their values are parameters. *)
Class Masks := {
  ModNone : ModMask; ModShift : ModMask; ModCtrl : ModMask;
  ModAlt : ModMask; ModMeta : ModMask;
  ButtonNone : ButtonMask; Button1 : ButtonMask; Button2 : ButtonMask;
  Button3 : ButtonMask; Button4 : ButtonMask; Button5 : ButtonMask;
  WheelUp : ButtonMask; WheelDown : ButtonMask;
  WheelLeft : ButtonMask; WheelRight : ButtonMask
}.

(** The style constants and [Style.Decompose], declared outside the two
    backends: parameters. *)
Class StyleOps := {
  StyleDefault : Style;
  ColorDefault : Color;
  AttrBold : AttrMask; AttrUnderline : AttrMask; AttrReverse : AttrMask;
  AttrBlink : AttrMask; AttrDim : AttrMask;
  Decompose : Style -> Color * Color * AttrMask
}.

(** The methods of [Cell] and the helpers over [[]Cell], declared outside
    the two backends: parameters.  They mutate the cell they are given and
    may allocate or overwrite rune arrays, so each takes the store and
    returns it. *)
Class CellOps := {
  Cell_SetCell : RuneHeap -> Cell -> RuneSlice -> Style -> RuneHeap * Cell;
  Cell_PutChars : RuneHeap -> Cell -> RuneSlice -> RuneHeap * Cell;
  Cell_PutStyle : RuneHeap -> Cell -> Style -> RuneHeap * Cell;
  ClearCells : RuneHeap -> list Cell -> Style -> RuneHeap * list Cell;
  InvalidateCells : RuneHeap -> list Cell -> RuneHeap * list Cell;
  ResizeCells :
    RuneHeap -> list Cell -> Z -> Z -> Z -> Z -> RuneHeap * list Cell
}.

(** ** The Go library pieces the backends call *)

(** [unicode/utf8]: [FullRune], [DecodeRune] (rune and size) and
    [EncodeRune] (the bytes written). *)
Class Utf8 := {
  utf8_FullRune : list Z -> bool;
  utf8_DecodeRune : list Z -> rune * nat;
  utf8_EncodeRune : rune -> list Z;
  utf8_RuneError : rune
}.

(** [transform.Transformer], always used as [Reset] followed by one
    [Transform(dst, src, true)]: the bytes written to [dst], the number of
    source bytes consumed and whether an error was returned. *)
Record Transformer := {
  Transform : list Z -> list Z * nat * bool
}.

(** ** Channels of events *)

(** A buffered channel: its capacity and the events queued in it. *)
Record chan := { cap : nat; queue : list Event }.

Definition make_chan (n : nat) : chan := {| cap := n; queue := [] |}.

(** A send can proceed at once when the buffer has room.  A nil channel
    ([None]) is never ready. *)
Definition send_ready (c : option chan) : bool :=
  match c with
  | Some c => (length (queue c) <? cap c)%nat
  | None => false
  end.

Definition enqueue (ev : Event) (c : option chan) : option chan :=
  match c with
  | Some c => Some {| cap := cap c; queue := queue c ++ [ev] |}
  | None => None
  end.

(** A [chan struct{}] used only for closing: nil, open or closed.  A
    receive from it is ready exactly when it is closed. *)
Inductive sigchan := SigNil | SigOpen | SigClosed.

Definition recv_ready (q : sigchan) : bool :=
  match q with SigClosed => true | _ => false end.

Definition close_sig (q : sigchan) : outcome sigchan :=
  match q with
  | SigOpen => Returns SigClosed
  | SigNil | SigClosed => Panics
  end.

(** The arms of the two-way [select] statements of [PostEvent]. *)
Inductive arm := ArmQuit | ArmSend | ArmDefault.

(** Which arm of a [select] runs: one of the ready communications ([pick]
    resolves the choice Go makes at random when both are ready), else the
    [default] arm when there is one, else none: the goroutine blocks. *)
Definition select_arm (quit_ready evch_ready has_default pick : bool)
  : option arm :=
  match quit_ready, evch_ready with
  | true, true => Some (if pick then ArmQuit else ArmSend)
  | true, false => Some ArmQuit
  | false, true => Some ArmSend
  | false, false => if has_default then Some ArmDefault else None
  end.

(** The result of an operation that may block. *)
Inductive blocking (A : Type) : Type :=
| Proceeds (a : A)
| Blocks.
Arguments Proceeds {A} a.
Arguments Blocks {A}.

(** How a loop ends within a bound on its iterations: with a result, with
    a run-time panic, or not yet. *)
Inductive run (A : Type) : Type :=
| Finished (a : A)
| Faulted
| Unfinished.
Arguments Finished {A} a.
Arguments Faulted {A}.
Arguments Unfinished {A}.

(** ** The terminfo description

    The capability strings of [*Terminfo] that the terminfo backend reads,
    and its methods [TGoto], [TParm] and [TPuts].  [TPuts s baud] is the
    bytes that [ti.TPuts(out, s, baud)] writes (padding expanded).
    [KeyString k] is the field holding the escape of key [k] ([ti.KeyF1],
    [ti.KeyUp], ...); the empty string when the terminal lacks the key. *)
Module Terminfo.
Record t := mk {
  Columns : Z; Lines : Z; Colors : Z;
  Mouse : gostring; MouseMode : gostring; AltChars : gostring;
  EnterAcs : gostring; ExitAcs : gostring;
  EnterCA : gostring; ExitCA : gostring;
  EnterKeypad : gostring; ExitKeypad : gostring;
  HideCursor : gostring; ShowCursor : gostring; Clear : gostring;
  AttrOff : gostring; Bold : gostring; Underline : gostring;
  Reverse : gostring; Blink : gostring; Dim : gostring;
  SetFg : gostring; SetBg : gostring;
  KeyString : Key -> gostring;
  TGoto : Z -> Z -> gostring;
  TParm : gostring -> Z -> gostring;
  TPuts : gostring -> Z -> list Z
}.
End Terminfo.
Abbreviation Terminfo := Terminfo.t.

(** ** Cells of a grid *)

(** [cells[i]] for an [int] index: out of range is a run-time panic. *)
Definition index_cell (cs : list Cell) (i : Z) : outcome Cell :=
  if i <? 0 then Panics
  else match cs !! Z.to_nat i with
       | Some c => Returns c
       | None => Panics
       end.

(** ** The drawing runes of the alternate character set

    The names of the rune constants [buildAcsMap] lists; their code
    points are declared outside the two backends and are parameters. *)
Inductive RuneName :=
| RuneSterling | RuneDArrow | RuneLArrow | RuneRArrow | RuneUArrow
| RuneBullet | RuneBoard | RuneCkBoard | RuneDegree | RuneDiamond
| RuneGEqual | RunePi | RuneHLine | RuneLantern | RunePlus | RuneLEqual
| RuneLLCorner | RuneLRCorner | RuneNEqual | RunePlMinus | RuneS1 | RuneS3
| RuneS7 | RuneS9 | RuneBlock | RuneTTee | RuneRTee | RuneLTee | RuneBTee
| RuneULCorner | RuneURCorner | RuneVLine.

Class Runes := { rune_of : RuneName -> rune }.

(** [type acsMap struct { utf rune; vt100 rune; ascii string }]. *)
Record acsMap := { utf : RuneName; vt100 : Z; ascii : gostring }.

(** * The terminfo backend: [tScreen] *)

Module TScreen.

(** The fields of [tScreen].  [out] is what has been written to the
    terminal ([t.out]); the file handles, the termios state and the
    [sigwinch] and [indoneq] channels belong to the operating system side
    and are left out. *)
Record tScreen := mk_tScreen {
  ti : Terminfo;
  fini : bool;
  w : Z;
  h : Z;
  out : list Z;
  curstyle : Style;
  style : Style;
  evch : option chan;
  quit : sigchan;
  keys : gmap Key (list Z);
  cx : Z;
  cy : Z;
  mouse : list Z;
  cells : list Cell;
  clear : bool;
  cursorx : Z;
  cursory : Z;
  baud : Z;
  wasbtn : bool;
  acs : gmap Z gostring;
  charset : gostring;
  encoder : option Transformer;
  decoder : option Transformer
}.

Definition set_fini (v : bool) (t : tScreen) : tScreen :=
  mk_tScreen (ti t) (v) (w t) (h t) (out t) (curstyle t) (style t) (evch t)
    (quit t) (keys t) (cx t) (cy t) (mouse t) (cells t) (clear t)
    (cursorx t) (cursory t) (baud t) (wasbtn t) (acs t) (charset t)
    (encoder t) (decoder t).
Definition set_w (v : Z) (t : tScreen) : tScreen :=
  mk_tScreen (ti t) (fini t) (v) (h t) (out t) (curstyle t) (style t)
    (evch t) (quit t) (keys t) (cx t) (cy t) (mouse t) (cells t) (clear t)
    (cursorx t) (cursory t) (baud t) (wasbtn t) (acs t) (charset t)
    (encoder t) (decoder t).
Definition set_h (v : Z) (t : tScreen) : tScreen :=
  mk_tScreen (ti t) (fini t) (w t) (v) (out t) (curstyle t) (style t)
    (evch t) (quit t) (keys t) (cx t) (cy t) (mouse t) (cells t) (clear t)
    (cursorx t) (cursory t) (baud t) (wasbtn t) (acs t) (charset t)
    (encoder t) (decoder t).
Definition set_out (v : list Z) (t : tScreen) : tScreen :=
  mk_tScreen (ti t) (fini t) (w t) (h t) (v) (curstyle t) (style t) (evch t)
    (quit t) (keys t) (cx t) (cy t) (mouse t) (cells t) (clear t)
    (cursorx t) (cursory t) (baud t) (wasbtn t) (acs t) (charset t)
    (encoder t) (decoder t).
Definition set_curstyle (v : Style) (t : tScreen) : tScreen :=
  mk_tScreen (ti t) (fini t) (w t) (h t) (out t) (v) (style t) (evch t)
    (quit t) (keys t) (cx t) (cy t) (mouse t) (cells t) (clear t)
    (cursorx t) (cursory t) (baud t) (wasbtn t) (acs t) (charset t)
    (encoder t) (decoder t).
Definition set_style (v : Style) (t : tScreen) : tScreen :=
  mk_tScreen (ti t) (fini t) (w t) (h t) (out t) (curstyle t) (v) (evch t)
    (quit t) (keys t) (cx t) (cy t) (mouse t) (cells t) (clear t)
    (cursorx t) (cursory t) (baud t) (wasbtn t) (acs t) (charset t)
    (encoder t) (decoder t).
Definition set_evch (v : option chan) (t : tScreen) : tScreen :=
  mk_tScreen (ti t) (fini t) (w t) (h t) (out t) (curstyle t) (style t) (v)
    (quit t) (keys t) (cx t) (cy t) (mouse t) (cells t) (clear t)
    (cursorx t) (cursory t) (baud t) (wasbtn t) (acs t) (charset t)
    (encoder t) (decoder t).
Definition set_quit (v : sigchan) (t : tScreen) : tScreen :=
  mk_tScreen (ti t) (fini t) (w t) (h t) (out t) (curstyle t) (style t)
    (evch t) (v) (keys t) (cx t) (cy t) (mouse t) (cells t) (clear t)
    (cursorx t) (cursory t) (baud t) (wasbtn t) (acs t) (charset t)
    (encoder t) (decoder t).
Definition set_keys (v : gmap Key (list Z)) (t : tScreen) : tScreen :=
  mk_tScreen (ti t) (fini t) (w t) (h t) (out t) (curstyle t) (style t)
    (evch t) (quit t) (v) (cx t) (cy t) (mouse t) (cells t) (clear t)
    (cursorx t) (cursory t) (baud t) (wasbtn t) (acs t) (charset t)
    (encoder t) (decoder t).
Definition set_cx (v : Z) (t : tScreen) : tScreen :=
  mk_tScreen (ti t) (fini t) (w t) (h t) (out t) (curstyle t) (style t)
    (evch t) (quit t) (keys t) (v) (cy t) (mouse t) (cells t) (clear t)
    (cursorx t) (cursory t) (baud t) (wasbtn t) (acs t) (charset t)
    (encoder t) (decoder t).
Definition set_cy (v : Z) (t : tScreen) : tScreen :=
  mk_tScreen (ti t) (fini t) (w t) (h t) (out t) (curstyle t) (style t)
    (evch t) (quit t) (keys t) (cx t) (v) (mouse t) (cells t) (clear t)
    (cursorx t) (cursory t) (baud t) (wasbtn t) (acs t) (charset t)
    (encoder t) (decoder t).
Definition set_mouse (v : list Z) (t : tScreen) : tScreen :=
  mk_tScreen (ti t) (fini t) (w t) (h t) (out t) (curstyle t) (style t)
    (evch t) (quit t) (keys t) (cx t) (cy t) (v) (cells t) (clear t)
    (cursorx t) (cursory t) (baud t) (wasbtn t) (acs t) (charset t)
    (encoder t) (decoder t).
Definition set_cells (v : list Cell) (t : tScreen) : tScreen :=
  mk_tScreen (ti t) (fini t) (w t) (h t) (out t) (curstyle t) (style t)
    (evch t) (quit t) (keys t) (cx t) (cy t) (mouse t) (v) (clear t)
    (cursorx t) (cursory t) (baud t) (wasbtn t) (acs t) (charset t)
    (encoder t) (decoder t).
Definition set_clear (v : bool) (t : tScreen) : tScreen :=
  mk_tScreen (ti t) (fini t) (w t) (h t) (out t) (curstyle t) (style t)
    (evch t) (quit t) (keys t) (cx t) (cy t) (mouse t) (cells t) (v)
    (cursorx t) (cursory t) (baud t) (wasbtn t) (acs t) (charset t)
    (encoder t) (decoder t).
Definition set_cursorx (v : Z) (t : tScreen) : tScreen :=
  mk_tScreen (ti t) (fini t) (w t) (h t) (out t) (curstyle t) (style t)
    (evch t) (quit t) (keys t) (cx t) (cy t) (mouse t) (cells t) (clear t)
    (v) (cursory t) (baud t) (wasbtn t) (acs t) (charset t) (encoder t)
    (decoder t).
Definition set_cursory (v : Z) (t : tScreen) : tScreen :=
  mk_tScreen (ti t) (fini t) (w t) (h t) (out t) (curstyle t) (style t)
    (evch t) (quit t) (keys t) (cx t) (cy t) (mouse t) (cells t) (clear t)
    (cursorx t) (v) (baud t) (wasbtn t) (acs t) (charset t) (encoder t)
    (decoder t).
Definition set_wasbtn (v : bool) (t : tScreen) : tScreen :=
  mk_tScreen (ti t) (fini t) (w t) (h t) (out t) (curstyle t) (style t)
    (evch t) (quit t) (keys t) (cx t) (cy t) (mouse t) (cells t) (clear t)
    (cursorx t) (cursory t) (baud t) (v) (acs t) (charset t) (encoder t)
    (decoder t).
Definition set_acs (v : gmap Z gostring) (t : tScreen) : tScreen :=
  mk_tScreen (ti t) (fini t) (w t) (h t) (out t) (curstyle t) (style t)
    (evch t) (quit t) (keys t) (cx t) (cy t) (mouse t) (cells t) (clear t)
    (cursorx t) (cursory t) (baud t) (wasbtn t) (v) (charset t) (encoder t)
    (decoder t).
Definition set_charset (v : gostring) (t : tScreen) : tScreen :=
  mk_tScreen (ti t) (fini t) (w t) (h t) (out t) (curstyle t) (style t)
    (evch t) (quit t) (keys t) (cx t) (cy t) (mouse t) (cells t) (clear t)
    (cursorx t) (cursory t) (baud t) (wasbtn t) (acs t) (v) (encoder t)
    (decoder t).
Definition set_encoder (v : option Transformer) (t : tScreen) : tScreen :=
  mk_tScreen (ti t) (fini t) (w t) (h t) (out t) (curstyle t) (style t)
    (evch t) (quit t) (keys t) (cx t) (cy t) (mouse t) (cells t) (clear t)
    (cursorx t) (cursory t) (baud t) (wasbtn t) (acs t) (charset t) (v)
    (decoder t).
Definition set_decoder (v : option Transformer) (t : tScreen) : tScreen :=
  mk_tScreen (ti t) (fini t) (w t) (h t) (out t) (curstyle t) (style t)
    (evch t) (quit t) (keys t) (cx t) (cy t) (mouse t) (cells t) (clear t)
    (cursorx t) (cursory t) (baud t) (wasbtn t) (acs t) (charset t)
    (encoder t) (v).

Section Methods.
Context {MK : Masks} {ST : StyleOps} {CO : CellOps} {U8 : Utf8}.

Definition TPuts (s : gostring) (t : tScreen) : tScreen :=
  set_out (out t ++ Terminfo.TPuts (ti t) s (baud t)) t.

(** [io.WriteString(t.out, str)]. *)
Definition WriteString (s : gostring) (t : tScreen) : tScreen :=
  set_out (out t ++ s) t.

(** [PostEvent]: a [select] with the send and a [default] arm. *)
Definition PostEvent (ev : Event) (t : tScreen) : tScreen :=
  match select_arm false (send_ready (evch t)) true false with
  | Some ArmSend => set_evch (enqueue ev (evch t)) t
  | _ => t
  end.

Definition prepareKey (key : Key) (val : gostring) (t : tScreen) : tScreen :=
  if bytes_eqb val [] then t else set_keys (<[key := val]> (keys t)) t.

(** The keys [prepareKeys] looks up, in its order. *)
Definition prepared : list Key :=
  [KeyBackspace] ++ map KeyF (seq 1 64) ++
  [KeyInsert; KeyDelete; KeyHome; KeyEnd; KeyUp; KeyDown; KeyLeft; KeyRight;
   KeyPgUp; KeyPgDn; KeyHelp; KeyPrint; KeyCancel; KeyExit; KeyBacktab].

Definition prepareKeys (t : tScreen) : tScreen :=
  foldl (fun t k => prepareKey k (Terminfo.KeyString (ti t) k) t) t prepared.

(** [NewTerminfoScreen].  [lookup] is the result of [LookupTerminfo],
    [lines] and [columns] what [strconv.Atoi] makes of [$LINES] and
    [$COLUMNS] (0 when unset), [acsmap] the table [buildAcsMap] fills. *)
Definition NewTerminfoScreen (lookup : option Terminfo) (lines columns : Z)
    (acsmap : gmap Z gostring) : option tScreen :=
  match lookup with
  | None => None
  | Some ti =>
      let t := mk_tScreen ti false 0 0 [] 0 0 None SigNil ∅ 0 0 [] [] false
                 0 0 0 false ∅ [] None None in
      let t := if (0 <? Z.of_nat (length (Terminfo.Mouse ti)))
               then set_mouse (Terminfo.Mouse ti) t else t in
      let t := prepareKeys t in
      let t := set_acs acsmap t in
      let t := set_w (Terminfo.Columns ti) t in
      let t := set_h (Terminfo.Lines ti) t in
      let t := if lines =? 0 then t else set_h lines t in
      let t := if columns =? 0 then t else set_w columns t in
      Some t
  end.

Definition is_utf8 (cs : gostring) : bool := bytes_eqb cs (lit "UTF-8").
Definition is_ascii (cs : gostring) : bool := bytes_eqb cs (lit "US-ASCII").

(** [Init].  [env_charset] is what [getCharset] finds, [GetEncoding] the
    registry of codecs (encoder, decoder), [termio_ok] whether [termioInit]
    succeeds.  The boolean of the result is [true] when an error is
    returned. *)
Definition Init (env_charset : gostring)
    (GetEncoding : gostring -> option (Transformer * Transformer))
    (termio_ok : bool) (hp : RuneHeap) (t : tScreen)
  : RuneHeap * tScreen * bool :=
  let t := set_evch (Some (make_chan 10)) t in
  let t := set_charset env_charset t in
  let codec :=
    if is_utf8 (charset t) || is_ascii (charset t)
    then Some (set_decoder None (set_encoder None t))
    else match GetEncoding (charset t) with
         | Some (e, d) => Some (set_decoder (Some d) (set_encoder (Some e) t))
         | None => None
         end in
  match codec with
  | None => (hp, t, true)
  | Some t =>
      if negb termio_ok then (hp, t, true)
      else
        let t := TPuts (Terminfo.EnterCA (ti t)) t in
        let t := TPuts (Terminfo.EnterKeypad (ti t)) t in
        let t := TPuts (Terminfo.HideCursor (ti t)) t in
        let t := TPuts (Terminfo.Clear (ti t)) t in
        let t := set_quit SigOpen t in
        let t := set_cy (-1) (set_cx (-1) t) in
        let t := set_style StyleDefault t in
        let '(hp, cs) := ResizeCells hp [] 0 0 (w t) (h t) in
        let t := set_cells cs t in
        let t := set_cursory (-1) (set_cursorx (-1) t) in
        let t := set_fini false t in
        (hp, t, false)
  end.

Definition Fini (t : tScreen) : outcome tScreen :=
  let t := set_fini true (set_h 0 (set_w 0 t)) in
  let t := TPuts (Terminfo.ShowCursor (ti t)) t in
  let t := TPuts (Terminfo.AttrOff (ti t)) t in
  let t := TPuts (Terminfo.Clear (ti t)) t in
  let t := TPuts (Terminfo.ExitCA (ti t)) t in
  let t := TPuts (Terminfo.ExitKeypad (ti t)) t in
  let t := TPuts (Terminfo.TParm (ti t) (Terminfo.MouseMode (ti t)) 0) t in
  q <- match quit t with
       | SigNil => Returns SigNil
       | q => close_sig q
       end ;;
  let t := set_quit q t in
  Returns (set_clear false (set_curstyle (-1) (set_cells [] t))).

Definition SetStyle (style : Style) (hp : RuneHeap) (t : tScreen)
  : outcome (RuneHeap * tScreen) :=
  if negb (fini t) then Returns (hp, set_style style t) else Returns (hp, t).

Definition Clear (hp : RuneHeap) (t : tScreen) : outcome (RuneHeap * tScreen) :=
  if negb (fini t) then
    let '(hp, cs) := ClearCells hp (cells t) (style t) in
    Returns (hp, set_cells cs t)
  else Returns (hp, t).

(** The guard shared by [SetCell], [PutCell] and [GetCell]. *)
Definition outside (x y : Z) (t : tScreen) : bool :=
  fini t || (x <? 0) || (y <? 0) || (x >=? w t) || (y >=? h t).

Definition cell_index (x y : Z) (t : tScreen) : Z :=
  GoInt.add (GoInt.mul y (w t)) x.

Definition SetCell (x y : Z) (style : Style) (ch : RuneSlice)
    (hp : RuneHeap) (t : tScreen) : outcome (RuneHeap * tScreen) :=
  if outside x y t then Returns (hp, t)
  else
    cell <- index_cell (cells t) (cell_index x y t) ;;
    let '(hp, cell) := Cell_SetCell hp cell ch style in
    Returns (hp, set_cells (<[Z.to_nat (cell_index x y t) := cell]> (cells t)) t).

(** [cell] is the [*Cell] argument; [None] is the nil pointer. *)
Definition PutCell (x y : Z) (cell : option Cell)
    (hp : RuneHeap) (t : tScreen) : outcome (RuneHeap * tScreen) :=
  if outside x y t then Returns (hp, t)
  else
    cp <- index_cell (cells t) (cell_index x y t) ;;
    match cell with
    | None => Panics
    | Some cell =>
        let '(hp, cp) := Cell_PutStyle hp cp (Cell.Style cell) in
        let '(hp, cp) := Cell_PutChars hp cp (Cell.Ch cell) in
        Returns (hp, set_cells (<[Z.to_nat (cell_index x y t) := cp]> (cells t)) t)
    end.

(** [GetCell] returns a pointer to a fresh copy of the cell structure
    ([Some]), or nil ([None]). *)
Definition GetCell (x y : Z) (hp : RuneHeap) (t : tScreen)
  : outcome (option Cell * RuneHeap * tScreen) :=
  if outside x y t then Returns (None, hp, t)
  else
    cell <- index_cell (cells t) (cell_index x y t) ;;
    Returns (Some cell, hp, t).

Definition ShowCursor (x y : Z) (hp : RuneHeap) (t : tScreen)
  : outcome (RuneHeap * tScreen) :=
  if negb (fini t) then Returns (hp, set_cursory y (set_cursorx x t))
  else Returns (hp, t).

Definition HideCursor (hp : RuneHeap) (t : tScreen)
  : outcome (RuneHeap * tScreen) :=
  ShowCursor (-1) (-1) hp t.

Definition Size (t : tScreen) : Z * Z := (w t, h t).

Definition Colors (t : tScreen) : Z := Terminfo.Colors (ti t).

Definition CharacterSet (t : tScreen) : gostring := charset t.

(** *** Drawing *)

(** [encodeRune]: append the encoding of [r] in the terminal's character
    set to [buf]. *)
Definition encodeRune (r : rune) (buf : list Z) (t : tScreen) : list Z :=
  if r <? 128 then buf ++ [r mod 256]
  else
    match encoder t with
    | None => if (length buf =? 0)%nat then buf ++ lit "?" else buf
    | Some enc =>
        let '(nb, _, err) := Transform enc (utf8_EncodeRune r) in
        if negb err then
          if (length nb =? 0)%nat || (default 0 (head nb) =? 26) then
            if (length buf =? 0)%nat then
              match acs t !! r with
              | Some a => buf ++ a
              | None => buf ++ lit "?"
              end
            else buf
          else buf ++ nb
        else if (length buf =? 0)%nat then buf ++ lit "?"
        else buf
    end.

Definition emit_style (style : Style) (t : tScreen) : tScreen :=
  let '(fg, bg, attrs) := Decompose style in
  let t := TPuts (Terminfo.AttrOff (ti t)) t in
  let t := if negb (Z.land attrs AttrBold =? 0)
           then TPuts (Terminfo.Bold (ti t)) t else t in
  let t := if negb (Z.land attrs AttrUnderline =? 0)
           then TPuts (Terminfo.Underline (ti t)) t else t in
  let t := if negb (Z.land attrs AttrReverse =? 0)
           then TPuts (Terminfo.Reverse (ti t)) t else t in
  let t := if negb (Z.land attrs AttrBlink =? 0)
           then TPuts (Terminfo.Blink (ti t)) t else t in
  let t := if negb (Z.land attrs AttrDim =? 0)
           then TPuts (Terminfo.Dim (ti t)) t else t in
  let t := if negb (fg =? ColorDefault)
           then TPuts (Terminfo.TParm (ti t) (Terminfo.SetFg (ti t))
                         (GoInt.sub fg 1)) t
           else t in
  let t := if negb (bg =? ColorDefault)
           then TPuts (Terminfo.TParm (ti t) (Terminfo.SetBg (ti t))
                         (GoInt.sub bg 1)) t
           else t in
  set_curstyle style t.

(** The text and the width [drawCell] settles on for a cell at column
    [x]. *)
Definition cell_text (x : Z) (cell : Cell) (hp : RuneHeap) (t : tScreen)
  : gostring * Z :=
  let width := Cell.Width cell in
  let ch := slice_runes hp (Cell.Ch cell) in
  let '(str, width) :=
    if is_utf8 (charset t) then
      if (length ch =? 0)%nat then (lit " ", 1)
      else (concat (map utf8_EncodeRune ch), width)
    else
      let '(str, width) :=
        if (length ch =? 0)%nat then (lit " ", 1)
        else
          let buf := foldl (fun buf r => encodeRune r buf t) [] ch in
          if (length buf =? 0)%nat then (lit " ", width) else (buf, width) in
      if (1 <? Cell.Width cell) && bytes_eqb str (lit "?") then
        if x <? GoInt.sub (w t) 1 then (lit "? ", 2) else (lit "?", 1)
      else (str, width) in
  if (width =? 2) && (x >=? GoInt.sub (w t) 1) then (lit " ", 1)
  else (str, width).

Definition drawCell (x y : Z) (cell : Cell) (hp : RuneHeap) (t : tScreen)
  : tScreen :=
  let t := if negb (cy t =? y) || negb (cx t =? x)
           then TPuts (Terminfo.TGoto (ti t) x y) t else t in
  let style := Cell.Style cell in
  let style := if style =? StyleDefault then TScreen.style t else style in
  let t := if negb (style =? curstyle t) then emit_style style t else t in
  let '(str, width) := cell_text x cell hp t in
  let t := WriteString str t in
  set_cx (GoInt.add x width) (set_cy y t).

Definition showCursor (t : tScreen) : tScreen :=
  let x := cursorx t in
  let y := cursory t in
  if (x <? 0) || (y <? 0) || (x >=? w t) || (y >=? h t) then
    TPuts (Terminfo.HideCursor (ti t)) t
  else
    let t := if negb (cx t =? x) || negb (cy t =? y)
             then TPuts (Terminfo.TGoto (ti t) x y) t else t in
    let t := TPuts (Terminfo.ShowCursor (ti t)) t in
    set_cy y (set_cx x t).

Definition clearScreen (t : tScreen) : tScreen :=
  set_clear false (TPuts (Terminfo.Clear (ti t)) t).

Definition hideCursor (t : tScreen) : tScreen :=
  TPuts (Terminfo.HideCursor (ti t)) t.

(** The inner loop of [draw] for one row, from column [col]; every
    iteration advances [col], so [n] iterations suffice for a row of at
    most [n] remaining columns. *)
Fixpoint draw_row (n : nat) (row col : Z) (hp : RuneHeap) (t : tScreen)
  : outcome tScreen :=
  match n with
  | O => Returns t
  | S n =>
      if col <? w t then
        let i := GoInt.add (GoInt.mul row (w t)) col in
        cell <- index_cell (cells t) i ;;
        if negb (Cell.Dirty cell) then draw_row n row (GoInt.add col 1) hp t
        else
          let t := drawCell col row cell hp t in
          let col := if 1 <? Cell.Width cell then GoInt.add col 1 else col in
          let t := set_cells (<[Z.to_nat i := Cell.with_Dirty false cell]>
                                (cells t)) t in
          draw_row n row (GoInt.add col 1) hp t
      else Returns t
  end.

Fixpoint draw_rows (n : nat) (row : Z) (hp : RuneHeap) (t : tScreen)
  : outcome tScreen :=
  match n with
  | O => Returns t
  | S n =>
      if row <? h t then
        t <- draw_row (Z.to_nat (w t)) row 0 hp t ;;
        draw_rows n (GoInt.add row 1) hp t
      else Returns t
  end.

Definition draw (hp : RuneHeap) (t : tScreen) : outcome tScreen :=
  let t := set_cy (-1) (set_cx (-1) t) in
  let t := hideCursor t in
  let t := if clear t then clearScreen t else t in
  t <- draw_rows (Z.to_nat (h t)) 0 hp t ;;
  Returns (showCursor t).

(** [resize]; [winsz] is what [getWinSize] reports, [None] on error. *)
Definition resize (winsz : option (Z * Z)) (hp : RuneHeap) (t : tScreen)
  : RuneHeap * tScreen :=
  match winsz with
  | Some (w', h') =>
      if negb (w' =? w t) || negb (h' =? h t) then
        let t := set_cy (-1) (set_cx (-1) t) in
        let '(hp, cs) := ResizeCells hp (cells t) (w t) (h t) w' h' in
        let t := set_h h' (set_w w' (set_cells cs t)) in
        let '(hp, cs) := InvalidateCells hp (cells t) in
        let t := set_cells cs t in
        (hp, PostEvent (NewEventResize w' h') t)
      else (hp, t)
  | None => (hp, t)
  end.

Definition Show (winsz : option (Z * Z)) (hp : RuneHeap) (t : tScreen)
  : outcome (RuneHeap * tScreen) :=
  if negb (fini t) then
    let '(hp, t) := resize winsz hp t in
    t <- draw hp t ;;
    Returns (hp, t)
  else Returns (hp, t).

Definition Sync (winsz : option (Z * Z)) (hp : RuneHeap) (t : tScreen)
  : outcome (RuneHeap * tScreen) :=
  let '(hp, t) := resize winsz hp t in
  let t := set_clear true t in
  let '(hp, cs) := InvalidateCells hp (cells t) in
  let t := set_cells cs t in
  t <- draw hp t ;;
  Returns (hp, t).

Definition EnableMouse (t : tScreen) : tScreen :=
  if negb (length (mouse t) =? 0)%nat
  then TPuts (Terminfo.TParm (ti t) (Terminfo.MouseMode (ti t)) 1) t else t.

Definition DisableMouse (t : tScreen) : tScreen :=
  if negb (length (mouse t) =? 0)%nat
  then TPuts (Terminfo.TParm (ti t) (Terminfo.MouseMode (ti t)) 0) t else t.

(** *** The input decoder

    The unread part of the [bytes.Buffer] is a list of bytes; [ReadByte]
    drops its head.  A sub-parser returns the pair (partial, complete) of
    the source together with the buffer and the screen it leaves behind. *)

Definition parsed : Type := bool * bool * list Z * tScreen.

Definition postMouseEvent (x y btn : Z) (t : tScreen) : tScreen :=
  let sel := Z.land btn 67 in
  let '(button, t) :=
    if sel =? 0 then (Button1, set_wasbtn true t)
    else if sel =? 1 then (Button2, set_wasbtn true t)
    else if sel =? 2 then (Button3, set_wasbtn true t)
    else if sel =? 3 then (ButtonNone, set_wasbtn false t)
    else if sel =? 64 then
      (if negb (wasbtn t) then WheelUp else Button1, t)
    else if sel =? 65 then
      (if negb (wasbtn t) then WheelDown else Button2, t)
    else (ButtonNone, t) in
  let mod_ := ModNone in
  let mod_ := if negb (Z.land btn 4 =? 0) then Z.lor mod_ ModShift else mod_ in
  let mod_ := if negb (Z.land btn 8 =? 0) then Z.lor mod_ ModMeta else mod_ in
  let mod_ := if negb (Z.land btn 16 =? 0) then Z.lor mod_ ModCtrl else mod_ in
  let x := if x <? 0 then 0 else x in
  let x := if x >? GoInt.sub (w t) 1 then GoInt.sub (w t) 1 else x in
  let y := if y <? 0 then 0 else y in
  let y := if y >? GoInt.sub (h t) 1 then GoInt.sub (h t) 1 else y in
  PostEvent (NewEventMouse x y button mod_) t.

(** What the byte loop of a mouse parser finds: not a mouse record, a
    possible prefix of one, or a record ending at index [last], with the
    arguments handed to [postMouseEvent]. *)
Inductive mouse_scan :=
| MouseFail
| MousePartial
| MouseRecord (last : nat) (x y btn : Z).

(** The local variables of [parseSgrMouse]. *)
Record sgr_vars := mk_sgr {
  sgr_x : Z; sgr_btn : Z; sgr_state : Z;
  sgr_dig : bool; sgr_neg : bool; sgr_val : Z
}.

Definition sgr_init : sgr_vars := mk_sgr 0 0 0 false false 0.

(** The loop [for i = range b] of [parseSgrMouse], at index [i]. *)
Fixpoint sgr_loop (b : list Z) (i : nat) (v : sgr_vars) : mouse_scan :=
  match b with
  | [] => MousePartial
  | c :: b' =>
      let '(mk_sgr x btn state dig neg val) := v in
      if c =? 27 then
        if negb (state =? 0) then MouseFail
        else sgr_loop b' (S i) (mk_sgr x btn 1 dig neg val)
      else if c =? 155 then
        if negb (state =? 0) then MouseFail
        else sgr_loop b' (S i) (mk_sgr x btn 2 dig neg val)
      else if c =? 91 then
        if negb (state =? 1) then MouseFail
        else sgr_loop b' (S i) (mk_sgr x btn 2 dig neg val)
      else if c =? 60 then
        if negb (state =? 2) then MouseFail
        else sgr_loop b' (S i) (mk_sgr x btn 3 false false 0)
      else if c =? 45 then
        if negb (state =? 3) || negb (state =? 4) || negb (state =? 5)
        then MouseFail
        else if dig || neg then MouseFail
        else sgr_loop b' (S i) (mk_sgr x btn state dig true val)
      else if (48 <=? c) && (c <=? 57) then
        if negb (state =? 3) && negb (state =? 4) && negb (state =? 5)
        then MouseFail
        else
          let val := GoInt.mul val 10 in
          let val := GoInt.add val (byte_sub c 48) in
          sgr_loop b' (S i) (mk_sgr x btn state true neg val)
      else if c =? 59 then
        let val := if neg then GoInt.neg val else val in
        if state =? 3 then sgr_loop b' (S i) (mk_sgr x val 4 false false 0)
        else if state =? 4 then
          sgr_loop b' (S i) (mk_sgr val btn 5 false false 0)
        else MouseFail
      else if (c =? 109) || (c =? 77) then
        if negb (state =? 5) then MouseFail
        else
          let val := if neg then GoInt.neg val else val in
          let y := val in
          let btn := Z.ldiff btn 32 in
          let btn := if c =? 109 then Z.ldiff (Z.lor btn 3) 64 else btn in
          MouseRecord i x y btn
      else sgr_loop b' (S i) v
  end.

(** The tail of a mouse parser: on a record, [ReadByte] is called
    [last + 1] times and the event is posted. *)
Definition finish_mouse (r : mouse_scan) (buf : list Z) (t : tScreen)
  : parsed :=
  match r with
  | MouseFail => (false, false, buf, t)
  | MousePartial => (true, false, buf, t)
  | MouseRecord last x y btn =>
      (true, true, drop (S last) buf, postMouseEvent x y btn t)
  end.

Definition parseSgrMouse (buf : list Z) (t : tScreen) : parsed :=
  finish_mouse (sgr_loop buf 0 sgr_init) buf t.

(** The loop of [parseXtermMouse]; [state], [btn], [x] are its locals. *)
Fixpoint xterm_loop (b : list Z) (i : nat) (state btn x : Z) : mouse_scan :=
  match b with
  | [] => MousePartial
  | c :: b' =>
      if state =? 0 then
        if c =? 27 then xterm_loop b' (S i) 1 btn x
        else if c =? 155 then xterm_loop b' (S i) 2 btn x
        else MouseFail
      else if state =? 1 then
        if negb (c =? 91) then MouseFail else xterm_loop b' (S i) 2 btn x
      else if state =? 2 then
        if negb (c =? 77) then MouseFail
        else xterm_loop b' (S i) (GoInt.add state 1) btn x
      else if state =? 3 then xterm_loop b' (S i) (GoInt.add state 1) c x
      else if state =? 4 then
        xterm_loop b' (S i) (GoInt.add state 1) btn
          (GoInt.sub (GoInt.sub c 32) 1)
      else if state =? 5 then
        MouseRecord i x (GoInt.sub (GoInt.sub c 32) 1) btn
      else xterm_loop b' (S i) state btn x
  end.

Definition parseXtermMouse (buf : list Z) (t : tScreen) : parsed :=
  finish_mouse (xterm_loop buf 0 0 0 0) buf t.

(** The loop of [parseFunctionKey] over the entries of [t.keys] in the
    order [ord] in which this [range] visits them: the first visited entry
    whose escape is a prefix of the buffer, or else the [partial] flag. *)
Fixpoint fkey_loop (ord : list (Key * list Z)) (b : list Z) (partial : bool)
  : (Key * list Z) + bool :=
  match ord with
  | [] => inr partial
  | (k, esc) :: ord' =>
      if HasPrefix b esc then inl (k, esc)
      else fkey_loop ord' b (if HasPrefix esc b then true else partial)
  end.

Definition parseFunctionKey (ord : list (Key * list Z)) (buf : list Z)
    (t : tScreen) : outcome parsed :=
  match fkey_loop ord buf false with
  | inl (k, esc) =>
      r <- (if (length esc =? 1)%nat
            then match buf with
                 | b0 :: _ => Returns b0
                 | [] => Panics
                 end
            else Returns 0) ;;
      let t := PostEvent (NewEventKey k r ModNone) t in
      Returns (true, true, drop (length esc) buf, t)
  | inr partial => Returns (partial, false, buf, t)
  end.

(** [bytes.Buffer.ReadRune]: [None] is the [io.EOF] error of an empty
    buffer, else the rune and the number of bytes it takes. *)
Definition ReadRune (buf : list Z) : option (rune * nat) :=
  match buf with
  | [] => None
  | c :: _ => if c <? 128 then Some (c, 1%nat) else Some (utf8_DecodeRune buf)
  end.

(** The loop [for l := 1; l <= len(b); l++] of [parseRune] over the
    prefixes of [b], for the [n] lengths from [l] on. *)
Fixpoint decode_loop (dec : Transformer) (b : list Z) (l n : nat)
    (buf : list Z) (t : tScreen) : parsed :=
  match n with
  | O => (true, false, buf, t)
  | S n =>
      let '(o, nin, _) := Transform dec (take l b) in
      if negb (length o =? 0)%nat then
        let r := fst (utf8_DecodeRune o) in
        let t := if negb (r =? utf8_RuneError)
                 then PostEvent (NewEventKey KeyRune r ModNone) t else t in
        (true, true, drop nin buf, t)
      else decode_loop dec b (S l) n buf t
  end.

Definition parseRune (buf : list Z) (t : tScreen) : outcome parsed :=
  match buf with
  | [] => Panics
  | b0 :: _ =>
      if (32 <=? b0) && (b0 <=? 127) then
        let t := PostEvent (NewEventKey KeyRune b0 ModNone) t in
        Returns (true, true, drop 1 buf, t)
      else if b0 <? 128 then Returns (false, false, buf, t)
      else if is_utf8 (charset t) then
        if utf8_FullRune buf then
          match ReadRune buf with
          | Some (r, n) =>
              let t := PostEvent (NewEventKey KeyRune r ModNone) t in
              Returns (true, true, drop n buf, t)
          | None => Returns (true, false, buf, t)
          end
        else Returns (true, false, buf, t)
      else if is_ascii (charset t) then
        let t := PostEvent (NewEventKey KeyRune (byte_sub b0 128) ModAlt) t in
        Returns (true, true, drop 1 buf, t)
      else
        match decoder t with
        | None => Panics
        | Some dec => Returns (decode_loop dec buf 1 (length buf) buf t)
        end
  end.

Definition count (part : bool) (partials : nat) : nat :=
  if part then S partials else partials.

(** [scanInput], for at most [fuel] iterations of its loop.  [ord i] is the
    order in which the [i]-th coming call of [parseFunctionKey] ranges over
    [t.keys]. *)
Fixpoint scanInput (fuel : nat) (ord : nat -> list (Key * list Z))
    (buf : list Z) (expire : bool) (t : tScreen) : run (list Z * tScreen) :=
  match fuel with
  | O => Unfinished
  | S fuel =>
      let continue buf t := scanInput fuel (fun i => ord (S i)) buf expire t in
      if (length buf =? 0)%nat then Finished ([], t)
      else
        match parseRune buf t with
        | Panics => Faulted
        | Returns (part, comp, buf, t) =>
        if comp then continue buf t else
        let partials := count part 0 in
        match parseFunctionKey (ord O) buf t with
        | Panics => Faulted
        | Returns (part, comp, buf, t) =>
        if comp then continue buf t else
        let partials := count part partials in
        let mouse_parsers :=
          if negb (bytes_eqb (Terminfo.Mouse (ti t)) []) then
            let '(part, comp, buf, t) := parseXtermMouse buf t in
            if comp then inl (buf, t) else
            let partials := count part partials in
            let '(part, comp, buf, t) := parseSgrMouse buf t in
            if comp then inl (buf, t) else
            inr (count part partials, buf, t)
          else inr (partials, buf, t) in
        match mouse_parsers with
        | inl (buf, t) => continue buf t
        | inr (partials, buf, t) =>
            if (partials =? 0)%nat || expire then
              let by_ := default 0 (head buf) in
              let t := PostEvent (NewEventKey KeyRune by_ ModNone) t in
              continue (drop 1 buf) t
            else Finished (buf, t)
        end
        end
        end
  end.

(** One turn of [inputLoop] once the read has returned: [io.EOF] (the read
    timed out), an error, or a chunk of bytes appended to the buffer. *)
Inductive read_result :=
| ReadEOF
| ReadError
| ReadChunk (chunk : list Z).

Definition inputTurn (fuel : nat) (ord : nat -> list (Key * list Z))
    (rd : read_result) (buf : list Z) (t : tScreen)
  : run (list Z * tScreen) :=
  match rd with
  | ReadEOF =>
      if (0 <? length buf)%nat then scanInput fuel ord buf true t
      else Finished (buf, t)
  | ReadError => Finished (buf, t)
  | ReadChunk chunk => scanInput fuel ord (buf ++ chunk) false t
  end.

(** *** Polling *)

(** A receive from the event channel is ready when an event is queued. *)
Definition recv_event_ready (c : option chan) : bool :=
  match c with
  | Some c => negb (length (queue c) =? 0)%nat
  | None => false
  end.

(** [PollEvent]: a [select] between a receive from [quit] and a receive
    from the event channel (the second arm of [select_arm]), with no
    [default] arm.  The result is the event, or nil once [quit] is
    closed. *)
Definition PollEvent (pick : bool) (t : tScreen)
  : blocking (option Event * tScreen) :=
  match select_arm (recv_ready (quit t)) (recv_event_ready (evch t))
          false pick with
  | Some ArmQuit => Proceeds (None, t)
  | Some _ =>
      match evch t with
      | Some c =>
          match queue c with
          | ev :: q =>
              Proceeds (Some ev, set_evch (Some {| cap := cap c; queue := q |}) t)
          | [] => Blocks
          end
      | None => Blocks
      end
  | None => Blocks
  end.

(** *** The alternate character set *)

Context {RN : Runes}.

(** The table [vtNames] of [buildAcsMap]. *)
Definition vtNames : list acsMap :=
  [ {| utf := RuneSterling; vt100 := 125; ascii := lit "f" |};
    {| utf := RuneDArrow; vt100 := 46; ascii := lit "v" |};
    {| utf := RuneLArrow; vt100 := 44; ascii := lit "<" |};
    {| utf := RuneRArrow; vt100 := 43; ascii := lit ">" |};
    {| utf := RuneUArrow; vt100 := 45; ascii := lit "^" |};
    {| utf := RuneBullet; vt100 := 126; ascii := lit "o" |};
    {| utf := RuneBoard; vt100 := 104; ascii := lit "#" |};
    {| utf := RuneCkBoard; vt100 := 97; ascii := lit ":" |};
    {| utf := RuneDegree; vt100 := 102; ascii := [92] |};
    {| utf := RuneDiamond; vt100 := 96; ascii := lit "+" |};
    {| utf := RuneGEqual; vt100 := 122; ascii := lit ">" |};
    {| utf := RunePi; vt100 := 123; ascii := lit "*" |};
    {| utf := RuneHLine; vt100 := 113; ascii := lit "-" |};
    {| utf := RuneLantern; vt100 := 105; ascii := lit "#" |};
    {| utf := RunePlus; vt100 := 110; ascii := lit "+" |};
    {| utf := RuneLEqual; vt100 := 121; ascii := lit "<" |};
    {| utf := RuneLLCorner; vt100 := 109; ascii := lit "+" |};
    {| utf := RuneLRCorner; vt100 := 106; ascii := lit "+" |};
    {| utf := RuneNEqual; vt100 := 124; ascii := lit "!" |};
    {| utf := RunePlMinus; vt100 := 103; ascii := lit "#" |};
    {| utf := RuneS1; vt100 := 111; ascii := lit "~" |};
    {| utf := RuneS3; vt100 := 112; ascii := lit "-" |};
    {| utf := RuneS7; vt100 := 114; ascii := lit "-" |};
    {| utf := RuneS9; vt100 := 115; ascii := lit "_" |};
    {| utf := RuneBlock; vt100 := 48; ascii := lit "#" |};
    {| utf := RuneTTee; vt100 := 119; ascii := lit "+" |};
    {| utf := RuneRTee; vt100 := 117; ascii := lit "+" |};
    {| utf := RuneLTee; vt100 := 116; ascii := lit "+" |};
    {| utf := RuneBTee; vt100 := 118; ascii := lit "+" |};
    {| utf := RuneULCorner; vt100 := 108; ascii := lit "+" |};
    {| utf := RuneURCorner; vt100 := 107; ascii := lit "+" |};
    {| utf := RuneVLine; vt100 := 120; ascii := lit "|" |} ].

(** The first loop of [buildAcsMap]: prefill the defaults. *)
Definition acs_defaults : gmap Z gostring :=
  foldl (fun m e => <[rune_of (utf e) := ascii e]> m) ∅ vtNames.

(** The inner loop: the first entry of [vtNames] named [srcv], if any,
    gets the terminal's sequence for it. *)
Definition acs_assign (ti : Terminfo) (srcv : Z) (dstv : gostring)
    (m : gmap Z gostring) : gmap Z gostring :=
  match find (fun e => vt100 e =? srcv) vtNames with
  | Some e =>
      <[rune_of (utf e) := Terminfo.EnterAcs ti ++ dstv ++ Terminfo.ExitAcs ti]> m
  | None => m
  end.

(** The loop [for len(acsstr) > 2] over the pairs of [ti.AltChars];
    [string(acsstr[1])] is the UTF-8 encoding of that byte's value. *)
Fixpoint acs_pairs (ti : Terminfo) (acsstr : list Z) (m : gmap Z gostring)
  : gmap Z gostring :=
  match acsstr with
  | srcv :: dst :: rest =>
      if (2 <? length acsstr)%nat
      then acs_pairs ti rest (acs_assign ti srcv (utf8_EncodeRune dst) m)
      else m
  | _ => m
  end.

Definition buildAcsMap (t : tScreen) : tScreen :=
  set_acs (acs_pairs (ti t) (Terminfo.AltChars (ti t)) acs_defaults) t.

End Methods.
End TScreen.

(** * The console backend: [cScreen] *)

(** The sixteen palette colours [mapColor2RGB] distinguishes. *)
Class Palette := {
  ColorBlack : Color; ColorRed : Color; ColorGreen : Color;
  ColorBlue : Color; ColorYellow : Color; ColorMagenta : Color;
  ColorCyan : Color; ColorWhite : Color; ColorGrey : Color;
  ColorBrightRed : Color; ColorBrightGreen : Color; ColorBrightBlue : Color;
  ColorBrightYellow : Color; ColorBrightMagenta : Color;
  ColorBrightCyan : Color; ColorBrightWhite : Color
}.

(** [unicode/utf16.Encode]. *)
Class Utf16 := { utf16_Encode : list rune -> list Z }.

Module CScreen.

(** [int16(v)] for an [int] [v]. *)
Definition int16 (v : Z) : Z := (v + 32768) mod 65536 - 32768.

Record coord := { c_x : Z; c_y : Z }.
Record rect := { left : Z; top : Z; right : Z; bottom : Z }.
Record cursorInfo := { size : Z; visible : Z }.
Record consoleInfo := {
  ci_size : coord; ci_pos : coord; ci_attrs : Z; ci_win : rect;
  ci_maxsz : coord
}.

(** The calls into [kernel32.dll] and [syscall] that change the console,
    with their arguments; a screen records the calls it has made. *)
Inductive ConsoleCall :=
| SetConsoleCursorInfo (info : cursorInfo)
| SetConsoleCursorPosition (pos : coord)
| SetConsoleInMode (mode : Z)
| SetConsoleOutMode (mode : Z)
| SetConsoleScreenBufferSize (sz : coord)
| SetConsoleWindowInfo (r : rect)
| SetConsoleTextAttribute (attr : Z)
| FillConsoleOutputAttribute (attr count : Z) (pos : coord)
| FillConsoleOutputCharacter (ch count : Z) (pos : coord)
| WriteConsole (ch : list Z)
| CloseIn
| CloseOut.

(** The fields of [cScreen]; the two handles are represented by the calls
    made on them. *)
Record cScreen := mk_cScreen {
  mbtns : Z;
  evch : option chan;
  quit : sigchan;
  curx : Z;
  cury : Z;
  style : Style;
  clear : bool;
  w : Z;
  h : Z;
  oscreen : consoleInfo;
  ocursor : cursorInfo;
  oimode : Z;
  oomode : Z;
  cells : list Cell;
  calls : list ConsoleCall
}.

Definition set_evch (v : option chan) (t : cScreen) : cScreen :=
  mk_cScreen (mbtns t) (v) (quit t) (curx t) (cury t) (style t) (clear t)
    (w t) (h t) (oscreen t) (ocursor t) (oimode t) (oomode t) (cells t)
    (calls t).
Definition set_quit (v : sigchan) (t : cScreen) : cScreen :=
  mk_cScreen (mbtns t) (evch t) (v) (curx t) (cury t) (style t) (clear t)
    (w t) (h t) (oscreen t) (ocursor t) (oimode t) (oomode t) (cells t)
    (calls t).
Definition set_curx (v : Z) (t : cScreen) : cScreen :=
  mk_cScreen (mbtns t) (evch t) (quit t) (v) (cury t) (style t) (clear t)
    (w t) (h t) (oscreen t) (ocursor t) (oimode t) (oomode t) (cells t)
    (calls t).
Definition set_cury (v : Z) (t : cScreen) : cScreen :=
  mk_cScreen (mbtns t) (evch t) (quit t) (curx t) (v) (style t) (clear t)
    (w t) (h t) (oscreen t) (ocursor t) (oimode t) (oomode t) (cells t)
    (calls t).
Definition set_style (v : Style) (t : cScreen) : cScreen :=
  mk_cScreen (mbtns t) (evch t) (quit t) (curx t) (cury t) (v) (clear t)
    (w t) (h t) (oscreen t) (ocursor t) (oimode t) (oomode t) (cells t)
    (calls t).
Definition set_clear (v : bool) (t : cScreen) : cScreen :=
  mk_cScreen (mbtns t) (evch t) (quit t) (curx t) (cury t) (style t) (v)
    (w t) (h t) (oscreen t) (ocursor t) (oimode t) (oomode t) (cells t)
    (calls t).
Definition set_w (v : Z) (t : cScreen) : cScreen :=
  mk_cScreen (mbtns t) (evch t) (quit t) (curx t) (cury t) (style t)
    (clear t) (v) (h t) (oscreen t) (ocursor t) (oimode t) (oomode t)
    (cells t) (calls t).
Definition set_h (v : Z) (t : cScreen) : cScreen :=
  mk_cScreen (mbtns t) (evch t) (quit t) (curx t) (cury t) (style t)
    (clear t) (w t) (v) (oscreen t) (ocursor t) (oimode t) (oomode t)
    (cells t) (calls t).
Definition set_oscreen (v : consoleInfo) (t : cScreen) : cScreen :=
  mk_cScreen (mbtns t) (evch t) (quit t) (curx t) (cury t) (style t)
    (clear t) (w t) (h t) (v) (ocursor t) (oimode t) (oomode t) (cells t)
    (calls t).
Definition set_ocursor (v : cursorInfo) (t : cScreen) : cScreen :=
  mk_cScreen (mbtns t) (evch t) (quit t) (curx t) (cury t) (style t)
    (clear t) (w t) (h t) (oscreen t) (v) (oimode t) (oomode t) (cells t)
    (calls t).
Definition set_oimode (v : Z) (t : cScreen) : cScreen :=
  mk_cScreen (mbtns t) (evch t) (quit t) (curx t) (cury t) (style t)
    (clear t) (w t) (h t) (oscreen t) (ocursor t) (v) (oomode t) (cells t)
    (calls t).
Definition set_oomode (v : Z) (t : cScreen) : cScreen :=
  mk_cScreen (mbtns t) (evch t) (quit t) (curx t) (cury t) (style t)
    (clear t) (w t) (h t) (oscreen t) (ocursor t) (oimode t) (v) (cells t)
    (calls t).
Definition set_cells (v : list Cell) (t : cScreen) : cScreen :=
  mk_cScreen (mbtns t) (evch t) (quit t) (curx t) (cury t) (style t)
    (clear t) (w t) (h t) (oscreen t) (ocursor t) (oimode t) (oomode t) (v)
    (calls t).
Definition set_calls (v : list ConsoleCall) (t : cScreen) : cScreen :=
  mk_cScreen (mbtns t) (evch t) (quit t) (curx t) (cury t) (style t)
    (clear t) (w t) (h t) (oscreen t) (ocursor t) (oimode t) (oomode t)
    (cells t) (v).

Definition modeMouseEn : Z := 16.
Definition modeResizeEn : Z := 8.

Section Methods.
Context {MK : Masks} {ST : StyleOps} {CO : CellOps} {PA : Palette}
  {U16 : Utf16}.

Definition call (c : ConsoleCall) (s : cScreen) : cScreen :=
  set_calls (calls s ++ [c]) s.

(** [PostEvent]: a [select] between a receive from [quit] and the send,
    with no [default] arm. *)
Definition PostEvent (pick : bool) (ev : Event) (s : cScreen)
  : blocking cScreen :=
  match select_arm (recv_ready (quit s)) (send_ready (evch s)) false pick with
  | Some ArmSend => Proceeds (set_evch (enqueue ev (evch s)) s)
  | Some _ => Proceeds s
  | None => Blocks
  end.

Definition setCursorInfo (info : cursorInfo) (s : cScreen) : cScreen :=
  call (SetConsoleCursorInfo info) s.

Definition setCursorPos (x y : Z) (s : cScreen) : cScreen :=
  call (SetConsoleCursorPosition {| c_x := int16 x; c_y := int16 y |}) s.

Definition setBufferSize (x y : Z) (s : cScreen) : cScreen :=
  call (SetConsoleScreenBufferSize {| c_x := int16 x; c_y := int16 y |}) s.

Definition setInMode (mode : Z) (s : cScreen) : cScreen :=
  call (SetConsoleInMode mode) s.

Definition setOutMode (mode : Z) (s : cScreen) : cScreen :=
  call (SetConsoleOutMode mode) s.

Definition showCursor (s : cScreen) : cScreen :=
  setCursorInfo {| size := 100; visible := 1 |} s.

Definition hideCursor (s : cScreen) : cScreen :=
  setCursorInfo {| size := 1; visible := 0 |} s.

Definition mapColor2RGB (c : Color) : Z :=
  if c =? ColorBlack then 0
  else if c =? ColorRed then 4
  else if c =? ColorGreen then 2
  else if c =? ColorBlue then 1
  else if c =? ColorYellow then 6
  else if c =? ColorMagenta then 5
  else if c =? ColorCyan then 3
  else if c =? ColorWhite then 7
  else if c =? ColorGrey then 8
  else if c =? ColorBrightRed then 12
  else if c =? ColorBrightGreen then 10
  else if c =? ColorBrightBlue then 9
  else if c =? ColorBrightYellow then 14
  else if c =? ColorBrightMagenta then 13
  else if c =? ColorBrightCyan then 11
  else if c =? ColorBrightWhite then 15
  else 0.

Definition mapStyle (style : Style) : Z :=
  let '(f, b, a) := Decompose style in
  let f := if f =? ColorDefault then ColorWhite else f in
  let b := if b =? ColorDefault then ColorBlack else b in
  let attr :=
    if negb (Z.land a AttrReverse =? 0)
    then Z.lor (mapColor2RGB b) (Z.shiftl (mapColor2RGB f) 4 mod 65536)
    else Z.lor (mapColor2RGB f) (Z.shiftl (mapColor2RGB b) 4 mod 65536) in
  let attr := if negb (Z.land a AttrBold =? 0) then Z.lor attr 8 else attr in
  let attr := if negb (Z.land a AttrDim =? 0) then Z.ldiff attr 8 else attr in
  let attr := if negb (Z.land a AttrUnderline =? 0)
              then Z.lor attr 32768 else attr in
  attr.

Definition clearScreen (style : Style) (s : cScreen) : cScreen :=
  let pos := {| c_x := 0; c_y := 0 |} in
  let attr := mapStyle style in
  let count := GoInt.mul (w s) (h s) mod 2 ^ 32 in
  let s := call (FillConsoleOutputAttribute attr count pos) s in
  call (FillConsoleOutputCharacter 32 count pos) s.

(** [resize]; [info] is what [GetConsoleScreenBufferInfo] reports. *)
Definition resize (pick : bool) (info : consoleInfo) (hp : RuneHeap)
    (s : cScreen) : blocking (RuneHeap * cScreen) :=
  let win := ci_win info in
  let w' := int16 (int16 (right win - left win) + 1) in
  let h' := int16 (int16 (bottom win - top win) + 1) in
  if (w s =? w') && (h s =? h') then Proceeds (hp, s)
  else
    let '(hp, cs) := ResizeCells hp (cells s) (w s) (h s) w' h' in
    let s := set_h h' (set_w w' (set_cells cs s)) in
    let r := {| left := 0; top := 0; right := int16 (GoInt.sub w' 1);
                bottom := int16 (GoInt.sub h' 1) |} in
    let s := call (SetConsoleWindowInfo r) s in
    let s := setBufferSize w' h' s in
    match PostEvent pick (NewEventResize w' h') s with
    | Proceeds s => Proceeds (hp, s)
    | Blocks => Blocks
    end.

(** [Init].  [open_in] and [open_out] tell whether [CONIN$] and [CONOUT$]
    open; [ocur], [oscr], [oom], [oim] are the console state read back at
    start-up and [info] the one [resize] reads.  The boolean of the result
    is [true] when an error is returned. *)
Definition Init (open_in open_out : bool) (ocur : cursorInfo)
    (oscr info : consoleInfo) (oom oim : Z) (pick : bool) (hp : RuneHeap)
    (s : cScreen) : blocking (RuneHeap * cScreen * bool) :=
  let s := set_evch (Some (make_chan 2)) s in
  let s := set_quit SigOpen s in
  if negb open_in then Proceeds (hp, s, true)
  else if negb open_out then Proceeds (hp, call CloseIn s, true)
  else
    let s := set_cury (-1) (set_curx (-1) s) in
    let s := set_ocursor ocur s in
    let s := set_oscreen oscr s in
    let s := set_oomode oom s in
    let s := set_oimode oim s in
    match resize pick info hp s with
    | Blocks => Blocks
    | Proceeds (hp, s) =>
        let s := setInMode modeResizeEn s in
        let s := setOutMode 0 s in
        let s := clearScreen (style s) s in
        let s := hideCursor s in
        Proceeds (hp, s, false)
    end.

Definition Fini (s : cScreen) : outcome cScreen :=
  let s := set_style StyleDefault s in
  let s := set_cury (-1) (set_curx (-1) s) in
  let s := setCursorInfo (ocursor s) s in
  let s := setInMode (oimode s) s in
  let s := setOutMode (oomode s) s in
  let s := setBufferSize (c_x (ci_size (oscreen s))) (c_y (ci_size (oscreen s))) s in
  let s := clearScreen StyleDefault s in
  let s := setCursorPos 0 0 s in
  let s := call (SetConsoleTextAttribute (mapStyle StyleDefault)) s in
  q <- close_sig (quit s) ;;
  let s := set_quit q s in
  Returns (call CloseOut (call CloseIn s)).

Definition ShowCursor (x y : Z) (hp : RuneHeap) (s : cScreen)
  : outcome (RuneHeap * cScreen) :=
  Returns (hp, set_cury y (set_curx x s)).

Definition HideCursor (hp : RuneHeap) (s : cScreen)
  : outcome (RuneHeap * cScreen) :=
  ShowCursor (-1) (-1) hp s.

Definition doCursor (s : cScreen) : cScreen :=
  let x := curx s in
  let y := cury s in
  if (x <? 0) || (y <? 0) || (x >=? w s) || (y >=? h s)
  then hideCursor (setCursorPos 0 0 s)
  else showCursor (setCursorPos x y s).

(** The guard shared by [SetCell], [PutCell] and [GetCell]. *)
Definition outside (x y : Z) (s : cScreen) : bool :=
  (x <? 0) || (y <? 0) || (x >=? w s) || (y >=? h s).

Definition cell_index (x y : Z) (s : cScreen) : Z :=
  GoInt.add (GoInt.mul y (w s)) x.

Definition SetCell (x y : Z) (style : Style) (ch : RuneSlice)
    (hp : RuneHeap) (s : cScreen) : outcome (RuneHeap * cScreen) :=
  if outside x y s then Returns (hp, s)
  else
    cell <- index_cell (cells s) (cell_index x y s) ;;
    let '(hp, cell) := Cell_SetCell hp cell ch style in
    Returns (hp, set_cells (<[Z.to_nat (cell_index x y s) := cell]> (cells s)) s).

Definition PutCell (x y : Z) (cell : option Cell)
    (hp : RuneHeap) (s : cScreen) : outcome (RuneHeap * cScreen) :=
  if outside x y s then Returns (hp, s)
  else
    cptr <- index_cell (cells s) (cell_index x y s) ;;
    match cell with
    | None => Panics
    | Some cell =>
        let '(hp, cptr) := Cell_PutChars hp cptr (Cell.Ch cell) in
        let '(hp, cptr) := Cell_PutStyle hp cptr (Cell.Style cell) in
        Returns (hp, set_cells (<[Z.to_nat (cell_index x y s) := cptr]> (cells s)) s)
    end.

Definition GetCell (x y : Z) (hp : RuneHeap) (s : cScreen)
  : outcome (option Cell * RuneHeap * cScreen) :=
  if outside x y s then Returns (None, hp, s)
  else
    cell <- index_cell (cells s) (cell_index x y s) ;;
    Returns (Some cell, hp, s).

Definition Clear (hp : RuneHeap) (s : cScreen) : outcome (RuneHeap * cScreen) :=
  let '(hp, cs) := ClearCells hp (cells s) (style s) in
  Returns (hp, set_clear true (set_cells cs s)).

Definition SetStyle (style : Style) (hp : RuneHeap) (s : cScreen)
  : outcome (RuneHeap * cScreen) :=
  Returns (hp, set_style style s).

Definition Size (s : cScreen) : Z * Z := (w s, h s).

Definition Colors (s : cScreen) : Z := 16.

Definition CharacterSet (s : cScreen) : gostring := lit "UTF-16LE".

Definition EnableMouse (s : cScreen) : cScreen :=
  setInMode (Z.lor modeResizeEn modeMouseEn) s.

Definition DisableMouse (s : cScreen) : cScreen :=
  setInMode modeResizeEn s.

Definition writeString (x y : Z) (style : Style) (ch : list Z) (s : cScreen)
  : cScreen :=
  if (length ch =? 0)%nat then s
  else
    let s := call (SetConsoleTextAttribute (mapStyle style)) s in
    let s := setCursorPos x y s in
    call (WriteConsole ch) s.

(** The locals [wcs], [style], [x], [y] of [draw]. *)
Record pen := mk_pen { wcs : list Z; pstyle : Style; px : Z; py : Z }.

(** The inner loop of [draw] for one row, from column [col]; every
    iteration advances [col] by at least one. *)
Fixpoint draw_row (n : nat) (row col : Z) (p : pen) (hp : RuneHeap)
    (s : cScreen) : outcome (pen * cScreen) :=
  match n with
  | O => Returns (p, s)
  | S n =>
      if col <? w s then
        let i := GoInt.add (GoInt.mul row (w s)) col in
        cell <- index_cell (cells s) i ;;
        let width := Cell.Width cell in
        let width := if width <? 1 then 1 else width in
        let next := GoInt.add col width in
        let flush := negb (Cell.Dirty cell)
                     || negb (pstyle p =? Cell.Style cell) in
        let s := if flush then writeString (px p) (py p) (pstyle p) (wcs p) s
                 else s in
        let p := if flush then mk_pen [] (-1) (px p) (py p) else p in
        if flush && negb (Cell.Dirty cell) then draw_row n row next p hp s
        else
          let p := if (length (wcs p) =? 0)%nat
                   then mk_pen (wcs p) (Cell.Style cell) col row else p in
          let p := if (s_len (Cell.Ch cell) <? 1)%nat
                   then mk_pen (wcs p ++ [32]) (pstyle p) (px p) (py p)
                   else mk_pen (wcs p ++ utf16_Encode
                                  (slice_runes hp (Cell.Ch cell)))
                          (pstyle p) (px p) (py p) in
          let s := set_cells (<[Z.to_nat i := Cell.with_Dirty false cell]>
                                (cells s)) s in
          draw_row n row next p hp s
      else Returns (p, s)
  end.

Fixpoint draw_rows (n : nat) (row : Z) (p : pen) (hp : RuneHeap)
    (s : cScreen) : outcome cScreen :=
  match n with
  | O => Returns s
  | S n =>
      if row <? h s then
        r <- draw_row (Z.to_nat (w s)) row 0 p hp s ;;
        let '(p, s) := r in
        let s := writeString (px p) (py p) (pstyle p) (wcs p) s in
        draw_rows n (GoInt.add row 1) (mk_pen [] (-1) (px p) (py p)) hp s
      else Returns s
  end.

Definition draw (hp : RuneHeap) (s : cScreen) : outcome cScreen :=
  let s := if clear s then set_clear false (clearScreen (style s) s) else s in
  draw_rows (Z.to_nat (h s)) 0 (mk_pen [] (-1) (-1) (-1)) hp s.

Definition Show (pick : bool) (info : consoleInfo) (hp : RuneHeap)
    (s : cScreen) : blocking (outcome (RuneHeap * cScreen)) :=
  let s := hideCursor s in
  match resize pick info hp s with
  | Blocks => Blocks
  | Proceeds (hp, s) =>
      Proceeds (s <- draw hp s ;; Returns (hp, doCursor s))
  end.

(** *** Console input *)

Definition set_mbtns (v : Z) (s : cScreen) : cScreen :=
  mk_cScreen (v) (evch s) (quit s) (curx s) (cury s) (style s) (clear s)
    (w s) (h s) (oscreen s) (ocursor s) (oimode s) (oomode s) (cells s)
    (calls s).

(** [type inputRecord struct { typ uint16; _ uint16; data [16]byte }]. *)
Record inputRecord := { typ : Z; data : list Z }.

Definition keyEvent : Z := 1.
Definition mouseEvent : Z := 2.
Definition resizeEvent : Z := 4.

Definition mouseHWheeled : Z := 8.
Definition mouseVWheeled : Z := 4.

(** [v[i]]: out of range is a run-time panic. *)
Definition byte_at (v : list Z) (i : nat) : outcome Z :=
  match v !! i with
  | Some b => Returns b
  | None => Panics
  end.

Definition getu32 (v : list Z) : outcome Z :=
  b0 <- byte_at v 0 ;;
  b1 <- byte_at v 1 ;;
  b2 <- byte_at v 2 ;;
  b3 <- byte_at v 3 ;;
  Returns ((b0 + Z.shiftl b1 8 + Z.shiftl b2 16 + Z.shiftl b3 24) mod 2 ^ 32).

Definition geti32 (v : list Z) : outcome Z :=
  u <- getu32 v ;;
  Returns ((u + 2 ^ 31) mod 2 ^ 32 - 2 ^ 31).

Definition getu16 (v : list Z) : outcome Z :=
  b0 <- byte_at v 0 ;;
  b1 <- byte_at v 1 ;;
  Returns ((b0 + Z.shiftl b1 8 mod 65536) mod 65536).

Definition geti16 (v : list Z) : outcome Z :=
  u <- getu16 v ;;
  Returns (int16 u).

(** [mod2mask]: the console's control-key state as a modifier mask. *)
Definition mod2mask (cks : Z) : ModMask :=
  let mm := ModNone in
  let mm := if negb (Z.land cks 12 =? 0) then Z.lor mm ModCtrl else mm in
  let mm := if negb (Z.land cks 3 =? 0) then Z.lor mm ModAlt else mm in
  let mm := if negb (Z.land cks 16 =? 0) then Z.lor mm ModShift else mm in
  mm.

(** The [switch krec.kcode] of [getConsoleInput]; [None] is its
    [default] case. *)
Definition vkey (kcode : Z) : option Key :=
  if kcode =? 3 then Some KeyCancel
  else if kcode =? 8 then Some KeyBackspace
  else if kcode =? 9 then Some KeyTab
  else if kcode =? 12 then Some KeyClear
  else if kcode =? 19 then Some KeyPause
  else if (kcode =? 42) || (kcode =? 44) then Some KeyPrint
  else if kcode =? 33 then Some KeyPgUp
  else if kcode =? 34 then Some KeyPgDn
  else if kcode =? 13 then Some KeyEnter
  else if kcode =? 35 then Some KeyEnd
  else if kcode =? 36 then Some KeyHome
  else if kcode =? 37 then Some KeyLeft
  else if kcode =? 38 then Some KeyUp
  else if kcode =? 39 then Some KeyRight
  else if kcode =? 40 then Some KeyDown
  else if kcode =? 45 then Some KeyInsert
  else if kcode =? 46 then Some KeyDelete
  else if kcode =? 47 then Some KeyHelp
  else if (112 <=? kcode) && (kcode <=? 135)
  then Some (KeyF (Z.to_nat (kcode - 111)))
  else None.

(** The loop [for krec.repeat > 0 { s.PostEvent(ev); krec.repeat-- }];
    [pick i] resolves the [i]-th coming [select]. *)
Fixpoint post_repeat (n : nat) (pick : nat -> bool) (ev : Event)
    (s : cScreen) : blocking cScreen :=
  match n with
  | O => Proceeds s
  | S n =>
      match PostEvent (pick O) ev s with
      | Proceeds s => post_repeat n (fun i => pick (S i)) ev s
      | Blocks => Blocks
      end
  end.

(** The button mask of a mouse record. *)
Definition mouse_buttons (btns flags : Z) : ButtonMask :=
  let b := ButtonNone in
  let b := if negb (Z.land btns 1 =? 0) then Z.lor b Button1 else b in
  let b := if negb (Z.land btns 2 =? 0) then Z.lor b Button2 else b in
  let b := if negb (Z.land btns 4 =? 0) then Z.lor b Button3 else b in
  let b := if negb (Z.land btns 8 =? 0) then Z.lor b Button4 else b in
  let b := if negb (Z.land btns 16 =? 0) then Z.lor b Button5 else b in
  let b := if negb (Z.land flags mouseVWheeled =? 0) then
             if Z.land btns 2147483648 =? 0 then Z.lor b WheelUp
             else Z.lor b WheelDown
           else b in
  let b := if negb (Z.land flags mouseHWheeled =? 0) then
             if Z.land btns 2147483648 =? 0 then Z.lor b WheelRight
             else Z.lor b WheelLeft
           else b in
  b.

(** Lift a blocking step into the result type of [getConsoleInput]. *)
Definition posted (r : blocking cScreen) : blocking (outcome (cScreen * bool)) :=
  match r with
  | Proceeds s => Proceeds (Returns (s, false))
  | Blocks => Blocks
  end.

(** [getConsoleInput].  [rd] is what [ReadConsoleInput] delivers: [None]
    when the call fails, else the number of records read and the record.
    The boolean of the result is [true] when an error is returned. *)
Definition getConsoleInput (rd : option (Z * inputRecord))
    (pick : nat -> bool) (s : cScreen) : blocking (outcome (cScreen * bool)) :=
  match rd with
  | None => Proceeds (Returns (s, true))
  | Some (nrec, rec) =>
      if negb (nrec =? 1) then Proceeds (Returns (s, false))
      else if typ rec =? keyEvent then
        match
          (isdown <- geti32 (drop 0 (data rec)) ;;
           repeat_ <- getu16 (drop 4 (data rec)) ;;
           kcode <- getu16 (drop 6 (data rec)) ;;
           scode <- getu16 (drop 8 (data rec)) ;;
           ch <- getu16 (drop 10 (data rec)) ;;
           mod_ <- getu32 (drop 12 (data rec)) ;;
           Returns (isdown, repeat_, kcode, ch, mod_))
        with
        | Panics => Proceeds Panics
        | Returns (isdown, repeat_, kcode, ch, mod_) =>
            if (isdown =? 0) || (repeat_ <? 1)
            then Proceeds (Returns (s, false))
            else if negb (ch =? 0) then
              posted (post_repeat (Z.to_nat repeat_) pick
                        (NewEventKey KeyRune ch (mod2mask mod_)) s)
            else
              match vkey kcode with
              | None => Proceeds (Returns (s, false))
              | Some key =>
                  posted (post_repeat (Z.to_nat repeat_) pick
                            (NewEventKey key ch (mod2mask mod_)) s)
              end
        end
      else if typ rec =? mouseEvent then
        match
          (x <- geti16 (drop 0 (data rec)) ;;
           y <- geti16 (drop 2 (data rec)) ;;
           btns <- getu32 (drop 4 (data rec)) ;;
           mod_ <- getu32 (drop 8 (data rec)) ;;
           flags <- getu32 (drop 12 (data rec)) ;;
           Returns (x, y, btns, mod_, flags))
        with
        | Panics => Proceeds Panics
        | Returns (x, y, btns, mod_, flags) =>
            let s := set_mbtns btns s in
            posted (PostEvent (pick O)
                      (NewEventMouse x y (mouse_buttons btns flags)
                         (mod2mask mod_)) s)
        end
      else if typ rec =? resizeEvent then
        match
          (x <- geti16 (drop 0 (data rec)) ;;
           y <- geti16 (drop 2 (data rec)) ;;
           Returns (x, y))
        with
        | Panics => Proceeds Panics
        | Returns (x, y) =>
            posted (PostEvent (pick O) (NewEventResize x y) s)
        end
      else Proceeds (Returns (s, false))
  end.

(** [PollEvent]: as on the terminfo screen. *)
Definition PollEvent (pick : bool) (s : cScreen)
  : blocking (option Event * cScreen) :=
  match select_arm (recv_ready (quit s))
          (match evch s with
           | Some c => negb (length (queue c) =? 0)%nat
           | None => false
           end) false pick with
  | Some ArmQuit => Proceeds (None, s)
  | Some _ =>
      match evch s with
      | Some c =>
          match queue c with
          | ev :: q =>
              Proceeds (Some ev, set_evch (Some {| cap := cap c; queue := q |}) s)
          | [] => Blocks
          end
      | None => Blocks
      end
  | None => Blocks
  end.

End Methods.
End CScreen.

(** * Operations applied from outside *)

(** The mutating operations of the screen interface, as requests. *)
Inductive mutation :=
| MSetCell (x y : Z) (style : Style) (ch : RuneSlice)
| MPutCell (x y : Z) (cell : option Cell)
| MClear
| MSetStyle (style : Style)
| MShowCursor (x y : Z)
| MShow.

(** What a caller can do to the [Cell] a [GetCell] pointer leads to:
    assign one of its fields, or assign an element of its rune slice. *)
Inductive cell_write :=
| WriteStyle (style : Style)
| WriteDirty (d : bool)
| WriteWidth (width : Z)
| WriteCh (ch : RuneSlice)
| WriteChElem (i : Z) (r : rune).

Definition is_field_write (wr : cell_write) : bool :=
  match wr with WriteChElem _ _ => false | _ => true end.

Definition apply_write (wr : cell_write) (hp : RuneHeap) (c : Cell)
  : outcome (RuneHeap * Cell) :=
  match wr with
  | WriteStyle s => Returns (hp, Cell.mk (Cell.Ch c) s (Cell.Dirty c) (Cell.Width c))
  | WriteDirty d => Returns (hp, Cell.with_Dirty d c)
  | WriteWidth n => Returns (hp, Cell.mk (Cell.Ch c) (Cell.Style c) (Cell.Dirty c) n)
  | WriteCh ch => Returns (hp, Cell.mk ch (Cell.Style c) (Cell.Dirty c) (Cell.Width c))
  | WriteChElem i r =>
      hp <- slice_store hp (Cell.Ch c) i r ;;
      Returns (hp, c)
  end.

(** A grid of [w] by [h] cells, row-major. *)
Definition grid_ok (w h : Z) (cs : list Cell) : Prop :=
  0 <= w /\ 0 <= h /\ w * h < GoInt.half /\ Z.of_nat (length cs) = w * h.

Section Apply.
Context {MK : Masks} {ST : StyleOps} {CO : CellOps} {U8 : Utf8}
  {PA : Palette} {U16 : Utf16}.

(** [winsz] is the window size the terminal reports during [Show]. *)
Definition tscreen_apply (winsz : option (Z * Z)) (m : mutation)
    (hp : RuneHeap) (t : TScreen.tScreen)
  : outcome (RuneHeap * TScreen.tScreen) :=
  match m with
  | MSetCell x y style ch => TScreen.SetCell x y style ch hp t
  | MPutCell x y cell => TScreen.PutCell x y cell hp t
  | MClear => TScreen.Clear hp t
  | MSetStyle style => TScreen.SetStyle style hp t
  | MShowCursor x y => TScreen.ShowCursor x y hp t
  | MShow => TScreen.Show winsz hp t
  end.

Definition cscreen_apply (pick : bool) (info : CScreen.consoleInfo)
    (m : mutation) (hp : RuneHeap) (s : CScreen.cScreen)
  : blocking (outcome (RuneHeap * CScreen.cScreen)) :=
  match m with
  | MSetCell x y style ch => Proceeds (CScreen.SetCell x y style ch hp s)
  | MPutCell x y cell => Proceeds (CScreen.PutCell x y cell hp s)
  | MClear => Proceeds (CScreen.Clear hp s)
  | MSetStyle style => Proceeds (CScreen.SetStyle style hp s)
  | MShowCursor x y => Proceeds (CScreen.ShowCursor x y hp s)
  | MShow => CScreen.Show pick info hp s
  end.

End Apply.

(** * The scan loop as the specification words it

    Per invocation: repeat until the buffer is empty or blocked; on each
    iteration try all parsers on the buffer.  If any returned complete,
    restart.  Else, if any returned partial and [expire] is false, stop.
    Otherwise consume exactly one byte as [Key=Rune] with its raw value and
    no modifiers, then continue. *)

Section SpecScan.
Context {MK : Masks} {ST : StyleOps} {CO : CellOps} {U8 : Utf8}.

(** The sub-parsers one iteration consults, in order; the two mouse
    parsers only for a terminal that declares mouse support. *)
Definition sub_parsers (ord : list (Key * list Z)) (t : TScreen.tScreen)
  : list (list Z -> TScreen.tScreen -> outcome TScreen.parsed) :=
  [TScreen.parseRune; TScreen.parseFunctionKey ord] ++
  (if negb (bytes_eqb (Terminfo.Mouse (TScreen.ti t)) [])
   then [fun buf t => Returns (TScreen.parseXtermMouse buf t);
         fun buf t => Returns (TScreen.parseSgrMouse buf t)]
   else []).

(** The verdict of one iteration on the results of the parsers, each run
    on the same buffer and screen. *)
Inductive verdict :=
| Restart (buf : list Z) (t : TScreen.tScreen)
| Wait
| RawByte
| Fault.

Fixpoint judge (rs : list (outcome TScreen.parsed)) (any_partial : bool)
    (expire : bool) : verdict :=
  match rs with
  | [] => if any_partial && negb expire then Wait else RawByte
  | Panics :: _ => Fault
  | Returns (part, comp, buf, t) :: rs =>
      if comp then Restart buf t
      else judge rs (any_partial || part) expire
  end.

Fixpoint spec_scan (fuel : nat) (ord : nat -> list (Key * list Z))
    (buf : list Z) (expire : bool) (t : TScreen.tScreen)
  : run (list Z * TScreen.tScreen) :=
  match fuel with
  | O => Unfinished
  | S fuel =>
      match buf with
      | [] => Finished ([], t)
      | by_ :: rest =>
          match judge (map (fun p => p buf t) (sub_parsers (ord O) t))
                  false expire with
          | Restart buf t => spec_scan fuel (fun i => ord (S i)) buf expire t
          | Wait => Finished (buf, t)
          | RawByte =>
              spec_scan fuel (fun i => ord (S i)) rest expire
                (TScreen.PostEvent (NewEventKey KeyRune by_ ModNone) t)
          | Fault => Faulted
          end
      end
  end.

End SpecScan.

(** * Invariants of the decoder's configuration *)

(** What [Init] sets up for [parseRune]: outside of UTF-8 and US-ASCII a
    codec is installed, and its decoder consumes input whenever it
    produces output. *)
Definition decoder_ready (t : TScreen.tScreen) : Prop :=
  TScreen.is_utf8 (TScreen.charset t) || TScreen.is_ascii (TScreen.charset t)
  = true
  \/ exists dec,
       TScreen.decoder t = Some dec /\
       forall src o nin err,
         Transform dec src = (o, nin, err) -> o <> [] -> (1 <= nin)%nat.

(** The fields the decoder reads but never writes. *)
Definition same_config (t t' : TScreen.tScreen) : Prop :=
  TScreen.ti t' = TScreen.ti t /\
  TScreen.keys t' = TScreen.keys t /\
  TScreen.charset t' = TScreen.charset t /\
  TScreen.decoder t' = TScreen.decoder t.

(** [utf8.DecodeRune] reports a size of at least one byte on a non-empty
    input. *)
Definition decode_progress {U8 : Utf8} : Prop :=
  forall b : list Z, b <> [] -> (1 <= snd (utf8_DecodeRune b))%nat.

(** A sub-parser's result is in order when it is not a panic and, if it
    reports complete, it has consumed at least one byte and left the
    decoder's configuration alone. *)
Definition progresses (buf : list Z) (t : TScreen.tScreen)
    (r : outcome TScreen.parsed) : Prop :=
  match r with
  | Panics => False
  | Returns (_, comp, buf', t') =>
      comp = true ->
      (length buf' < length buf)%nat /\ same_config t t'
  end.

(** * Notions used in further statements *)

(** Decimal digits and the number a sequence of them writes. *)
Definition is_digit (c : Z) : bool := (48 <=? c) && (c <=? 57).

Definition dec_value (ds : list Z) : Z :=
  foldl (fun v d => v * 10 + (d - 48)) 0 ds.

(** The bytes [parseRune] takes for printable ASCII. *)
Definition printable (c : Z) : bool := (32 <=? c) && (c <=? 127).

(** Posting a sequence of events, one [PostEvent] after the other. *)
Definition post_all (evs : list Event) (t : TScreen.tScreen)
  : TScreen.tScreen :=
  foldl (fun t ev => TScreen.PostEvent ev t) t evs.

(** [t'] is [t] except for the event channel and the debounce flag. *)
Definition decoder_frame (t t' : TScreen.tScreen) : Prop :=
  t' = TScreen.set_wasbtn (TScreen.wasbtn t')
         (TScreen.set_evch (TScreen.evch t') t).

(** A grid prefix of [k] cells marked clean, the rest as it is. *)
Definition clean_upto (k : nat) (cs : list Cell) : list Cell :=
  map (Cell.with_Dirty false) (take k cs) ++ drop k cs.

(** Little-endian bytes of a 16-bit and of a 32-bit value. *)
Definition le16 (n : Z) : list Z := [n mod 256; (n / 256) mod 256].

Definition le32 (n : Z) : list Z :=
  [n mod 256; (n / 256) mod 256; (n / 65536) mod 256;
   (n / 16777216) mod 256].

(** What a sub-parser returns: a buffer that is the old one with some
    bytes dropped from its front, and a screen within the frame. *)
Definition kept (buf : list Z) (t : TScreen.tScreen)
    (r : outcome TScreen.parsed) : Prop :=
  match r with
  | Panics => True
  | Returns (_, _, buf', t') =>
      decoder_frame t t' /\ exists n, buf' = drop n buf
  end.

(** The string of a terminfo [acsc] capability listing the given pairs
    (VT100 name, glyph). *)
Definition pairs_string (ps : list (Z * Z)) : list Z :=
  flat_map (fun p => [p.1; p.2]) ps.

(** The 16 data bytes of a console key record. *)
Definition key_data (isdown repeat_ kcode scode ch mod_ : Z) : list Z :=
  le32 isdown ++ le16 repeat_ ++ le16 kcode ++ le16 scode ++ le16 ch ++
  le32 mod_.

(** The UTF-16 units the console [draw] appends for a cell, the text of
    a whole row of a grid of width [w], and the console calls that write
    that text in the style [style] from the start of the row. *)
Definition cell_units {U16 : Utf16} (hp : RuneHeap) (c : Cell) : list Z :=
  if (s_len (Cell.Ch c) <? 1)%nat then [32]
  else utf16_Encode (slice_runes hp (Cell.Ch c)).

Definition row_text {U16 : Utf16} (hp : RuneHeap) (w row : Z)
    (cs : list Cell) : list Z :=
  concat (map (cell_units hp)
            (take (Z.to_nat w) (drop (Z.to_nat (row * w)) cs))).

Definition row_calls {ST : StyleOps} {PA : Palette} {U16 : Utf16}
    (style : Style) (hp : RuneHeap) (w row : Z) (cs : list Cell)
  : list CScreen.ConsoleCall :=
  [CScreen.SetConsoleTextAttribute (CScreen.mapStyle style);
   CScreen.SetConsoleCursorPosition
     {| CScreen.c_x := CScreen.int16 0; CScreen.c_y := CScreen.int16 row |};
   CScreen.WriteConsole (row_text hp w row cs)].

(** * Sample instances

    Concrete values on which the definitions above can be run. *)

Module Sample.

Definition masks : Masks := {|
  ModNone := 0; ModShift := 1; ModCtrl := 2; ModAlt := 4; ModMeta := 8;
  ButtonNone := 0; Button1 := 1; Button2 := 2; Button3 := 4; Button4 := 8;
  Button5 := 16; WheelUp := 256; WheelDown := 512; WheelLeft := 1024;
  WheelRight := 2048
|}.

(** Styles packed as [fg + 32 * bg + 1024 * attrs]. *)
Definition styles : StyleOps := {|
  StyleDefault := 0; ColorDefault := 0;
  AttrBold := 1; AttrUnderline := 2; AttrReverse := 4; AttrBlink := 8;
  AttrDim := 16;
  Decompose := fun s => (s mod 32, (s / 32) mod 32, s / 1024)
|}.

Definition palette : Palette := {|
  ColorBlack := 1; ColorRed := 2; ColorGreen := 3; ColorYellow := 4;
  ColorBlue := 5; ColorMagenta := 6; ColorCyan := 7; ColorWhite := 8;
  ColorGrey := 9; ColorBrightRed := 10; ColorBrightGreen := 11;
  ColorBrightYellow := 12; ColorBrightBlue := 13; ColorBrightMagenta := 14;
  ColorBrightCyan := 15; ColorBrightWhite := 16
|}.

(** A fresh address of the store. *)
Definition fresh_addr (hp : RuneHeap) : nat :=
  map_fold (fun k _ m => Nat.max (S k) m) 0%nat hp.

Definition alloc (rs : list rune) (hp : RuneHeap) : RuneHeap * RuneSlice :=
  let a := fresh_addr hp in
  (<[a := rs]> hp, {| s_arr := a; s_off := 0; s_len := length rs |}).

(** Cells of single-column runes: a write stores a copy of the runes and
    marks the cell dirty when its content changes. *)
Definition put_chars (hp : RuneHeap) (c : Cell) (ch : RuneSlice)
  : RuneHeap * Cell :=
  if bool_decide (slice_runes hp ch = slice_runes hp (Cell.Ch c)) then (hp, c)
  else
    let '(hp, sl) := alloc (slice_runes hp ch) hp in
    (hp, Cell.mk sl (Cell.Style c) true 1).

Definition put_style (hp : RuneHeap) (c : Cell) (style : Style)
  : RuneHeap * Cell :=
  if Cell.Style c =? style then (hp, c)
  else (hp, Cell.mk (Cell.Ch c) style true (Cell.Width c)).

Definition blank (style : Style) (hp : RuneHeap) : RuneHeap * Cell :=
  let '(hp, sl) := alloc [32] hp in
  (hp, Cell.mk sl style true 1).

Fixpoint blanks (n : nat) (style : Style) (hp : RuneHeap)
  : RuneHeap * list Cell :=
  match n with
  | O => (hp, [])
  | S n =>
      let '(hp, c) := blank style hp in
      let '(hp, cs) := blanks n style hp in
      (hp, c :: cs)
  end.

Definition resize_cells (hp : RuneHeap) (cs : list Cell) (ow oh w h : Z)
  : RuneHeap * list Cell :=
  let '(hp, fresh) := blanks (Z.to_nat (w * h)) 0 hp in
  (hp, imap (fun i c =>
         let x := Z.of_nat i mod w in
         let y := Z.of_nat i / w in
         if (x <? ow) && (y <? oh)
         then default c (cs !! Z.to_nat (y * ow + x)) else c) fresh).

Definition cellops : CellOps := {|
  Cell_SetCell := fun hp c ch style =>
    let '(hp, c) := put_chars hp c ch in put_style hp c style;
  Cell_PutChars := put_chars;
  Cell_PutStyle := put_style;
  ClearCells := fun hp cs style => blanks (length cs) style hp;
  InvalidateCells := fun hp cs => (hp, map (Cell.with_Dirty true) cs);
  ResizeCells := resize_cells
|}.

Definition is_cont (c : Z) : bool := (128 <=? c) && (c <? 192).

(** UTF-8 for the code points below U+10000. *)
Definition decode_rune (p : list Z) : rune * nat :=
  match p with
  | [] => (65533, 0%nat)
  | c0 :: p1 =>
      if c0 <? 128 then (c0, 1%nat)
      else if (194 <=? c0) && (c0 <? 224) then
        match p1 with
        | c1 :: _ =>
            if is_cont c1 then ((c0 - 192) * 64 + (c1 - 128), 2%nat)
            else (65533, 1%nat)
        | [] => (65533, 1%nat)
        end
      else if (224 <=? c0) && (c0 <? 240) then
        match p1 with
        | c1 :: c2 :: _ =>
            let r := (c0 - 224) * 4096 + (c1 - 128) * 64 + (c2 - 128) in
            if is_cont c1 && is_cont c2 && (2048 <=? r)
               && negb ((55296 <=? r) && (r <? 57344))
            then (r, 3%nat) else (65533, 1%nat)
        | _ => (65533, 1%nat)
        end
      else (65533, 1%nat)
  end.

Definition full_rune (p : list Z) : bool :=
  match p with
  | [] => false
  | c0 :: p1 =>
      if (194 <=? c0) && (c0 <? 224) then (1 <=? length p1)%nat
      else if (224 <=? c0) && (c0 <? 240) then
        match p1 with
        | [] => false
        | [c1] => negb (is_cont c1)
        | _ => true
        end
      else true
  end.

Definition encode_rune (r : rune) : list Z :=
  if (0 <=? r) && (r <? 128) then [r]
  else if (128 <=? r) && (r <? 2048) then [192 + r / 64; 128 + r mod 64]
  else if (2048 <=? r) && (r <? 65536)
          && negb ((55296 <=? r) && (r <? 57344))
  then [224 + r / 4096; 128 + (r / 64) mod 64; 128 + r mod 64]
  else [239; 191; 189].

Definition utf8 : Utf8 := {|
  utf8_FullRune := full_rune;
  utf8_DecodeRune := decode_rune;
  utf8_EncodeRune := encode_rune;
  utf8_RuneError := 65533
|}.

Definition utf16 : Utf16 := {|
  utf16_Encode := map (fun r => if (0 <=? r) && (r <? 65536) then r else 65533)
|}.

Definition esc (s : string) : gostring := 27 :: lit s.

(** Decimal digits of a number below 1000. *)
Definition dec (n : Z) : gostring :=
  (if 100 <=? n then [48 + n / 100] else []) ++
  (if 10 <=? n then [48 + (n / 10) mod 10] else []) ++ [48 + n mod 10].

Definition key_string (k : Key) : gostring :=
  match k with
  | KeyBackspace => [127]
  | KeyUp => esc "OA" | KeyDown => esc "OB"
  | KeyRight => esc "OC" | KeyLeft => esc "OD"
  | KeyHome => esc "OH" | KeyEnd => esc "OF"
  | KeyInsert => esc "[2~" | KeyDelete => esc "[3~"
  | KeyPgUp => esc "[5~" | KeyPgDn => esc "[6~"
  | KeyBacktab => esc "[Z"
  | KeyF 1 => esc "OP" | KeyF 2 => esc "OQ"
  | KeyF 3 => esc "OR" | KeyF 4 => esc "OS"
  | KeyF 5 => esc "[15~"
  | _ => []
  end.

(** An xterm-like terminal of 80 by 24 without padding delays. *)
Definition xterm : Terminfo := {|
  Terminfo.Columns := 80; Terminfo.Lines := 24; Terminfo.Colors := 8;
  Terminfo.Mouse := esc "[M"; Terminfo.MouseMode := esc "[?1000";
  Terminfo.AltChars := []; Terminfo.EnterAcs := esc "(0";
  Terminfo.ExitAcs := esc "(B";
  Terminfo.EnterCA := esc "[?1049h"; Terminfo.ExitCA := esc "[?1049l";
  Terminfo.EnterKeypad := esc "[?1h"; Terminfo.ExitKeypad := esc "[?1l";
  Terminfo.HideCursor := esc "[?25l"; Terminfo.ShowCursor := esc "[?25h";
  Terminfo.Clear := esc "[H"; Terminfo.AttrOff := esc "[m";
  Terminfo.Bold := esc "[1m"; Terminfo.Underline := esc "[4m";
  Terminfo.Reverse := esc "[7m"; Terminfo.Blink := esc "[5m";
  Terminfo.Dim := esc "[2m";
  Terminfo.SetFg := esc "[3"; Terminfo.SetBg := esc "[4";
  Terminfo.KeyString := key_string;
  Terminfo.TGoto := fun x y =>
    esc "[" ++ dec (y + 1) ++ lit ";" ++ dec (x + 1) ++ lit "H";
  Terminfo.TParm := fun s p => s ++ dec p ++ lit "m";
  Terminfo.TPuts := fun s _ => s
|}.

(** A terminal without keys and without mouse support. *)
Definition dumb : Terminfo := {|
  Terminfo.Columns := 80; Terminfo.Lines := 24; Terminfo.Colors := 0;
  Terminfo.Mouse := []; Terminfo.MouseMode := []; Terminfo.AltChars := [];
  Terminfo.EnterAcs := []; Terminfo.ExitAcs := [];
  Terminfo.EnterCA := []; Terminfo.ExitCA := [];
  Terminfo.EnterKeypad := []; Terminfo.ExitKeypad := [];
  Terminfo.HideCursor := []; Terminfo.ShowCursor := [];
  Terminfo.Clear := []; Terminfo.AttrOff := []; Terminfo.Bold := [];
  Terminfo.Underline := []; Terminfo.Reverse := []; Terminfo.Blink := [];
  Terminfo.Dim := []; Terminfo.SetFg := []; Terminfo.SetBg := [];
  Terminfo.KeyString := fun _ => [];
  Terminfo.TGoto := fun _ _ => [];
  Terminfo.TParm := fun s _ => s;
  Terminfo.TPuts := fun s _ => s
|}.

#[local] Existing Instances masks styles cellops utf8 palette utf16.

(** The zero values of the two screen structures. *)
Definition tscreen_zero (ti : Terminfo) : TScreen.tScreen :=
  TScreen.mk_tScreen ti false 0 0 [] 0 0 None SigNil ∅ 0 0 [] [] false
    0 0 0 false ∅ [] None None.

Definition cscreen_zero : CScreen.cScreen :=
  let c0 := {| CScreen.c_x := 0; CScreen.c_y := 0 |} in
  let r0 := {| CScreen.left := 0; CScreen.top := 0; CScreen.right := 0;
               CScreen.bottom := 0 |} in
  CScreen.mk_cScreen 0 None SigNil 0 0 0 false 0 0
    {| CScreen.ci_size := c0; CScreen.ci_pos := c0; CScreen.ci_attrs := 0;
       CScreen.ci_win := r0; CScreen.ci_maxsz := c0 |}
    {| CScreen.size := 0; CScreen.visible := 0 |} 0 0 [] [].

(** A terminfo screen of 4 by 3 on the xterm-like terminal, initialised
    for UTF-8, and the store it allocates. *)
Definition tscreen_new : TScreen.tScreen :=
  default (tscreen_zero xterm) (TScreen.NewTerminfoScreen (Some xterm) 3 4 ∅).

Definition tscreen_init : RuneHeap * TScreen.tScreen * bool :=
  TScreen.Init (lit "UTF-8") (fun _ => None) true ∅ tscreen_new.

Definition theap : RuneHeap := fst (fst tscreen_init).
Definition tscreen : TScreen.tScreen := snd (fst tscreen_init).

(** The same terminal sized 80 by 24, as the decoder sees it. *)
Definition tscreen80 : TScreen.tScreen :=
  TScreen.set_h 24 (TScreen.set_w 80 tscreen).

(** The order in which the key table is visited in the examples. *)
Definition key_order (i : nat) : list (Key * list Z) :=
  map_to_list (TScreen.keys tscreen).

(** A console screen with a window of 4 by 3. *)
Definition console_info : CScreen.consoleInfo :=
  let c0 := {| CScreen.c_x := 0; CScreen.c_y := 0 |} in
  {| CScreen.ci_size := {| CScreen.c_x := 4; CScreen.c_y := 3 |};
     CScreen.ci_pos := c0; CScreen.ci_attrs := 7;
     CScreen.ci_win := {| CScreen.left := 0; CScreen.top := 0;
                          CScreen.right := 3; CScreen.bottom := 2 |};
     CScreen.ci_maxsz := {| CScreen.c_x := 4; CScreen.c_y := 3 |} |}.

Definition cscreen_init
  : blocking (RuneHeap * CScreen.cScreen * bool) :=
  CScreen.Init true true {| CScreen.size := 25; CScreen.visible := 1 |}
    console_info console_info 3 7 false ∅ cscreen_zero.

Definition cheap : RuneHeap :=
  match cscreen_init with Proceeds (hp, _, _) => hp | Blocks => ∅ end.
Definition cscreen : CScreen.cScreen :=
  match cscreen_init with Proceeds (_, s, _) => s | Blocks => cscreen_zero end.

(** A screen of 4 by 3 on the terminal without keys and mouse. *)
Definition dumbscreen : TScreen.tScreen :=
  snd (fst (TScreen.Init (lit "UTF-8") (fun _ => None) true ∅
              (default (tscreen_zero dumb)
                 (TScreen.NewTerminfoScreen (Some dumb) 3 4 ∅)))).

(** The two screens after [Fini]. *)
Definition tscreen_done : TScreen.tScreen :=
  match TScreen.Fini tscreen with Returns t => t | Panics => tscreen end.

Definition cscreen_done : CScreen.cScreen :=
  match CScreen.Fini cscreen with Returns s => s | Panics => cscreen end.

(** The cell at the origin of the terminfo screen. *)
Definition cell00 : Cell := default (Cell.mk nil_slice 0 false 0)
                              (TScreen.cells tscreen !! 0%nat).

(** The two screens with their event channels filled up. *)
Definition tscreen_full : TScreen.tScreen :=
  TScreen.set_evch
    (Some {| cap := 10; queue := map EventUser [1; 2; 3; 4; 5; 6; 7; 8; 9; 10] |})
    tscreen.

Definition cscreen_full : CScreen.cScreen :=
  CScreen.set_evch (Some {| cap := 2; queue := map EventUser [1; 2] |}) cscreen.

(** The code points of the drawing runes. *)
Definition runes : Runes := {|
  rune_of := fun n =>
    match n with
    | RuneSterling => 163 | RuneDArrow => 8595 | RuneLArrow => 8592
    | RuneRArrow => 8594 | RuneUArrow => 8593 | RuneBullet => 183
    | RuneBoard => 9617 | RuneCkBoard => 9618 | RuneDegree => 176
    | RuneDiamond => 9670 | RuneGEqual => 8805 | RunePi => 960
    | RuneHLine => 9472 | RuneLantern => 167 | RunePlus => 9532
    | RuneLEqual => 8804 | RuneLLCorner => 9492 | RuneLRCorner => 9496
    | RuneNEqual => 8800 | RunePlMinus => 177 | RuneS1 => 9146
    | RuneS3 => 9147 | RuneS7 => 9148 | RuneS9 => 9149 | RuneBlock => 9608
    | RuneTTee => 9516 | RuneRTee => 9508 | RuneLTee => 9500
    | RuneBTee => 9524 | RuneULCorner => 9484 | RuneURCorner => 9488
    | RuneVLine => 9474
    end
|}.

(** A key-down record for the character [ch], repeated [n] times. *)
Definition key_record (n ch : Z) : CScreen.inputRecord :=
  {| CScreen.typ := CScreen.keyEvent;
     CScreen.data := [1; 0; 0; 0; n mod 256; n / 256; 0; 0; 0; 0;
                      ch mod 256; ch / 256; 0; 0; 0; 0] |}.

(** A terminal whose alternate character set lists the horizontal and the
    vertical line. *)
Definition acs_term : Terminfo := {|
  Terminfo.Columns := 80; Terminfo.Lines := 24; Terminfo.Colors := 8;
  Terminfo.Mouse := []; Terminfo.MouseMode := [];
  Terminfo.AltChars := lit "qrxy"; Terminfo.EnterAcs := esc "(0";
  Terminfo.ExitAcs := esc "(B";
  Terminfo.EnterCA := []; Terminfo.ExitCA := [];
  Terminfo.EnterKeypad := []; Terminfo.ExitKeypad := [];
  Terminfo.HideCursor := []; Terminfo.ShowCursor := [];
  Terminfo.Clear := []; Terminfo.AttrOff := []; Terminfo.Bold := [];
  Terminfo.Underline := []; Terminfo.Reverse := []; Terminfo.Blink := [];
  Terminfo.Dim := []; Terminfo.SetFg := []; Terminfo.SetBg := [];
  Terminfo.KeyString := fun _ => [];
  Terminfo.TGoto := fun _ _ => [];
  Terminfo.TParm := fun s _ => s;
  Terminfo.TPuts := fun s _ => s
|}.

(** The two screens of 4 by 3 with every cell marked clean. *)
Definition tscreen_clean : TScreen.tScreen :=
  TScreen.set_cells (map (Cell.with_Dirty false) (TScreen.cells tscreen))
    tscreen.

Definition cscreen_clean : CScreen.cScreen :=
  CScreen.set_cells (map (Cell.with_Dirty false) (CScreen.cells cscreen))
    cscreen.

(** A cell two columns wide. *)
Definition wide_cell : Cell := Cell.mk nil_slice 0 true 2.

End Sample.

(** * Properties of the grid operations *)

Section GridFacts.
Context {MK : Masks} {ST : StyleOps} {CO : CellOps} {U8 : Utf8}
  {PA : Palette} {U16 : Utf16}.

Lemma tscreen_outside_true (x y : Z) (t : TScreen.tScreen) :
  ¬ (0 <= x < TScreen.w t /\ 0 <= y < TScreen.h t) ->
  TScreen.outside x y t = true.
Proof.
  intros Hout. unfold TScreen.outside.
  destruct (TScreen.fini t); [reflexivity | simpl].
  destruct (Z.ltb_spec x 0); [reflexivity | simpl].
  destruct (Z.ltb_spec y 0); [reflexivity | simpl].
  destruct (Z.geb_spec x (TScreen.w t)); [reflexivity | simpl].
  destruct (Z.geb_spec y (TScreen.h t)); [reflexivity | lia].
Qed.

Lemma tscreen_outside_fini (x y : Z) (t : TScreen.tScreen) :
  TScreen.fini t = true -> TScreen.outside x y t = true.
Proof. intros Hf. unfold TScreen.outside. rewrite Hf. reflexivity. Qed.

Lemma cscreen_outside_true (x y : Z) (s : CScreen.cScreen) :
  ¬ (0 <= x < CScreen.w s /\ 0 <= y < CScreen.h s) ->
  CScreen.outside x y s = true.
Proof.
  intros Hout. unfold CScreen.outside.
  destruct (Z.ltb_spec x 0); [reflexivity | simpl].
  destruct (Z.ltb_spec y 0); [reflexivity | simpl].
  destruct (Z.geb_spec x (CScreen.w s)); [reflexivity | simpl].
  destruct (Z.geb_spec y (CScreen.h s)); [reflexivity | lia].
Qed.

Lemma tscreen_outside_false (x y : Z) (t : TScreen.tScreen) :
  TScreen.fini t = false ->
  0 <= x < TScreen.w t -> 0 <= y < TScreen.h t ->
  TScreen.outside x y t = false.
Proof.
  intros Hf Hx Hy. unfold TScreen.outside. rewrite Hf. simpl.
  destruct (Z.ltb_spec x 0); [lia | simpl].
  destruct (Z.ltb_spec y 0); [lia | simpl].
  destruct (Z.geb_spec x (TScreen.w t)); [lia | simpl].
  destruct (Z.geb_spec y (TScreen.h t)); [lia | reflexivity].
Qed.

Lemma cscreen_outside_false (x y : Z) (s : CScreen.cScreen) :
  0 <= x < CScreen.w s -> 0 <= y < CScreen.h s ->
  CScreen.outside x y s = false.
Proof.
  intros Hx Hy. unfold CScreen.outside.
  destruct (Z.ltb_spec x 0); [lia | simpl].
  destruct (Z.ltb_spec y 0); [lia | simpl].
  destruct (Z.geb_spec x (CScreen.w s)); [lia | simpl].
  destruct (Z.geb_spec y (CScreen.h s)); [lia | reflexivity].
Qed.

(** C8.  For either backend and every position outside the grid of W by H
    cells, [SetCell] and [PutCell] return without a panic and leave the
    screen and the rune store as they were (so every cell keeps its runes,
    style, width and dirty flag), and [GetCell] returns nil. *)
Theorem out_of_range_cell_access_is_silent
    (x y : Z) (style : Style) (ch : RuneSlice) (cell : option Cell)
    (hp : RuneHeap) (t : TScreen.tScreen) (s : CScreen.cScreen) :
  ¬ (0 <= x < TScreen.w t /\ 0 <= y < TScreen.h t) ->
  ¬ (0 <= x < CScreen.w s /\ 0 <= y < CScreen.h s) ->
  TScreen.SetCell x y style ch hp t = Returns (hp, t) /\
  TScreen.PutCell x y cell hp t = Returns (hp, t) /\
  TScreen.GetCell x y hp t = Returns (None, hp, t) /\
  CScreen.SetCell x y style ch hp s = Returns (hp, s) /\
  CScreen.PutCell x y cell hp s = Returns (hp, s) /\
  CScreen.GetCell x y hp s = Returns (None, hp, s).
Proof.
  intros Ht Hs.
  unfold TScreen.SetCell, TScreen.PutCell, TScreen.GetCell,
    CScreen.SetCell, CScreen.PutCell, CScreen.GetCell.
  rewrite (tscreen_outside_true x y t Ht), (cscreen_outside_true x y s Hs).
  repeat split.
Qed.


(** *** Finalisation *)

Lemma tscreen_TPuts_frame (cap_ : gostring) (t : TScreen.tScreen) :
  TScreen.fini (TScreen.TPuts cap_ t) = TScreen.fini t /\
  TScreen.quit (TScreen.TPuts cap_ t) = TScreen.quit t.
Proof. split; reflexivity. Qed.

Lemma tscreen_Fini_finalizes (t t' : TScreen.tScreen) :
  TScreen.Fini t = Returns t' ->
  TScreen.fini t' = true /\ TScreen.w t' = 0 /\ TScreen.h t' = 0 /\
  TScreen.cells t' = [] /\ TScreen.clear t' = false.
Proof.
  unfold TScreen.Fini. cbn.
  destruct (TScreen.quit t); cbn; intros [= <-]; repeat split.
Qed.

Lemma tscreen_finalized_noop (winsz : option (Z * Z)) (m : mutation)
    (hp : RuneHeap) (t : TScreen.tScreen) :
  TScreen.fini t = true -> tscreen_apply winsz m hp t = Returns (hp, t).
Proof.
  intros Hf. destruct m; cbn;
    unfold TScreen.SetCell, TScreen.PutCell, TScreen.Clear, TScreen.SetStyle,
      TScreen.ShowCursor, TScreen.Show;
    rewrite ?(tscreen_outside_fini _ _ _ Hf), ?Hf; reflexivity.
Qed.

(** C1, amended to the terminfo backend.  Once [Fini] has returned, each of
    [SetCell], [PutCell], [Clear], [SetStyle], [ShowCursor] and [Show]
    returns without a panic and leaves the screen and the rune store
    unchanged. *)
Theorem tscreen_mutations_after_fini_are_noops
    (winsz : option (Z * Z)) (m : mutation) (hp : RuneHeap)
    (t t' : TScreen.tScreen) :
  TScreen.Fini t = Returns t' ->
  tscreen_apply winsz m hp t' = Returns (hp, t').
Proof.
  intros Hfini. apply tscreen_finalized_noop.
  apply (tscreen_Fini_finalizes t t' Hfini).
Qed.

(** The console screen keeps no finalized flag: [Fini] leaves its
    dimensions and cells alone, and [SetStyle] stores its argument whatever
    came before. *)
Lemma cscreen_Fini_keeps_grid (s s' : CScreen.cScreen) :
  CScreen.Fini s = Returns s' ->
  CScreen.w s' = CScreen.w s /\ CScreen.h s' = CScreen.h s /\
  CScreen.cells s' = CScreen.cells s /\ CScreen.style s' = StyleDefault.
Proof.
  unfold CScreen.Fini. cbn.
  destruct (CScreen.quit s); cbn; intros [= <-]; repeat split.
Qed.

Lemma cscreen_SetStyle_after_Fini (style : Style) (hp : RuneHeap)
    (s s' : CScreen.cScreen) :
  CScreen.Fini s = Returns s' -> style <> StyleDefault ->
  exists s'', CScreen.SetStyle style hp s' = Returns (hp, s'') /\ s'' <> s'.
Proof.
  intros Hfini Hne. eexists. split; [reflexivity |].
  intros Heq. apply Hne.
  destruct (cscreen_Fini_keeps_grid s s' Hfini) as (_ & _ & _ & <-).
  rewrite <- Heq. reflexivity.
Qed.

(** *** Reading a cell *)

Lemma wrap_in_range (z : Z) : GoInt.in_range z -> GoInt.wrap z = z.
Proof.
  unfold GoInt.in_range, GoInt.wrap, GoInt.half, GoInt.modulus, GoInt.bits.
  intros Hz. change (2 ^ (64 - 1)) with 9223372036854775808 in *.
  change (2 ^ 64) with 18446744073709551616.
  rewrite Z.mod_small; lia.
Qed.

Lemma cell_index_in_grid (x y w h : Z) (cs : list Cell) :
  grid_ok w h cs -> 0 <= x < w -> 0 <= y < h ->
  GoInt.add (GoInt.mul y w) x = y * w + x /\ 0 <= y * w + x < w * h.
Proof.
  intros (Hw & Hh & Hsz & Hlen) Hx Hy.
  assert (Hyw : 0 <= y * w <= (h - 1) * w) by nia.
  assert (Hidx : 0 <= y * w + x < w * h) by nia.
  assert (Hhalf : 0 < GoInt.half) by reflexivity.
  split; [| exact Hidx].
  unfold GoInt.add, GoInt.mul.
  rewrite (wrap_in_range (y * w)) by (unfold GoInt.in_range; nia).
  apply wrap_in_range. unfold GoInt.in_range. lia.
Qed.

Lemma index_cell_in_grid (x y w h : Z) (cs : list Cell) :
  grid_ok w h cs -> 0 <= x < w -> 0 <= y < h ->
  exists c, index_cell cs (GoInt.add (GoInt.mul y w) x) = Returns c.
Proof.
  intros Hg Hx Hy.
  destruct (cell_index_in_grid x y w h cs Hg Hx Hy) as [-> Hidx].
  destruct Hg as (_ & _ & _ & Hlen).
  unfold index_cell.
  destruct (Z.ltb_spec (y * w + x) 0); [lia |].
  destruct (lookup_lt_is_Some_2 cs (Z.to_nat (y * w + x))) as [c Hc]; [lia |].
  exists c. rewrite Hc. reflexivity.
Qed.

Lemma field_write_keeps_store (wr : cell_write) (hp hp' : RuneHeap)
    (c c' : Cell) :
  is_field_write wr = true ->
  apply_write wr hp c = Returns (hp', c') -> hp' = hp.
Proof.
  destruct wr; cbn; intros Hf; try discriminate; intros [= <- _]; reflexivity.
Qed.

Lemma slice_store_runes (hp hp' : RuneHeap) (sl : RuneSlice) (i : Z) (r : rune) :
  slice_store hp sl i r = Returns hp' ->
  slice_runes hp' sl = <[Z.to_nat i := r]> (slice_runes hp sl).
Proof.
  unfold slice_store, slice_runes.
  destruct (Z.leb_spec 0 i); [| discriminate].
  destruct (Z.ltb_spec i (Z.of_nat (s_len sl))); [| discriminate]. cbn.
  destruct (hp !! s_arr sl) as [a |] eqn:Ha; [| discriminate].
  intros [= <-]. rewrite lookup_insert_eq. cbn.
  rewrite drop_insert_ge by lia.
  replace (s_off sl + Z.to_nat i - s_off sl)%nat with (Z.to_nat i) by lia.
  rewrite take_insert_lt by lia. reflexivity.
Qed.

(** C9, amended.  For an in-range position of a live grid, [GetCell]
    returns without a panic, leaves the screen and the rune store
    unchanged, and hands out a copy of the cell structure.  Whatever the
    caller then writes to that copy, the screen is unchanged and a second
    [GetCell] returns the same structure.  An assignment to a field of the
    copy ([Style], [Dirty], [Width], or [Ch] as a whole) leaves the store
    unchanged too, so the grid keeps its content.  The copy shares its rune
    array with the grid, though: assigning element [i] of its [Ch] changes
    the runes of the grid's cell at [i]. *)
Theorem get_cell_copies_the_structure_only
    (x y : Z) (hp : RuneHeap) (t : TScreen.tScreen) (s : CScreen.cScreen) :
  TScreen.fini t = false ->
  grid_ok (TScreen.w t) (TScreen.h t) (TScreen.cells t) ->
  grid_ok (CScreen.w s) (CScreen.h s) (CScreen.cells s) ->
  0 <= x < TScreen.w t -> 0 <= y < TScreen.h t ->
  0 <= x < CScreen.w s -> 0 <= y < CScreen.h s ->
  (exists c,
     TScreen.GetCell x y hp t = Returns (Some c, hp, t) /\
     forall wr hp' c',
       apply_write wr hp c = Returns (hp', c') ->
       TScreen.GetCell x y hp' t = Returns (Some c, hp', t) /\
       (is_field_write wr = true -> hp' = hp) /\
       (forall i r, wr = WriteChElem i r ->
          slice_runes hp' (Cell.Ch c)
          = <[Z.to_nat i := r]> (slice_runes hp (Cell.Ch c)))) /\
  (exists c,
     CScreen.GetCell x y hp s = Returns (Some c, hp, s) /\
     forall wr hp' c',
       apply_write wr hp c = Returns (hp', c') ->
       CScreen.GetCell x y hp' s = Returns (Some c, hp', s) /\
       (is_field_write wr = true -> hp' = hp) /\
       (forall i r, wr = WriteChElem i r ->
          slice_runes hp' (Cell.Ch c)
          = <[Z.to_nat i := r]> (slice_runes hp (Cell.Ch c)))).
Proof.
  intros Hf Hgt Hgs Hxt Hyt Hxs Hys. split.
  - destruct (index_cell_in_grid x y _ _ _ Hgt Hxt Hyt) as [c Hc].
    exists c.
    assert (Hget : forall hp0, TScreen.GetCell x y hp0 t
                               = Returns (Some c, hp0, t)).
    { intros hp0. unfold TScreen.GetCell.
      rewrite (tscreen_outside_false x y t Hf Hxt Hyt).
      unfold TScreen.cell_index. rewrite Hc. reflexivity. }
    split; [apply Hget |].
    intros wr hp' c' Hwr. split; [apply Hget |]. split.
    + intros Hfw. exact (field_write_keeps_store wr hp hp' c c' Hfw Hwr).
    + intros i r ->. cbn in Hwr.
      destruct (slice_store hp (Cell.Ch c) i r) as [hp1 |] eqn:Hst;
        [| discriminate].
      cbn in Hwr. injection Hwr as <- _.
      exact (slice_store_runes hp hp1 (Cell.Ch c) i r Hst).
  - destruct (index_cell_in_grid x y _ _ _ Hgs Hxs Hys) as [c Hc].
    exists c.
    assert (Hget : forall hp0, CScreen.GetCell x y hp0 s
                               = Returns (Some c, hp0, s)).
    { intros hp0. unfold CScreen.GetCell.
      rewrite (cscreen_outside_false x y s Hxs Hys).
      unfold CScreen.cell_index. rewrite Hc. reflexivity. }
    split; [apply Hget |].
    intros wr hp' c' Hwr. split; [apply Hget |]. split.
    + intros Hfw. exact (field_write_keeps_store wr hp hp' c c' Hfw Hwr).
    + intros i r ->. cbn in Hwr.
      destruct (slice_store hp (Cell.Ch c) i r) as [hp1 |] eqn:Hst;
        [| discriminate].
      cbn in Hwr. injection Hwr as <- _.
      exact (slice_store_runes hp hp1 (Cell.Ch c) i r Hst).
Qed.


(** *** Posting events *)

Lemma full_not_ready (c : chan) :
  (cap c <= length (queue c))%nat -> send_ready (Some c) = false.
Proof. intros Hfull. cbn. apply Nat.ltb_ge. exact Hfull. Qed.

Lemma tscreen_Init_channel (cs : gostring)
    (ge : gostring -> option (Transformer * Transformer)) (ok : bool)
    (hp : RuneHeap) (t : TScreen.tScreen) :
  TScreen.evch (snd (fst (TScreen.Init cs ge ok hp t))) = Some (make_chan 10).
Proof.
  unfold TScreen.Init. cbn.
  destruct (TScreen.is_utf8 cs || TScreen.is_ascii cs).
  - destruct ok; cbn; [| reflexivity].
    destruct (ResizeCells _ _ _ _ _ _); reflexivity.
  - destruct (ge cs) as [[e d] |]; [| reflexivity].
    destruct ok; cbn; [| reflexivity].
    destruct (ResizeCells _ _ _ _ _ _); reflexivity.
Qed.

Lemma cscreen_PostEvent_cap (pick : bool) (ev : Event)
    (s s' : CScreen.cScreen) (c : chan) :
  CScreen.evch s = Some c ->
  CScreen.PostEvent pick ev s = Proceeds s' ->
  exists q, CScreen.evch s' = Some {| cap := cap c; queue := q |}.
Proof.
  intros Hc. unfold CScreen.PostEvent.
  destruct (select_arm _ _ _ _) as [[] |]; intros [= <-].
  - exists (queue c). rewrite Hc. destruct c; reflexivity.
  - exists (queue c ++ [ev]).
    change (enqueue ev (CScreen.evch s)
            = Some {| cap := cap c; queue := queue c ++ [ev] |}).
    rewrite Hc. reflexivity.
  - exists (queue c). rewrite Hc. destruct c; reflexivity.
Qed.

Lemma cscreen_resize_cap (pick : bool) (info : CScreen.consoleInfo)
    (hp hp' : RuneHeap) (s s' : CScreen.cScreen) (c : chan) :
  CScreen.evch s = Some c ->
  CScreen.resize pick info hp s = Proceeds (hp', s') ->
  exists q, CScreen.evch s' = Some {| cap := cap c; queue := q |}.
Proof.
  intros Hc. unfold CScreen.resize.
  match goal with |- context [if ?b then _ else _] => destruct b end.
  - intros [= <- <-]. exists (queue c). rewrite Hc. destruct c; reflexivity.
  - destruct (ResizeCells _ _ _ _ _ _) as [hp1 cs1].
    match goal with
    | |- context [CScreen.PostEvent ?p ?e ?s0] =>
        destruct (CScreen.PostEvent p e s0) as [s1 |] eqn:Hpost
    end; [| discriminate].
    intros [= <- <-].
    eapply cscreen_PostEvent_cap; [| exact Hpost]. exact Hc.
Qed.

Lemma cscreen_Init_channel (open_in open_out : bool)
    (ocur : CScreen.cursorInfo) (oscr info : CScreen.consoleInfo)
    (oom oim : Z) (pick : bool) (hp hp' : RuneHeap)
    (s s' : CScreen.cScreen) (err : bool) :
  CScreen.Init open_in open_out ocur oscr info oom oim pick hp s
  = Proceeds (hp', s', err) ->
  exists q, CScreen.evch s' = Some {| cap := 2; queue := q |}.
Proof.
  unfold CScreen.Init.
  destruct open_in;
    [| intros [= <- <- <-]; exists []; reflexivity].
  destruct open_out;
    [| intros [= <- <- <-]; exists []; reflexivity].
  match goal with
  | |- context [CScreen.resize ?p ?i ?h ?s0] =>
      destruct (CScreen.resize p i h s0) as [[hp1 s1] |] eqn:Hres
  end; [| discriminate].
  intros [= <- <- <-].
  apply (cscreen_resize_cap _ _ _ _ _ _ (make_chan 2)) in Hres;
    [| reflexivity].
  exact Hres.
Qed.

(** C2, amended.  On a full event channel the terminfo screen's
    [PostEvent], a [select] that always has an arm to run, returns at once
    and leaves the screen, and so the channel, unchanged: the event is
    dropped.  The console screen's [PostEvent] on a full channel returns,
    leaving the channel unchanged, only once [quit] is closed; until then
    it blocks.  [Init] gives the channel a capacity of 10 on the terminfo
    screen and of 2 on the console screen. *)
Theorem post_event_on_a_full_channel
    (ev : Event) (pick : bool) (t : TScreen.tScreen) (s : CScreen.cScreen)
    (ct cs : chan) :
  TScreen.evch t = Some ct -> (cap ct <= length (queue ct))%nat ->
  CScreen.evch s = Some cs -> (cap cs <= length (queue cs))%nat ->
  TScreen.PostEvent ev t = t /\
  (forall ready, select_arm false ready true pick <> None) /\
  (CScreen.quit s = SigClosed -> CScreen.PostEvent pick ev s = Proceeds s) /\
  (CScreen.quit s <> SigClosed -> CScreen.PostEvent pick ev s = Blocks) /\
  (forall charset ge ok hp t0,
     TScreen.evch (snd (fst (TScreen.Init charset ge ok hp t0)))
     = Some (make_chan 10)) /\
  (forall open_in open_out ocur oscr info oom oim hp s0 hp' s' err,
     CScreen.Init open_in open_out ocur oscr info oom oim pick hp s0
     = Proceeds (hp', s', err) ->
     exists q, CScreen.evch s' = Some {| cap := 2; queue := q |}).
Proof.
  intros Ht Hct Hs Hcs.
  pose proof (full_not_ready ct Hct) as Hrt.
  pose proof (full_not_ready cs Hcs) as Hrs.
  repeat split.
  - unfold TScreen.PostEvent. rewrite Ht, Hrt. reflexivity.
  - intros ready. destruct ready; discriminate.
  - intros Hq. unfold CScreen.PostEvent. rewrite Hs, Hrs, Hq. reflexivity.
  - intros Hq. unfold CScreen.PostEvent. rewrite Hs, Hrs.
    destruct (CScreen.quit s); try reflexivity. contradiction.
  - apply tscreen_Init_channel.
  - intros. eapply cscreen_Init_channel. eassumption.
Qed.

End GridFacts.

Module GridExamples.
#[local] Existing Instances Sample.masks Sample.styles Sample.cellops
  Sample.utf8 Sample.palette Sample.utf16.

Lemma out_of_range_cell_access_is_silent_witness :
  ¬ (0 <= 4 < TScreen.w Sample.tscreen /\ 0 <= 1 < TScreen.h Sample.tscreen) /\
  ¬ (0 <= 4 < CScreen.w Sample.cscreen /\ 0 <= 1 < CScreen.h Sample.cscreen) /\
  TScreen.SetCell 4 1 7 nil_slice Sample.theap Sample.tscreen
  = Returns (Sample.theap, Sample.tscreen) /\
  CScreen.GetCell 4 1 Sample.theap Sample.cscreen
  = Returns (None, Sample.theap, Sample.cscreen).
Proof.
  assert (Ht : ¬ (0 <= 4 < TScreen.w Sample.tscreen
                  /\ 0 <= 1 < TScreen.h Sample.tscreen))
    by (vm_compute; intros [[_ H] _]; discriminate H).
  assert (Hs : ¬ (0 <= 4 < CScreen.w Sample.cscreen
                  /\ 0 <= 1 < CScreen.h Sample.cscreen))
    by (vm_compute; intros [[_ H] _]; discriminate H).
  pose proof (out_of_range_cell_access_is_silent
                4 1 7 nil_slice None Sample.theap Sample.tscreen
                Sample.cscreen Ht Hs) as (H1 & _ & _ & _ & _ & H6).
  exact (conj Ht (conj Hs (conj H1 H6))).
Defined.

Lemma tscreen_mutations_after_fini_are_noops_witness :
  TScreen.Fini Sample.tscreen = Returns Sample.tscreen_done /\
  tscreen_apply None (MSetCell 1 1 7 nil_slice) Sample.theap
    Sample.tscreen_done
  = Returns (Sample.theap, Sample.tscreen_done).
Proof.
  assert (Hfini : TScreen.Fini Sample.tscreen = Returns Sample.tscreen_done)
    by (vm_compute; reflexivity).
  split; [exact Hfini |].
  exact (tscreen_mutations_after_fini_are_noops None
           (MSetCell 1 1 7 nil_slice) Sample.theap Sample.tscreen
           Sample.tscreen_done Hfini).
Defined.

(** After the console screen's [Fini], [SetStyle] still changes the
    screen. *)
Lemma cscreen_mutation_after_fini_counterexample :
  CScreen.Fini Sample.cscreen = Returns Sample.cscreen_done /\
  cscreen_apply false Sample.console_info (MSetStyle 5) Sample.cheap
    Sample.cscreen_done
  <> Proceeds (Returns (Sample.cheap, Sample.cscreen_done)).
Proof.
  split; [vm_compute; reflexivity |].
  vm_compute. intros H. discriminate H.
Qed.

Lemma get_cell_copies_the_structure_only_witness :
  TScreen.fini Sample.tscreen = false /\
  (exists c,
     TScreen.GetCell 1 2 Sample.theap Sample.tscreen
     = Returns (Some c, Sample.theap, Sample.tscreen)) /\
  (exists c,
     CScreen.GetCell 1 2 Sample.theap Sample.cscreen
     = Returns (Some c, Sample.theap, Sample.cscreen)).
Proof.
  assert (Hf : TScreen.fini Sample.tscreen = false) by reflexivity.
  assert (Hgt : grid_ok (TScreen.w Sample.tscreen) (TScreen.h Sample.tscreen)
                  (TScreen.cells Sample.tscreen))
    by (vm_compute; repeat split; intros H; discriminate H).
  assert (Hgs : grid_ok (CScreen.w Sample.cscreen) (CScreen.h Sample.cscreen)
                  (CScreen.cells Sample.cscreen))
    by (vm_compute; repeat split; intros H; discriminate H).
  assert (Hxt : 0 <= 1 < TScreen.w Sample.tscreen)
    by (vm_compute; split; [intros H; discriminate H | reflexivity]).
  assert (Hyt : 0 <= 2 < TScreen.h Sample.tscreen)
    by (vm_compute; split; [intros H; discriminate H | reflexivity]).
  assert (Hxs : 0 <= 1 < CScreen.w Sample.cscreen)
    by (vm_compute; split; [intros H; discriminate H | reflexivity]).
  assert (Hys : 0 <= 2 < CScreen.h Sample.cscreen)
    by (vm_compute; split; [intros H; discriminate H | reflexivity]).
  destruct (get_cell_copies_the_structure_only 1 2 Sample.theap
              Sample.tscreen Sample.cscreen Hf Hgt Hgs Hxt Hyt Hxs Hys)
    as [[ct [Hct _]] [cs [Hcs _]]].
  split; [exact Hf |]. split; eauto.
Defined.

(** Writing an element of the rune slice of the cell [GetCell] returned
    changes what the grid holds at that position. *)
Lemma get_cell_shares_runes_counterexample :
  TScreen.GetCell 0 0 Sample.theap Sample.tscreen
  = Returns (Some Sample.cell00, Sample.theap, Sample.tscreen) /\
  slice_runes Sample.theap (Cell.Ch Sample.cell00) = [32] /\
  match apply_write (WriteChElem 0 88) Sample.theap Sample.cell00 with
  | Returns (hp', _) =>
      TScreen.GetCell 0 0 hp' Sample.tscreen
      = Returns (Some Sample.cell00, hp', Sample.tscreen) /\
      slice_runes hp' (Cell.Ch Sample.cell00) = [88]
  | Panics => False
  end.
Proof. vm_compute. repeat split. Qed.

Lemma post_event_on_a_full_channel_witness :
  TScreen.PostEvent (EventUser 11) Sample.tscreen_full = Sample.tscreen_full /\
  CScreen.PostEvent false (EventUser 3) Sample.cscreen_full = Blocks.
Proof.
  assert (Ht : TScreen.evch Sample.tscreen_full
               = Some {| cap := 10;
                         queue := map EventUser [1; 2; 3; 4; 5; 6; 7; 8; 9; 10] |})
    by reflexivity.
  assert (Hs : CScreen.evch Sample.cscreen_full
               = Some {| cap := 2; queue := map EventUser [1; 2] |})
    by reflexivity.
  destruct (post_event_on_a_full_channel (EventUser 11) false
              Sample.tscreen_full Sample.cscreen_full _ _ Ht
              (le_n 10) Hs (le_n 2)) as (H1 & _ & _ & H4 & _).
  split; [exact H1 |].
  apply H4. vm_compute. intros H. discriminate H.
Defined.

(** On a full channel with [quit] still open, the console screen's
    [PostEvent] does not return. *)
Lemma cscreen_post_event_blocks_counterexample :
  send_ready (CScreen.evch Sample.cscreen_full) = false /\
  CScreen.PostEvent false (EventUser 3) Sample.cscreen_full = Blocks.
Proof. vm_compute. split; reflexivity. Qed.

End GridExamples.

(** * Properties of the input decoder *)

Section MouseFacts.
Context {MK : Masks} {ST : StyleOps} {CO : CellOps} {U8 : Utf8}.

Lemma sub_one_in_range (z : Z) :
  GoInt.in_range z -> 0 < z -> GoInt.sub z 1 = z - 1.
Proof.
  intros Hz Hpos. unfold GoInt.sub. apply wrap_in_range.
  unfold GoInt.in_range in *. lia.
Qed.

Lemma byte_minus_33 (c : Z) :
  0 <= c < 256 -> GoInt.sub (GoInt.sub c 32) 1 = c - 33.
Proof.
  intros Hc. unfold GoInt.sub.
  assert (Hhalf : GoInt.half = 9223372036854775808) by reflexivity.
  rewrite (wrap_in_range (c - 32)) by (unfold GoInt.in_range; lia).
  rewrite wrap_in_range by (unfold GoInt.in_range; lia). lia.
Qed.

(** C6.  In [parseSgrMouse] the guard of the ['-'] case,
    [state != 3 || state != 4 || state != 5], holds in every state: a
    ['-'] makes the parse fail wherever it stands, also as the single
    leading sign of the button, x or y field, as in [ESC [ < 0 ; - 5 ; 2 0 M]
    where the x field is [-5]. *)
Theorem sgr_minus_sign_is_always_rejected :
  (forall (b : list Z) (i : nat) (v : TScreen.sgr_vars),
     TScreen.sgr_loop (45 :: b) i v = TScreen.MouseFail) /\
  (forall t : TScreen.tScreen,
     TScreen.parseSgrMouse (27 :: lit "[<0;-5;20M") t
     = (false, false, 27 :: lit "[<0;-5;20M", t)).
Proof.
  split.
  - intros b i [x btn state dig neg val]. cbn.
    destruct (Z.eqb_spec state 3) as [-> | _]; reflexivity.
  - intros t. reflexivity.
Qed.

(** What [postMouseEvent] does with a left-button press and with a release
    at a position inside the screen. *)
Lemma postMouseEvent_inside (x y btn : Z) (t : TScreen.tScreen) :
  GoInt.in_range (TScreen.w t) -> GoInt.in_range (TScreen.h t) ->
  0 <= x < TScreen.w t -> 0 <= y < TScreen.h t ->
  (btn = 0 ->
   TScreen.postMouseEvent x y btn t
   = TScreen.PostEvent (NewEventMouse x y Button1 ModNone)
       (TScreen.set_wasbtn true t)) /\
  (btn = 3 ->
   TScreen.postMouseEvent x y btn t
   = TScreen.PostEvent (NewEventMouse x y ButtonNone ModNone)
       (TScreen.set_wasbtn false t)).
Proof.
  intros Hw Hh Hx Hy.
  pose proof (sub_one_in_range (TScreen.w t) Hw ltac:(lia)) as Hw1.
  pose proof (sub_one_in_range (TScreen.h t) Hh ltac:(lia)) as Hh1.
  split; intros ->; unfold TScreen.postMouseEvent;
    [change (Z.land 0 67) with 0 | change (Z.land 3 67) with 3];
    [change (Z.land 0 4) with 0 | change (Z.land 3 4) with 0];
    [change (Z.land 0 8) with 0 | change (Z.land 3 8) with 0];
    [change (Z.land 0 16) with 0 | change (Z.land 3 16) with 0];
    cbn -[GoInt.sub Z.gtb Z.ltb]; rewrite Hw1, Hh1;
    destruct (Z.ltb_spec x 0); try lia;
    destruct (Z.ltb_spec y 0); try lia;
    destruct (Z.gtb_spec x (TScreen.w t - 1)); try lia;
    destruct (Z.gtb_spec y (TScreen.h t - 1)); try lia;
    reflexivity.
Qed.

(** C5, as the code has it.  On a screen of more than 10 columns and 20
    rows, the SGR press report [ESC [ < 0 ; 10 ; 20 M] is consumed whole,
    posts one [Mouse] event for [Button1] without modifiers and sets
    [wasbtn]; the release report [ESC [ < 0 ; 10 ; 20 m] posts one for
    [ButtonNone] and clears [wasbtn].  Both events carry the coordinates
    (10, 20) as they were sent, not the zero-based (9, 19). *)
Theorem sgr_press_release_keep_one_based_coordinates (t : TScreen.tScreen) :
  GoInt.in_range (TScreen.w t) -> GoInt.in_range (TScreen.h t) ->
  10 < TScreen.w t -> 20 < TScreen.h t ->
  TScreen.parseSgrMouse (27 :: lit "[<0;10;20M") t
  = (true, true, [],
     TScreen.PostEvent (NewEventMouse 10 20 Button1 ModNone)
       (TScreen.set_wasbtn true t)) /\
  TScreen.parseSgrMouse (27 :: lit "[<0;10;20m") t
  = (true, true, [],
     TScreen.PostEvent (NewEventMouse 10 20 ButtonNone ModNone)
       (TScreen.set_wasbtn false t)).
Proof.
  intros Hw Hh Hcols Hrows.
  destruct (postMouseEvent_inside 10 20 0 t Hw Hh) as [Hpress _]; [lia .. |].
  destruct (postMouseEvent_inside 10 20 3 t Hw Hh) as [_ Hrel]; [lia .. |].
  split.
  - change (TScreen.parseSgrMouse (27 :: lit "[<0;10;20M") t)
      with (true, true, @nil Z, TScreen.postMouseEvent 10 20 0 t).
    rewrite Hpress by reflexivity. reflexivity.
  - change (TScreen.parseSgrMouse (27 :: lit "[<0;10;20m") t)
      with (true, true, @nil Z, TScreen.postMouseEvent 10 20 3 t).
    rewrite Hrel by reflexivity. reflexivity.
Qed.

Lemma postMouseEvent_posts_once (x y btn : Z) (t : TScreen.tScreen) :
  exists ev t1,
    TScreen.postMouseEvent x y btn t = TScreen.PostEvent ev t1 /\
    TScreen.evch t1 = TScreen.evch t.
Proof.
  unfold TScreen.postMouseEvent.
  repeat match goal with
         | |- context [if ?b then (_, _) else _] => destruct b
         end;
    eexists; eexists; (split; [reflexivity | reflexivity]).
Qed.

Lemma xterm_loop_record (b x y : Z) (rest : list Z) :
  TScreen.xterm_loop ([27; 91; 77; b; x; y] ++ rest) 0 0 0 0
  = TScreen.MouseRecord 5 (GoInt.sub (GoInt.sub x 32) 1)
      (GoInt.sub (GoInt.sub y 32) 1) b.
Proof. reflexivity. Qed.

Lemma xterm_loop_partial (b x y : Z) (n : nat) :
  (n < 6)%nat ->
  TScreen.xterm_loop (take n [27; 91; 77; b; x; y]) 0 0 0 0
  = TScreen.MousePartial.
Proof.
  intros Hn. do 6 (destruct n as [| n]; [reflexivity |]). lia.
Qed.

(** C7, amended.  For a legacy report [ESC [ M b x y] at the head of the
    buffer, [parseXtermMouse] consumes the six bytes and posts exactly one
    mouse event through [postMouseEvent]: the coordinates handed on are
    [x - 33] and [y - 33], the button parameter is the byte [b] as it
    stands, with no offset removed.  With fewer than the six bytes in the
    buffer it reports partial and consumes nothing. *)
Theorem xterm_mouse_report_decoding
    (b x y : Z) (rest : list Z) (t : TScreen.tScreen) :
  0 <= b < 256 -> 0 <= x < 256 -> 0 <= y < 256 ->
  TScreen.parseXtermMouse ([27; 91; 77; b; x; y] ++ rest) t
  = (true, true, rest, TScreen.postMouseEvent (x - 33) (y - 33) b t) /\
  (exists ev t1,
     TScreen.postMouseEvent (x - 33) (y - 33) b t = TScreen.PostEvent ev t1 /\
     TScreen.evch t1 = TScreen.evch t) /\
  (forall n, (n < 6)%nat ->
     TScreen.parseXtermMouse (take n [27; 91; 77; b; x; y]) t
     = (true, false, take n [27; 91; 77; b; x; y], t)).
Proof.
  intros Hb Hx Hy. split; [| split].
  - unfold TScreen.parseXtermMouse. rewrite xterm_loop_record.
    rewrite !byte_minus_33 by assumption. reflexivity.
  - apply postMouseEvent_posts_once.
  - intros n Hn. unfold TScreen.parseXtermMouse.
    rewrite (xterm_loop_partial b x y n Hn). reflexivity.
Qed.

End MouseFacts.

Section KeyFacts.
Context {MK : Masks} {ST : StyleOps} {CO : CellOps} {U8 : Utf8}.

Lemma fkey_loop_inl (ord : list (Key * list Z)) (b : list Z) (p : bool)
    (k : Key) (e : list Z) :
  TScreen.fkey_loop ord b p = inl (k, e) ->
  (k, e) ∈ ord /\ HasPrefix b e = true.
Proof.
  revert p. induction ord as [| [k0 e0] ord IH]; intros p; cbn.
  - discriminate.
  - destruct (HasPrefix b e0) eqn:Hpre.
    + intros [= <- <-]. split; [left | exact Hpre].
    + intros Hloop. destruct (IH _ Hloop) as [Hin Hp].
      split; [right; exact Hin | exact Hp].
Qed.

Lemma fkey_loop_match (ord : list (Key * list Z)) (b : list Z) (p : bool)
    (k1 : Key) (e1 : list Z) :
  (k1, e1) ∈ ord -> HasPrefix b e1 = true ->
  exists k e, TScreen.fkey_loop ord b p = inl (k, e).
Proof.
  revert p. induction ord as [| [k0 e0] ord IH]; intros p Hin Hpre.
  - inversion Hin.
  - cbn. destruct (HasPrefix b e0) eqn:Hpre0; [eauto |].
    apply IH; [| exact Hpre].
    apply elem_of_cons in Hin as [[= -> ->] | Hin]; [congruence | exact Hin].
Qed.

Lemma fkey_loop_inr (ord : list (Key * list Z)) (b : list Z) (p : bool) :
  (forall k e, (k, e) ∈ ord -> HasPrefix b e = false) ->
  TScreen.fkey_loop ord b p
  = inr (p || existsb (fun ke => HasPrefix (snd ke) b) ord).
Proof.
  revert p. induction ord as [| [k0 e0] ord IH]; intros p Hno; cbn.
  - rewrite orb_false_r. reflexivity.
  - rewrite (Hno k0 e0) by left.
    rewrite IH by (intros k e Hin; apply (Hno k e); right; exact Hin).
    destruct (HasPrefix e0 b), p; reflexivity.
Qed.

(** C4, amended.  [parseFunctionKey] emits the key of the first entry it
    visits whose escape is a prefix of the buffer.  So when the buffer
    starts with a declared escape [e1] the parser reports complete, posts
    one [Key] event and consumes that escape, whether or not the buffer is
    still a prefix of a longer declared escape; if [e1] is the only
    declared escape the buffer starts with, the key posted is the one of
    [e1].  The parser reports partial only when no declared escape is a
    prefix of the buffer, and then exactly when the buffer is a prefix of
    some declared escape. *)
Theorem function_key_first_visited_match_wins
    (ord : list (Key * list Z)) (buf : list Z) (t : TScreen.tScreen)
    (k1 : Key) (e1 : list Z) :
  (k1, e1) ∈ ord -> HasPrefix buf e1 = true ->
  (exists k e,
     (k, e) ∈ ord /\ HasPrefix buf e = true /\
     TScreen.parseFunctionKey ord buf t
     = Returns (true, true, drop (length e) buf,
                TScreen.PostEvent
                  (NewEventKey k
                     (if (length e =? 1)%nat then default 0 (head buf) else 0)
                     ModNone) t) /\
     ((forall k' e', (k', e') ∈ ord -> HasPrefix buf e' = true ->
                     (k', e') = (k1, e1)) ->
      (k, e) = (k1, e1))) /\
  (forall ord' : list (Key * list Z),
     (forall k e, (k, e) ∈ ord' -> HasPrefix buf e = false) ->
     TScreen.parseFunctionKey ord' buf t
     = Returns (existsb (fun ke => HasPrefix (snd ke) buf) ord', false,
                buf, t)).
Proof.
  intros Hin Hpre. split.
  - destruct (fkey_loop_match ord buf false k1 e1 Hin Hpre) as (k & e & Hloop).
    destruct (fkey_loop_inl ord buf false k e Hloop) as [Hke Hpe].
    exists k, e. split; [exact Hke |]. split; [exact Hpe |]. split.
    + unfold TScreen.parseFunctionKey. rewrite Hloop.
      destruct (length e =? 1)%nat eqn:Hlen; [| reflexivity].
      destruct buf as [| b0 buf']; [| reflexivity].
      destruct e as [| c e']; [discriminate Hlen | discriminate Hpe].
    + intros Honly. exact (Honly k e Hke Hpe).
  - intros ord' Hno. unfold TScreen.parseFunctionKey.
    rewrite (fkey_loop_inr ord' buf false Hno). reflexivity.
Qed.

End KeyFacts.

Section ScanFacts.
Context {MK : Masks} {ST : StyleOps} {CO : CellOps} {U8 : Utf8}.

Lemma Returns_inj {A : Type} (a b : A) : Returns a = Returns b -> a = b.
Proof. intros [= ->]. reflexivity. Qed.

(** A sub-parser that does not report complete leaves the buffer and the
    screen as they were. *)
Lemma decode_loop_incomplete (dec : Transformer) (b : list Z) (l n : nat)
    (buf buf' : list Z) (t t' : TScreen.tScreen) (part : bool) :
  TScreen.decode_loop dec b l n buf t = (part, false, buf', t') ->
  part = true /\ buf' = buf /\ t' = t.
Proof.
  revert l. induction n as [| n IH]; intros l; cbn.
  - intros [= <- <- <-]. repeat split.
  - destruct (Transform dec (take l b)) as [[o nin] err].
    destruct (negb (length o =? 0)%nat); [discriminate | apply IH].
Qed.

Lemma parseRune_incomplete (buf buf' : list Z) (t t' : TScreen.tScreen)
    (part : bool) :
  TScreen.parseRune buf t = Returns (part, false, buf', t') ->
  buf' = buf /\ t' = t.
Proof.
  unfold TScreen.parseRune. destruct buf as [| b0 rest]; [discriminate |].
  destruct ((32 <=? b0) && (b0 <=? 127)); [discriminate |].
  destruct (b0 <? 128); [intros [= <- <- <-]; split; reflexivity |].
  destruct (TScreen.is_utf8 (TScreen.charset t)).
  { destruct (utf8_FullRune (b0 :: rest)).
    - destruct (TScreen.ReadRune (b0 :: rest)) as [[r n] |];
        [discriminate | intros [= <- <- <-]; split; reflexivity].
    - intros [= <- <- <-]; split; reflexivity. }
  destruct (TScreen.is_ascii (TScreen.charset t)); [discriminate |].
  destruct (TScreen.decoder t) as [dec |]; [| discriminate].
  intros Hloop. apply Returns_inj in Hloop.
  apply decode_loop_incomplete in Hloop. tauto.
Qed.

Lemma parseFunctionKey_incomplete (ord : list (Key * list Z))
    (buf buf' : list Z) (t t' : TScreen.tScreen) (part : bool) :
  TScreen.parseFunctionKey ord buf t = Returns (part, false, buf', t') ->
  buf' = buf /\ t' = t.
Proof.
  unfold TScreen.parseFunctionKey.
  destruct (TScreen.fkey_loop ord buf false) as [[k e] | p].
  - destruct (length e =? 1)%nat; [destruct buf |]; discriminate.
  - intros [= <- <- <-]. split; reflexivity.
Qed.

Lemma finish_mouse_incomplete (r : TScreen.mouse_scan)
    (buf buf' : list Z) (t t' : TScreen.tScreen) (part : bool) :
  TScreen.finish_mouse r buf t = (part, false, buf', t') ->
  buf' = buf /\ t' = t.
Proof.
  destruct r; cbn; try discriminate; intros [= <- <- <-]; split; reflexivity.
Qed.



(** The scan loop runs each sub-parser of an iteration on the same,
    non-empty buffer, and decides as the specification words it. *)
Lemma scanInput_refines_spec_scan (fuel : nat)
    (ord : nat -> list (Key * list Z)) (buf : list Z) (expire : bool)
    (t : TScreen.tScreen) :
  TScreen.scanInput fuel ord buf expire t = spec_scan fuel ord buf expire t.
Proof.
  revert ord buf t. induction fuel as [| fuel IH]; intros ord buf t;
    [reflexivity |].
  destruct buf as [| b0 rest]; [reflexivity |].
  cbn [TScreen.scanInput spec_scan length Nat.eqb].
  unfold sub_parsers. cbn [app map judge].
  destruct (TScreen.parseRune (b0 :: rest) t)
    as [[[[part1 comp1] buf1] t1] |] eqn:HR; [| reflexivity].
  destruct comp1; [apply IH |].
  destruct (parseRune_incomplete _ _ _ _ _ HR) as [-> ->].
  destruct (TScreen.parseFunctionKey (ord 0%nat) (b0 :: rest) t)
    as [[[[part2 comp2] buf2] t2] |] eqn:HK; [| reflexivity].
  destruct comp2; [apply IH |].
  destruct (parseFunctionKey_incomplete _ _ _ _ _ _ HK) as [-> ->].
  destruct (negb (bytes_eqb (Terminfo.Mouse (TScreen.ti t)) [])) eqn:Hm;
    cbn [map judge].
  - destruct (TScreen.parseXtermMouse (b0 :: rest) t)
      as [[[part3 comp3] buf3] t3] eqn:HX.
    destruct comp3; [apply IH |].
    destruct (finish_mouse_incomplete _ _ _ _ _ _ HX) as [-> ->].
    destruct (TScreen.parseSgrMouse (b0 :: rest) t)
      as [[[part4 comp4] buf4] t4] eqn:HS.
    destruct comp4; [apply IH |].
    destruct (finish_mouse_incomplete _ _ _ _ _ _ HS) as [-> ->].
    destruct part1, part2, part3, part4, expire;
      cbn [TScreen.count Nat.eqb orb andb negb];
      first [reflexivity | apply IH].
  - destruct part1, part2, expire;
      cbn [TScreen.count Nat.eqb orb andb negb];
      first [reflexivity | apply IH].
Qed.

(** *** A lone escape byte *)

Section LoneEscape.
Variable t : TScreen.tScreen.
Variable ord : nat -> list (Key * list Z).
Hypothesis Hord : forall i, ord i ≡ₚ map_to_list (TScreen.keys t).

Lemma visited_is_declared (i : nat) (k : Key) (e : list Z) :
  (k, e) ∈ ord i <-> TScreen.keys t !! k = Some e.
Proof. rewrite (Hord i). apply elem_of_map_to_list. Qed.

Lemma HasPrefix_escape (e : list Z) :
  HasPrefix [27] e = true <-> e = [] \/ e = [27].
Proof.
  destruct e as [| c [| c' e']]; cbn -[Z.eqb].
  - tauto.
  - rewrite andb_true_r. destruct (Z.eqb_spec 27 c) as [<- | Hne].
    + tauto.
    + split; [discriminate |].
      intros [H | H]; [discriminate H | congruence].
  - rewrite andb_false_r. split; [discriminate |].
    intros [H | H]; discriminate H.
Qed.

Lemma HasPrefix_nil (s : list Z) : HasPrefix s [] = true.
Proof. destruct s; reflexivity. Qed.

Lemma escape_HasPrefix (e : list Z) :
  HasPrefix e [27] = true <-> head e = Some 27.
Proof.
  destruct e as [| c e']; cbn -[Z.eqb].
  - split; discriminate.
  - rewrite HasPrefix_nil, andb_true_r. destruct (Z.eqb_spec c 27) as [-> | Hne].
    + tauto.
    + split; [discriminate | congruence].
Qed.

Hypothesis Hkeys :
  map_Forall (fun _ e => e <> [] /\ e <> [27]) (TScreen.keys t).

Lemma escape_matches_no_key (i : nat) (k : Key) (e : list Z) :
  (k, e) ∈ ord i -> HasPrefix [27] e = false.
Proof.
  intros Hin. apply visited_is_declared in Hin.
  destruct (Hkeys k e Hin) as [Hne Hesc].
  destruct (HasPrefix [27] e) eqn:Hpre; [| reflexivity].
  apply HasPrefix_escape in Hpre. tauto.
Qed.

Lemma escape_parseFunctionKey (i : nat) :
  TScreen.parseFunctionKey (ord i) [27] t
  = Returns (existsb (fun ke => HasPrefix (snd ke) [27]) (ord i), false,
             [27], t).
Proof.
  unfold TScreen.parseFunctionKey.
  rewrite (fkey_loop_inr (ord i) [27] false (escape_matches_no_key i)).
  reflexivity.
Qed.

Lemma escape_key_partial (i : nat) :
  existsb (fun ke => HasPrefix (snd ke) [27]) (ord i) = true <->
  exists k e, TScreen.keys t !! k = Some (27 :: e).
Proof.
  rewrite existsb_exists. split.
  - intros [[k e] [Hin Hpre]]. apply escape_HasPrefix in Hpre.
    apply list_elem_of_In, visited_is_declared in Hin.
    destruct e as [| c e']; [discriminate |]. cbn in Hpre.
    injection Hpre as ->. eauto.
  - intros (k & e & Hk). exists (k, 27 :: e). split.
    + apply list_elem_of_In, visited_is_declared. exact Hk.
    + apply escape_HasPrefix. reflexivity.
Qed.

Lemma escape_iteration (expire : bool) :
  judge (map (fun p => p [27] t) (sub_parsers (ord 0%nat) t)) false expire
  = if (negb (bytes_eqb (Terminfo.Mouse (TScreen.ti t)) [])
        || existsb (fun ke => HasPrefix (snd ke) [27]) (ord 0%nat))
       && negb expire
    then Wait else RawByte.
Proof.
  unfold sub_parsers. cbn [app map judge].
  change (TScreen.parseRune [27] t) with (Returns (false, false, [27], t)).
  rewrite escape_parseFunctionKey. cbn [judge orb].
  destruct (negb (bytes_eqb (Terminfo.Mouse (TScreen.ti t)) []));
    cbn [map judge orb].
  - change (TScreen.parseXtermMouse [27] t) with (true, false, [27], t).
    change (TScreen.parseSgrMouse [27] t) with (true, false, [27], t).
    cbn [judge]. rewrite !orb_true_r. reflexivity.
  - reflexivity.
Qed.

Lemma escape_expired (fuel : nat) :
  TScreen.scanInput (S (S fuel)) ord [27] true t
  = Finished ([], TScreen.PostEvent (NewEventKey KeyRune 27 ModNone) t).
Proof.
  rewrite scanInput_refines_spec_scan. cbn [spec_scan].
  rewrite escape_iteration, andb_false_r. reflexivity.
Qed.

Lemma escape_waits (fuel : nat) :
  Terminfo.Mouse (TScreen.ti t) <> []
  \/ (exists k e, TScreen.keys t !! k = Some (27 :: e)) ->
  TScreen.scanInput (S fuel) ord [27] false t = Finished ([27], t).
Proof.
  intros Hpartial.
  rewrite scanInput_refines_spec_scan. cbn [spec_scan].
  rewrite escape_iteration.
  replace (negb (bytes_eqb (Terminfo.Mouse (TScreen.ti t)) [])
           || existsb (fun ke => HasPrefix (snd ke) [27]) (ord 0%nat))
    with true; [reflexivity |].
  symmetry. apply orb_true_iff. destruct Hpartial as [Hm | Hk].
  - left. unfold bytes_eqb. rewrite bool_decide_eq_false_2 by exact Hm.
    reflexivity.
  - right. apply escape_key_partial. exact Hk.
Qed.

Lemma escape_not_held (fuel : nat) :
  Terminfo.Mouse (TScreen.ti t) = [] ->
  (forall k e, TScreen.keys t !! k = Some e -> head e <> Some 27) ->
  TScreen.scanInput (S (S fuel)) ord [27] false t
  = Finished ([], TScreen.PostEvent (NewEventKey KeyRune 27 ModNone) t).
Proof.
  intros Hm Hk.
  rewrite scanInput_refines_spec_scan. cbn [spec_scan].
  rewrite escape_iteration.
  replace (negb (bytes_eqb (Terminfo.Mouse (TScreen.ti t)) [])
           || existsb (fun ke => HasPrefix (snd ke) [27]) (ord 0%nat))
    with false; [reflexivity |].
  symmetry. apply orb_false_iff. split.
  - unfold bytes_eqb. rewrite bool_decide_eq_true_2 by exact Hm. reflexivity.
  - destruct (existsb _ (ord 0%nat)) eqn:Hex; [| reflexivity].
    apply escape_key_partial in Hex as (k & e & Hke).
    exfalso. exact (Hk k (27 :: e) Hke eq_refl).
Qed.

End LoneEscape.

(** C3, amended.  Every invocation of the scan loop runs as described:
    it repeats until the buffer is empty or blocked; an iteration consults
    the sub-parsers in order (the two mouse parsers only on a terminal that
    declares mouse support); if one reports complete the loop restarts on
    what that parser left; else if one reported partial and [expire] is
    false it stops and consumes nothing; otherwise it consumes exactly one
    byte and posts [Key=Rune] with that byte and no modifiers.  In
    particular, on a terminal none of whose key escapes is the single byte
    0x1b, feeding the byte 0x1b alone with [expire] true posts exactly the
    event [Key {Rune, 0x1b, ModNone}] and empties the buffer; with [expire]
    false it posts nothing and keeps the byte when the terminal declares
    mouse support or a key escape starting with 0x1b, and otherwise posts
    that same event at once. *)
Theorem scan_loop_and_lone_escape
    (ord : nat -> list (Key * list Z)) (t : TScreen.tScreen) :
  (forall i, ord i ≡ₚ map_to_list (TScreen.keys t)) ->
  map_Forall (fun _ e => e <> [] /\ e <> [27]) (TScreen.keys t) ->
  (forall fuel buf expire,
     TScreen.scanInput fuel ord buf expire t
     = spec_scan fuel ord buf expire t) /\
  (forall fuel,
     TScreen.scanInput (S (S fuel)) ord [27] true t
     = Finished ([], TScreen.PostEvent (NewEventKey KeyRune 27 ModNone) t)) /\
  (forall fuel,
     Terminfo.Mouse (TScreen.ti t) <> []
     \/ (exists k e, TScreen.keys t !! k = Some (27 :: e)) ->
     TScreen.scanInput (S fuel) ord [27] false t = Finished ([27], t)) /\
  (forall fuel,
     Terminfo.Mouse (TScreen.ti t) = [] ->
     (forall k e, TScreen.keys t !! k = Some e -> head e <> Some 27) ->
     TScreen.scanInput (S (S fuel)) ord [27] false t
     = Finished ([], TScreen.PostEvent (NewEventKey KeyRune 27 ModNone) t)).
Proof.
  intros Hord Hkeys. split; [| split; [| split]].
  - intros fuel buf expire. apply scanInput_refines_spec_scan.
  - intros fuel. exact (escape_expired t ord Hord Hkeys fuel).
  - intros fuel. exact (escape_waits t ord Hord Hkeys fuel).
  - intros fuel. exact (escape_not_held t ord Hord Hkeys fuel).
Qed.

End ScanFacts.

(** *** The scan loop never panics and always returns *)

Section Totality.
Context {MK : Masks} {ST : StyleOps} {CO : CellOps} {U8 : Utf8}.

Lemma same_config_refl (t : TScreen.tScreen) : same_config t t.
Proof. repeat split. Qed.

Lemma same_config_trans (t1 t2 t3 : TScreen.tScreen) :
  same_config t1 t2 -> same_config t2 t3 -> same_config t1 t3.
Proof.
  intros (H1 & H2 & H3 & H4) (G1 & G2 & G3 & G4).
  repeat split; congruence.
Qed.

Lemma same_config_PostEvent (ev : Event) (t : TScreen.tScreen) :
  same_config t (TScreen.PostEvent ev t).
Proof.
  unfold TScreen.PostEvent.
  destruct (select_arm _ _ _ _) as [[] |]; repeat split.
Qed.

Lemma same_config_postMouseEvent (x y btn : Z) (t : TScreen.tScreen) :
  same_config t (TScreen.postMouseEvent x y btn t).
Proof.
  unfold TScreen.postMouseEvent.
  repeat match goal with
         | |- context [if ?b then (_, _) else _] => destruct b
         end;
    (eapply same_config_trans; [| apply same_config_PostEvent]);
    repeat split.
Qed.

Lemma decoder_ready_config (t t' : TScreen.tScreen) :
  same_config t t' -> decoder_ready t -> decoder_ready t'.
Proof.
  intros (_ & _ & Hcs & Hdec). unfold decoder_ready.
  rewrite Hcs, Hdec. tauto.
Qed.

Lemma drop_shorter (n : nat) (buf : list Z) :
  buf <> [] -> (1 <= n)%nat -> (length (drop n buf) < length buf)%nat.
Proof.
  intros Hne Hn. rewrite length_drop.
  destruct buf; [contradiction | cbn; lia].
Qed.

Lemma decode_loop_progresses (dec : Transformer) (b : list Z) (l n : nat)
    (buf : list Z) (t : TScreen.tScreen) :
  (forall src o nin err,
     Transform dec src = (o, nin, err) -> o <> [] -> (1 <= nin)%nat) ->
  buf <> [] ->
  progresses buf t (Returns (TScreen.decode_loop dec b l n buf t)).
Proof.
  intros Hdec Hne. revert l. induction n as [| n IH]; intros l; cbn.
  - discriminate.
  - destruct (Transform dec (take l b)) as [[o nin] err] eqn:Htr.
    destruct (length o =? 0)%nat eqn:Hlen; cbn; [apply IH |].
    intros _. split.
    + apply drop_shorter; [exact Hne |].
      apply (Hdec _ _ _ _ Htr). intros ->. discriminate Hlen.
    + destruct (negb _); [apply same_config_PostEvent | apply same_config_refl].
Qed.

Lemma parseRune_progresses (buf : list Z) (t : TScreen.tScreen) :
  decode_progress -> decoder_ready t -> buf <> [] ->
  progresses buf t (TScreen.parseRune buf t).
Proof.
  intros Hutf Hready Hne. unfold TScreen.parseRune.
  destruct buf as [| b0 rest]; [contradiction |].
  destruct ((32 <=? b0) && (b0 <=? 127)).
  { intros _. split; [| apply same_config_PostEvent].
    apply drop_shorter; [discriminate | lia]. }
  destruct (b0 <? 128) eqn:Hlow; [discriminate |].
  destruct (TScreen.is_utf8 (TScreen.charset t)) eqn:Hu.
  { destruct (utf8_FullRune (b0 :: rest)); [| discriminate].
    unfold TScreen.ReadRune. rewrite Hlow.
    destruct (utf8_DecodeRune (b0 :: rest)) as [r n] eqn:Hd.
    intros _. split; [| apply same_config_PostEvent].
    apply drop_shorter; [discriminate |].
    pose proof (Hutf (b0 :: rest) ltac:(discriminate)) as Hn.
    rewrite Hd in Hn. exact Hn. }
  destruct (TScreen.is_ascii (TScreen.charset t)) eqn:Ha.
  { intros _. split; [| apply same_config_PostEvent].
    apply drop_shorter; [discriminate | lia]. }
  destruct Hready as [Hcs | (dec & Hdec & Hprog)].
  { rewrite Hu, Ha in Hcs. discriminate Hcs. }
  rewrite Hdec. apply decode_loop_progresses; [exact Hprog | discriminate].
Qed.

Lemma parseFunctionKey_progresses (ord : list (Key * list Z))
    (buf : list Z) (t : TScreen.tScreen) :
  (forall k e, (k, e) ∈ ord -> e <> []) -> buf <> [] ->
  progresses buf t (TScreen.parseFunctionKey ord buf t).
Proof.
  intros Hord Hne. unfold TScreen.parseFunctionKey.
  destruct (TScreen.fkey_loop ord buf false) as [[k e] | p] eqn:Hloop;
    [| discriminate].
  destruct (fkey_loop_inl _ _ _ _ _ Hloop) as [Hin _].
  destruct buf as [| b0 rest]; [contradiction |].
  destruct (length e =? 1)%nat; cbn; intros _;
    (split; [| apply same_config_PostEvent]);
    rewrite length_drop; pose proof (Hord k e Hin);
    destruct e; [contradiction | cbn; lia | contradiction | cbn; lia].
Qed.

Lemma finish_mouse_progresses (r : TScreen.mouse_scan) (buf : list Z)
    (t : TScreen.tScreen) :
  buf <> [] -> progresses buf t (Returns (TScreen.finish_mouse r buf t)).
Proof.
  intros Hne. destruct r; cbn; try discriminate.
  intros _. split; [| apply same_config_postMouseEvent].
  destruct buf; [contradiction |]. cbn. rewrite length_drop. lia.
Qed.

Lemma sub_parsers_progress (ord : list (Key * list Z)) (buf : list Z)
    (t : TScreen.tScreen) :
  decode_progress -> decoder_ready t ->
  (forall k e, (k, e) ∈ ord -> e <> []) -> buf <> [] ->
  Forall (progresses buf t) (map (fun p => p buf t) (sub_parsers ord t)).
Proof.
  intros Hutf Hready Hord Hne. unfold sub_parsers. cbn [app map].
  constructor; [apply parseRune_progresses; assumption |].
  constructor; [apply parseFunctionKey_progresses; assumption |].
  destruct (negb _); cbn [map]; [| constructor].
  constructor; [apply finish_mouse_progresses; assumption |].
  constructor; [apply finish_mouse_progresses; assumption | constructor].
Qed.

Lemma judge_progresses (buf : list Z) (t : TScreen.tScreen)
    (rs : list (outcome TScreen.parsed)) (any_partial expire : bool) :
  Forall (progresses buf t) rs ->
  match judge rs any_partial expire with
  | Restart buf' t' => (length buf' < length buf)%nat /\ same_config t t'
  | Fault => False
  | Wait | RawByte => True
  end.
Proof.
  intros Hrs. revert any_partial.
  induction Hrs as [| r rs Hr Hrs IH]; intros any_partial; cbn [judge].
  - destruct (any_partial && negb expire); exact I.
  - destruct r as [[[[part comp] buf'] t'] |]; [| exact Hr].
    destruct comp; [exact (Hr eq_refl) | apply IH].
Qed.

Lemma spec_scan_finishes (n : nat) :
  decode_progress ->
  forall (ord : nat -> list (Key * list Z)) (buf : list Z) (expire : bool)
         (t : TScreen.tScreen),
    (forall i k e, (k, e) ∈ ord i -> e <> []) ->
    decoder_ready t -> (length buf < n)%nat ->
    exists buf' t', spec_scan n ord buf expire t = Finished (buf', t').
Proof.
  intros Hutf. induction n as [| n IH]; intros ord buf expire t Hord Hready Hlen;
    [lia |].
  destruct buf as [| b0 rest]; [cbn; eauto |].
  cbn [spec_scan].
  pose proof (judge_progresses (b0 :: rest) t _ false expire
                (sub_parsers_progress (ord 0%nat) (b0 :: rest) t Hutf Hready
                   (Hord 0%nat) ltac:(discriminate))) as Hj.
  destruct (judge _ false expire) as [buf' t' | | |].
  - destruct Hj as [Hshort Hcfg]. apply IH.
    + intros i. apply Hord.
    + exact (decoder_ready_config t t' Hcfg Hready).
    + cbn in Hshort, Hlen. lia.
  - eauto.
  - apply IH.
    + intros i. apply Hord.
    + exact (decoder_ready_config _ _ (same_config_PostEvent _ t) Hready).
    + cbn in Hlen. lia.
  - contradiction.
Qed.

(** C10.  On a screen set up by [NewTerminfoScreen] and [Init] (no key
    escape is empty; outside UTF-8 and US-ASCII a decoder is installed,
    and it consumes input when it produces output), with a [utf8] package
    that decodes at least one byte of a non-empty input: [parseRune]
    panics on the empty buffer, but the scan loop returns before any
    sub-parser when the buffer is empty, and hands every sub-parser of an
    iteration the same non-empty buffer; on a non-empty buffer [parseRune]
    and [parseFunctionKey] return without a panic, as the two mouse
    parsers always do; and on every byte sequence the scan loop returns,
    without a panic, within one iteration more than there are bytes. *)
Theorem scan_loop_never_faults
    (ord : nat -> list (Key * list Z)) (t : TScreen.tScreen) :
  (forall i, ord i ≡ₚ map_to_list (TScreen.keys t)) ->
  map_Forall (fun _ e => e <> []) (TScreen.keys t) ->
  decoder_ready t ->
  decode_progress ->
  TScreen.parseRune [] t = Panics /\
  (forall fuel expire,
     TScreen.scanInput (S fuel) ord [] expire t = Finished ([], t)) /\
  (forall fuel buf expire,
     TScreen.scanInput fuel ord buf expire t
     = spec_scan fuel ord buf expire t) /\
  (forall buf, buf <> [] ->
     (exists r, TScreen.parseRune buf t = Returns r) /\
     (exists r, TScreen.parseFunctionKey (ord 0%nat) buf t = Returns r)) /\
  (forall buf expire,
     exists buf' t',
       TScreen.scanInput (S (length buf)) ord buf expire t
       = Finished (buf', t')).
Proof.
  intros Hord Hkeys Hready Hutf.
  assert (Hesc : forall i k e, (k, e) ∈ ord i -> e <> []).
  { intros i k e Hin. rewrite (Hord i) in Hin.
    apply elem_of_map_to_list in Hin. exact (Hkeys k e Hin). }
  split; [reflexivity |]. split; [reflexivity |].
  split; [intros; apply scanInput_refines_spec_scan |]. split.
  - intros buf Hne. split.
    + pose proof (parseRune_progresses buf t Hutf Hready Hne) as Hp.
      destruct (TScreen.parseRune buf t); [eauto | contradiction].
    + pose proof (parseFunctionKey_progresses (ord 0%nat) buf t
                    (Hesc 0%nat) Hne) as Hp.
      destruct (TScreen.parseFunctionKey (ord 0%nat) buf t);
        [eauto | contradiction].
  - intros buf expire. rewrite scanInput_refines_spec_scan.
    apply spec_scan_finishes; [assumption .. | lia].
Qed.

End Totality.

(** *** What the constructors establish *)

Section Setup.
Context {MK : Masks} {ST : StyleOps} {CO : CellOps} {U8 : Utf8}.

Lemma prepareKey_nonempty (k : Key) (val : gostring) (t : TScreen.tScreen) :
  map_Forall (fun _ e => e <> []) (TScreen.keys t) ->
  map_Forall (fun (_ : Key) (e : list Z) => e <> [])
    (TScreen.keys (TScreen.prepareKey k val t)).
Proof.
  intros Hall. unfold TScreen.prepareKey, bytes_eqb.
  case_bool_decide; [exact Hall |].
  apply map_Forall_insert_2; assumption.
Qed.

Lemma prepareKeys_nonempty (t : TScreen.tScreen) :
  map_Forall (fun _ e => e <> []) (TScreen.keys t) ->
  map_Forall (fun (_ : Key) (e : list Z) => e <> [])
    (TScreen.keys (TScreen.prepareKeys t)).
Proof.
  unfold TScreen.prepareKeys. generalize TScreen.prepared as ks.
  intros ks. revert t. induction ks as [| k ks IH]; intros t Hall.
  - exact Hall.
  - cbn [foldl]. apply IH. apply prepareKey_nonempty. exact Hall.
Qed.

(** [NewTerminfoScreen] declares no empty key escape. *)
Lemma NewTerminfoScreen_keys (lookup : option Terminfo) (lines columns : Z)
    (acsmap : gmap Z gostring) (t : TScreen.tScreen) :
  TScreen.NewTerminfoScreen lookup lines columns acsmap = Some t ->
  map_Forall (fun (_ : Key) (e : list Z) => e <> []) (TScreen.keys t).
Proof.
  unfold TScreen.NewTerminfoScreen.
  destruct lookup as [ti |]; [| discriminate].
  match goal with
  | |- context [TScreen.prepareKeys ?t0] =>
      assert (Hkeys : map_Forall (fun (_ : Key) (e : list Z) => e <> [])
                        (TScreen.keys (TScreen.prepareKeys t0)))
        by (apply prepareKeys_nonempty;
            destruct (0 <? Z.of_nat (length (Terminfo.Mouse ti)));
            apply map_Forall_empty);
      generalize dependent (TScreen.prepareKeys t0)
  end.
  intros t1 Hkeys [= <-].
  destruct (columns =? 0), (lines =? 0); exact Hkeys.
Qed.

(** [Init] leaves the key table alone and, when it succeeds, installs a
    decoder for every character set other than UTF-8 and US-ASCII. *)
Lemma Init_decoder_ready (cs : gostring)
    (ge : gostring -> option (Transformer * Transformer)) (ok : bool)
    (hp hp' : RuneHeap) (t t' : TScreen.tScreen) :
  (forall e d, ge cs = Some (e, d) ->
     forall src o nin err,
       Transform d src = (o, nin, err) -> o <> [] -> (1 <= nin)%nat) ->
  TScreen.Init cs ge ok hp t = (hp', t', false) ->
  decoder_ready t' /\ TScreen.keys t' = TScreen.keys t.
Proof.
  intros Hcodec. unfold TScreen.Init, decoder_ready.
  change (TScreen.charset (TScreen.set_charset cs
            (TScreen.set_evch (Some (make_chan 10)) t))) with cs.
  destruct (TScreen.is_utf8 cs || TScreen.is_ascii cs) eqn:Hcs.
  - destruct ok; [| discriminate]. cbn [negb].
    destruct (ResizeCells _ _ _ _ _ _) as [hp1 cells1].
    intros [= <- <-]. split; [left; exact Hcs | reflexivity].
  - destruct (ge cs) as [[e d] |] eqn:Hge; [| discriminate].
    destruct ok; [| discriminate]. cbn [negb].
    destruct (ResizeCells _ _ _ _ _ _) as [hp1 cells1].
    intros [= <- <-]. split; [| reflexivity].
    right. exists d. split; [reflexivity |]. exact (Hcodec e d eq_refl).
Qed.

End Setup.

Module DecoderExamples.
#[local] Existing Instances Sample.masks Sample.styles Sample.cellops
  Sample.utf8 Sample.palette Sample.utf16.

Lemma sample_key_order (i : nat) :
  Sample.key_order i ≡ₚ map_to_list (TScreen.keys Sample.tscreen80).
Proof. reflexivity. Qed.

Lemma sample_keys_nonempty :
  map_Forall (fun (_ : Key) (e : list Z) => e <> [])
    (TScreen.keys Sample.tscreen80).
Proof.
  apply map_Forall_to_list. vm_compute.
  repeat constructor; discriminate.
Qed.

Lemma sample_keys_not_escape :
  map_Forall (fun (_ : Key) (e : list Z) => e <> [] /\ e <> [27])
    (TScreen.keys Sample.tscreen80).
Proof.
  apply map_Forall_to_list. vm_compute.
  repeat constructor; discriminate.
Qed.

Lemma sample_decode_progress : decode_progress (U8 := Sample.utf8).
Proof.
  intros b Hne. destruct b as [| c0 p1]; [contradiction |].
  cbn [utf8_DecodeRune Sample.utf8]. unfold Sample.decode_rune.
  repeat match goal with
         | |- context [if ?c then _ else _] => destruct c
         | |- context [match ?l with [] => _ | _ :: _ => _ end] => destruct l
         end; cbn; lia.
Qed.

Lemma sample_decoder_ready : decoder_ready Sample.tscreen80.
Proof. left. reflexivity. Qed.

Lemma sample_in_range :
  GoInt.in_range (TScreen.w Sample.tscreen80) /\
  GoInt.in_range (TScreen.h Sample.tscreen80).
Proof. vm_compute. repeat split; discriminate. Qed.

Lemma scan_loop_and_lone_escape_witness :
  (forall i,
     Sample.key_order i ≡ₚ map_to_list (TScreen.keys Sample.tscreen80)) /\
  map_Forall (fun (_ : Key) (e : list Z) => e <> [] /\ e <> [27])
    (TScreen.keys Sample.tscreen80) /\
  TScreen.scanInput 2 Sample.key_order [27] true Sample.tscreen80
  = Finished ([], TScreen.PostEvent (NewEventKey KeyRune 27 ModNone)
                    Sample.tscreen80) /\
  TScreen.scanInput 1 Sample.key_order [27] false Sample.tscreen80
  = Finished ([27], Sample.tscreen80).
Proof.
  destruct (scan_loop_and_lone_escape Sample.key_order Sample.tscreen80
              sample_key_order sample_keys_not_escape)
    as (_ & Hexp & Hwait & _).
  split; [exact sample_key_order |].
  split; [exact sample_keys_not_escape |].
  split; [exact (Hexp 0%nat) |].
  apply (Hwait 0%nat). left. vm_compute. discriminate.
Defined.

(** On a terminal without keys and without mouse support, the byte 0x1b
    alone is delivered at once although [expire] is false. *)
Lemma lone_escape_not_held_counterexample :
  TScreen.scanInput 2
    (fun _ => map_to_list (TScreen.keys Sample.dumbscreen)) [27] false
    Sample.dumbscreen
  = Finished ([], TScreen.PostEvent (NewEventKey KeyRune 27 ModNone)
                    Sample.dumbscreen) /\
  TScreen.evch
    (TScreen.PostEvent (NewEventKey KeyRune 27 ModNone) Sample.dumbscreen)
  = Some {| cap := 10; queue := [NewEventKey KeyRune 27 ModNone] |}.
Proof. split; vm_compute; reflexivity. Qed.

Lemma function_key_first_visited_match_wins_witness :
  (KeyF 1, Sample.esc "O")
    ∈ [(KeyUp, Sample.esc "OA"); (KeyF 1, Sample.esc "O")] /\
  HasPrefix (Sample.esc "O") (Sample.esc "O") = true /\
  exists (k : Key) (e : list Z),
    TScreen.parseFunctionKey
      [(KeyUp, Sample.esc "OA"); (KeyF 1, Sample.esc "O")]
      (Sample.esc "O") Sample.tscreen80
    = Returns (true, true, drop (length e) (Sample.esc "O"),
               TScreen.PostEvent
                 (NewEventKey k
                    (if (length e =? 1)%nat
                     then default 0 (head (Sample.esc "O")) else 0)
                    ModNone) Sample.tscreen80).
Proof.
  assert (Hin : (KeyF 1, Sample.esc "O")
                  ∈ [(KeyUp, Sample.esc "OA"); (KeyF 1, Sample.esc "O")])
    by (right; left).
  assert (Hpre : HasPrefix (Sample.esc "O") (Sample.esc "O") = true)
    by reflexivity.
  destruct (function_key_first_visited_match_wins _ _ Sample.tscreen80
              _ _ Hin Hpre) as [(k & e & _ & _ & Hres & _) _].
  split; [exact Hin |]. split; [exact Hpre |]. exists k, e. exact Hres.
Defined.

(** With [ESC O] and [ESC O A] both declared and [ESC O] in the buffer,
    the parser emits the key of [ESC O] in either visiting order, although
    [ESC O A] is still possible; it does not report partial. *)
Lemma short_key_emitted_counterexample :
  HasPrefix (Sample.esc "OA") (Sample.esc "O") = true /\
  TScreen.parseFunctionKey
    [(KeyUp, Sample.esc "OA"); (KeyF 1, Sample.esc "O")]
    (Sample.esc "O") Sample.tscreen80
  = Returns (true, true, [],
             TScreen.PostEvent (NewEventKey (KeyF 1) 0 ModNone)
               Sample.tscreen80) /\
  TScreen.parseFunctionKey
    [(KeyF 1, Sample.esc "O"); (KeyUp, Sample.esc "OA")]
    (Sample.esc "O") Sample.tscreen80
  = Returns (true, true, [],
             TScreen.PostEvent (NewEventKey (KeyF 1) 0 ModNone)
               Sample.tscreen80).
Proof. repeat split. Qed.

Lemma sgr_press_release_keep_one_based_coordinates_witness :
  GoInt.in_range (TScreen.w Sample.tscreen80) /\
  GoInt.in_range (TScreen.h Sample.tscreen80) /\
  10 < TScreen.w Sample.tscreen80 /\ 20 < TScreen.h Sample.tscreen80 /\
  TScreen.parseSgrMouse (27 :: lit "[<0;10;20M") Sample.tscreen80
  = (true, true, [],
     TScreen.PostEvent (NewEventMouse 10 20 Button1 ModNone)
       (TScreen.set_wasbtn true Sample.tscreen80)).
Proof.
  destruct sample_in_range as [Hw Hh].
  assert (Hcols : 10 < TScreen.w Sample.tscreen80) by reflexivity.
  assert (Hrows : 20 < TScreen.h Sample.tscreen80) by reflexivity.
  destruct (sgr_press_release_keep_one_based_coordinates Sample.tscreen80
              Hw Hh Hcols Hrows) as [Hpress _].
  repeat (split; [assumption |]). exact Hpress.
Defined.

Lemma xterm_mouse_report_decoding_witness :
  0 <= 32 < 256 /\ 0 <= 43 < 256 /\ 0 <= 53 < 256 /\
  TScreen.parseXtermMouse ([27; 91; 77; 32; 43; 53] ++ [97]) Sample.tscreen80
  = (true, true, [97],
     TScreen.postMouseEvent (43 - 33) (53 - 33) 32 Sample.tscreen80).
Proof.
  assert (Hb : 0 <= 32 < 256) by lia.
  assert (Hx : 0 <= 43 < 256) by lia.
  assert (Hy : 0 <= 53 < 256) by lia.
  destruct (xterm_mouse_report_decoding 32 43 53 [97] Sample.tscreen80
              Hb Hx Hy) as [Hrec _].
  repeat (split; [assumption |]). exact Hrec.
Defined.

(** For the report [ESC [ M] followed by the bytes 32, 43, 53 the button
    parameter handed to [postMouseEvent] is 32, not 32 - 33; with 32 - 33
    the event posted would be another one. *)
Lemma xterm_button_is_raw_counterexample :
  TScreen.xterm_loop [27; 91; 77; 32; 43; 53] 0 0 0 0
  = TScreen.MouseRecord 5 10 20 32 /\
  32 <> 32 - 33 /\
  TScreen.parseXtermMouse [27; 91; 77; 32; 43; 53] Sample.tscreen80
  <> (true, true, [],
      TScreen.postMouseEvent (43 - 33) (53 - 33) (32 - 33) Sample.tscreen80).
Proof.
  split; [reflexivity |]. split; [discriminate |].
  vm_compute. intros H. discriminate H.
Qed.

Lemma scan_loop_never_faults_witness :
  (forall i,
     Sample.key_order i ≡ₚ map_to_list (TScreen.keys Sample.tscreen80)) /\
  map_Forall (fun (_ : Key) (e : list Z) => e <> [])
    (TScreen.keys Sample.tscreen80) /\
  decoder_ready Sample.tscreen80 /\
  decode_progress /\
  exists buf' t',
    TScreen.scanInput (S (length [27; 91; 65; 255; 0]))
      Sample.key_order [27; 91; 65; 255; 0] false Sample.tscreen80
    = Finished (buf', t').
Proof.
  destruct (scan_loop_never_faults Sample.key_order Sample.tscreen80
              sample_key_order sample_keys_nonempty sample_decoder_ready
              sample_decode_progress) as (_ & _ & _ & _ & Hfin).
  split; [exact sample_key_order |].
  split; [exact sample_keys_nonempty |].
  split; [exact sample_decoder_ready |].
  split; [exact sample_decode_progress |].
  exact (Hfin [27; 91; 65; 255; 0] false).
Defined.

End DecoderExamples.

(** * Further properties of the mouse decoding *)

Section MouseMore.
Context {MK : Masks} {ST : StyleOps} {CO : CellOps} {U8 : Utf8}.

Lemma clip_spec (x wd : Z) :
  GoInt.in_range wd -> 0 < wd ->
  (if (if x <? 0 then 0 else x) >? GoInt.sub wd 1
   then GoInt.sub wd 1 else if x <? 0 then 0 else x)
  = Z.min (Z.max x 0) (wd - 1).
Proof.
  intros Hr Hpos. rewrite (sub_one_in_range wd Hr Hpos).
  destruct (Z.ltb_spec x 0);
    [destruct (Z.gtb_spec 0 (wd - 1)) | destruct (Z.gtb_spec x (wd - 1))];
    lia.
Qed.

(** [postMouseEvent] posts exactly one mouse event, whose coordinates are
    the given ones clipped to the screen. *)
Theorem postMouseEvent_clips (x y btn : Z) (t : TScreen.tScreen) :
  GoInt.in_range (TScreen.w t) -> GoInt.in_range (TScreen.h t) ->
  0 < TScreen.w t -> 0 < TScreen.h t ->
  exists b m t1,
    TScreen.postMouseEvent x y btn t
    = TScreen.PostEvent
        (NewEventMouse (Z.min (Z.max x 0) (TScreen.w t - 1))
           (Z.min (Z.max y 0) (TScreen.h t - 1)) b m) t1 /\
    TScreen.evch t1 = TScreen.evch t /\
    0 <= Z.min (Z.max x 0) (TScreen.w t - 1) < TScreen.w t /\
    0 <= Z.min (Z.max y 0) (TScreen.h t - 1) < TScreen.h t.
Proof.
  intros Hw Hh Hwp Hhp.
  pose proof (clip_spec x (TScreen.w t) Hw Hwp) as Hx.
  pose proof (clip_spec y (TScreen.h t) Hh Hhp) as Hy.
  unfold TScreen.postMouseEvent.
  repeat match goal with
         | |- context [if ?b then (_, _) else _] => destruct b
         end;
    cbv zeta;
    cbn [TScreen.w TScreen.h TScreen.set_wasbtn];
    rewrite Hx, Hy;
    (eexists; eexists; eexists; split; [reflexivity |]);
    (split; [reflexivity | lia]).
Qed.


Lemma release_bits (b : Z) :
  Z.land (Z.ldiff (Z.lor (Z.ldiff b 32) 3) 64) 67 = 3.
Proof.
  apply Z.bits_inj'. intros n Hn.
  rewrite Z.land_spec, Z.ldiff_spec, Z.lor_spec, Z.ldiff_spec.
  assert (Hcase : n = 0 \/ n = 1 \/ n = 2 \/ n = 3 \/ n = 4 \/ n = 5
                  \/ n = 6 \/ 7 <= n) by lia.
  destruct Hcase as [-> | [-> | [-> | [-> | [-> | [-> | [-> | Hbig]]]]]]];
    cbn -[Z.testbit];
    try (change (Z.testbit 67 0) with true);
    try (change (Z.testbit 3 0) with true);
    try (change (Z.testbit 64 0) with false);
    try (change (Z.testbit 67 1) with true);
    try (change (Z.testbit 3 1) with true);
    try (change (Z.testbit 64 1) with false);
    try (change (Z.testbit 67 2) with false);
    try (change (Z.testbit 3 2) with false);
    try (change (Z.testbit 67 3) with false);
    try (change (Z.testbit 3 3) with false);
    try (change (Z.testbit 67 4) with false);
    try (change (Z.testbit 3 4) with false);
    try (change (Z.testbit 67 5) with false);
    try (change (Z.testbit 3 5) with false);
    try (change (Z.testbit 67 6) with true);
    try (change (Z.testbit 3 6) with false);
    try (change (Z.testbit 64 6) with true);
    rewrite ?andb_false_r, ?andb_true_r, ?orb_true_r, ?orb_false_r;
    try reflexivity.
  rewrite (Z.bits_above_log2 67 n) by (cbn; lia).
  rewrite (Z.bits_above_log2 3 n) by (cbn; lia).
  rewrite andb_false_r. reflexivity.
Qed.

(** What the button selector of a report does to the debounce flag. *)
Lemma postMouseEvent_wasbtn (x y btn : Z) (t : TScreen.tScreen) :
  TScreen.wasbtn (TScreen.postMouseEvent x y btn t)
  = if (Z.land btn 67 =? 0) || (Z.land btn 67 =? 1) || (Z.land btn 67 =? 2)
    then true
    else if Z.land btn 67 =? 3 then false
    else TScreen.wasbtn t.
Proof.
  unfold TScreen.postMouseEvent. cbv zeta.
  destruct (Z.land btn 67 =? 0); [unfold TScreen.PostEvent;
    destruct (select_arm _ _ _ _) as [[] |]; reflexivity |].
  destruct (Z.land btn 67 =? 1); [unfold TScreen.PostEvent;
    destruct (select_arm _ _ _ _) as [[] |]; reflexivity |].
  destruct (Z.land btn 67 =? 2); [unfold TScreen.PostEvent;
    destruct (select_arm _ _ _ _) as [[] |]; reflexivity |].
  destruct (Z.land btn 67 =? 3); [unfold TScreen.PostEvent;
    destruct (select_arm _ _ _ _) as [[] |]; reflexivity |].
  destruct (Z.land btn 67 =? 64); [unfold TScreen.PostEvent;
    destruct (select_arm _ _ _ _) as [[] |]; reflexivity |].
  destruct (Z.land btn 67 =? 65); unfold TScreen.PostEvent;
    destruct (select_arm _ _ _ _) as [[] |]; reflexivity.
Qed.

(** The button a wheel-coded report (selector 0x40 or 0x41) is given. *)
Lemma postMouseEvent_wheel (x y btn : Z) (t : TScreen.tScreen) :
  Z.land btn 67 = 64 \/ Z.land btn 67 = 65 ->
  exists x' y' m,
    TScreen.postMouseEvent x y btn t
    = TScreen.PostEvent
        (NewEventMouse x' y'
           (if Z.land btn 67 =? 64
            then if TScreen.wasbtn t then Button1 else WheelUp
            else if TScreen.wasbtn t then Button2 else WheelDown) m) t.
Proof.
  intros Hsel. unfold TScreen.postMouseEvent. cbv zeta.
  destruct Hsel as [-> | ->];
    [change (64 =? 0) with false; change (64 =? 1) with false;
     change (64 =? 2) with false; change (64 =? 3) with false;
     change (64 =? 64) with true
    |change (65 =? 0) with false; change (65 =? 1) with false;
     change (65 =? 2) with false; change (65 =? 3) with false;
     change (65 =? 64) with false; change (65 =? 65) with true];
    cbv iota beta; destruct (TScreen.wasbtn t); cbn [negb];
    eexists; eexists; eexists; reflexivity.
Qed.

(** Debouncing.  After a button press report (selector 0, 1 or 2) a
    wheel-coded report is read as [Button1] or [Button2]; after a release
    report (selector 3) it is read as [WheelUp] or [WheelDown].  The
    verdict does not depend on whether the press or release event itself
    found room in the channel. *)
Theorem wheel_reports_are_debounced
    (x1 y1 b1 x2 y2 b2 : Z) (t : TScreen.tScreen) :
  Z.land b2 67 = 64 \/ Z.land b2 67 = 65 ->
  0 <= Z.land b1 67 <= 3 ->
  exists x' y' m,
    TScreen.postMouseEvent x2 y2 b2 (TScreen.postMouseEvent x1 y1 b1 t)
    = TScreen.PostEvent
        (NewEventMouse x' y'
           (if Z.land b1 67 =? 3
            then if Z.land b2 67 =? 64 then WheelUp else WheelDown
            else if Z.land b2 67 =? 64 then Button1 else Button2) m)
        (TScreen.postMouseEvent x1 y1 b1 t).
Proof.
  intros Hwheel Hsel.
  destruct (postMouseEvent_wheel x2 y2 b2
              (TScreen.postMouseEvent x1 y1 b1 t) Hwheel)
    as (x' & y' & m & Hpost).
  exists x', y', m. rewrite Hpost, postMouseEvent_wasbtn.
  assert (Hcase : Z.land b1 67 = 0 \/ Z.land b1 67 = 1 \/ Z.land b1 67 = 2
                  \/ Z.land b1 67 = 3) by lia.
  destruct Hcase as [-> | [-> | [-> | ->]]];
    destruct (Z.land b2 67 =? 64); reflexivity.
Qed.


Lemma postMouseEvent_release (x y btn : Z) (t : TScreen.tScreen) :
  Z.land btn 67 = 3 ->
  exists x' y' m,
    TScreen.postMouseEvent x y btn t
    = TScreen.PostEvent (NewEventMouse x' y' ButtonNone m)
        (TScreen.set_wasbtn false t).
Proof.
  intros Hsel. unfold TScreen.postMouseEvent. cbv zeta. rewrite Hsel.
  change (3 =? 0) with false; change (3 =? 1) with false;
    change (3 =? 2) with false; change (3 =? 3) with true.
  cbv iota beta. eexists; eexists; eexists; reflexivity.
Qed.

(** *** Decimal fields of an SGR report *)

Lemma digit_range (d : Z) : is_digit d = true <-> 48 <= d <= 57.
Proof. unfold is_digit. rewrite andb_true_iff, Z.leb_le, Z.leb_le. tauto. Qed.

Lemma acc_digits_ge (ds : list Z) (v : Z) :
  Forall (fun d => is_digit d = true) ds -> 0 <= v ->
  v <= foldl (fun v d => v * 10 + (d - 48)) v ds.
Proof.
  intros Hds. revert v. induction Hds as [| d ds Hd Hds IH]; intros v Hv.
  - cbn. lia.
  - cbn [foldl]. apply digit_range in Hd.
    etransitivity; [| apply IH; lia]. lia.
Qed.

Lemma acc_digits_bound (ds : list Z) (v : Z) (k : nat) :
  Forall (fun d => is_digit d = true) ds -> 0 <= v < 10 ^ Z.of_nat k ->
  foldl (fun v d => v * 10 + (d - 48)) v ds
  < 10 ^ Z.of_nat (k + length ds).
Proof.
  intros Hds. revert v k. induction Hds as [| d ds Hd Hds IH]; intros v k Hv.
  - cbn. rewrite Nat.add_0_r. lia.
  - cbn [foldl length]. apply digit_range in Hd.
    replace (k + S (length ds))%nat with (S k + length ds)%nat by lia.
    apply IH. rewrite Nat2Z.inj_succ, Z.pow_succ_r by lia. lia.
Qed.

Lemma dec_value_bound (ds : list Z) :
  Forall (fun d => is_digit d = true) ds -> (length ds <= 18)%nat ->
  0 <= dec_value ds < GoInt.half.
Proof.
  intros Hds Hlen. unfold dec_value. split.
  - apply (acc_digits_ge ds 0 Hds). lia.
  - pose proof (acc_digits_bound ds 0 0 Hds ltac:(cbn; lia)) as Hb.
    cbn [Nat.add] in Hb.
    assert (10 ^ Z.of_nat (length ds) <= 10 ^ 18)
      by (apply Z.pow_le_mono_r; lia).
    assert (10 ^ 18 < GoInt.half) by reflexivity. lia.
Qed.

Lemma sgr_digit_step (d : Z) (b : list Z) (i : nat) (x btn state : Z)
    (dig neg : bool) (val : Z) :
  is_digit d = true -> state = 3 \/ state = 4 \/ state = 5 ->
  0 <= val -> val * 10 + (d - 48) < GoInt.half ->
  TScreen.sgr_loop (d :: b) i (TScreen.mk_sgr x btn state dig neg val)
  = TScreen.sgr_loop b (S i)
      (TScreen.mk_sgr x btn state true neg (val * 10 + (d - 48))).
Proof.
  intros Hd Hst Hv Hbound. pose proof Hd as Hr. apply digit_range in Hr.
  cbn [TScreen.sgr_loop].
  destruct (Z.eqb_spec d 27); [lia |].
  destruct (Z.eqb_spec d 155); [lia |].
  destruct (Z.eqb_spec d 91); [lia |].
  destruct (Z.eqb_spec d 60); [lia |].
  destruct (Z.eqb_spec d 45); [lia |].
  change ((48 <=? d) && (d <=? 57)) with (is_digit d). rewrite Hd.
  assert (Hg : negb (state =? 3) && negb (state =? 4) && negb (state =? 5)
               = false) by (destruct Hst as [-> | [-> | ->]]; reflexivity).
  rewrite Hg.
  assert (Hhalf : GoInt.half = 9223372036854775808) by reflexivity.
  unfold GoInt.add, GoInt.mul, byte_sub.
  rewrite (Z.mod_small (d - 48) 256) by lia.
  rewrite (wrap_in_range (val * 10)) by (unfold GoInt.in_range; lia).
  rewrite wrap_in_range by (unfold GoInt.in_range; lia).
  reflexivity.
Qed.

Lemma sgr_digits (ds rest : list Z) (x btn state : Z) (neg : bool) :
  state = 3 \/ state = 4 \/ state = 5 ->
  Forall (fun d => is_digit d = true) ds ->
  forall (i : nat) (dig : bool) (val : Z),
    0 <= val ->
    foldl (fun v d => v * 10 + (d - 48)) val ds < GoInt.half ->
    exists dig',
      TScreen.sgr_loop (ds ++ rest) i (TScreen.mk_sgr x btn state dig neg val)
      = TScreen.sgr_loop rest (length ds + i)
          (TScreen.mk_sgr x btn state dig' neg
             (foldl (fun v d => v * 10 + (d - 48)) val ds)).
Proof.
  intros Hst Hds. induction Hds as [| d ds Hd Hds IH]; intros i dig val Hv Hb.
  - exists dig. reflexivity.
  - cbn [foldl app length] in *.
    pose proof Hd as Hr. apply digit_range in Hr.
    pose proof (acc_digits_ge ds (val * 10 + (d - 48)) Hds ltac:(lia)) as Hge.
    rewrite sgr_digit_step by (try assumption; lia).
    destruct (IH (S i) true (val * 10 + (d - 48)) ltac:(lia) Hb)
      as [dig' Heq].
    exists dig'. rewrite Heq. f_equal. lia.
Qed.

Lemma sgr_intro (intro : list Z) (b : list Z) :
  intro = [27; 91] \/ intro = [155] ->
  TScreen.sgr_loop (intro ++ 60 :: b) 0 TScreen.sgr_init
  = TScreen.sgr_loop b (S (length intro))
      (TScreen.mk_sgr 0 0 3 false false 0).
Proof. intros [-> | ->]; reflexivity. Qed.

Lemma parseSgrMouse_report
    (intro db dx dy : list Z) (c : Z) (rest : list Z) (t : TScreen.tScreen) :
  intro = [27; 91] \/ intro = [155] ->
  Forall (fun d => is_digit d = true) db -> (length db <= 18)%nat ->
  Forall (fun d => is_digit d = true) dx -> (length dx <= 18)%nat ->
  Forall (fun d => is_digit d = true) dy -> (length dy <= 18)%nat ->
  c = 77 \/ c = 109 ->
  TScreen.parseSgrMouse
    (intro ++ 60 :: db ++ 59 :: dx ++ 59 :: dy ++ c :: rest) t
  = (true, true, rest,
     TScreen.postMouseEvent (dec_value dx) (dec_value dy)
       (if c =? 109
        then Z.ldiff (Z.lor (Z.ldiff (dec_value db) 32) 3) 64
        else Z.ldiff (dec_value db) 32) t).
Proof.
  intros Hintro Hdb Hlb Hdx Hlx Hdy Hly Hc.
  pose proof (dec_value_bound db Hdb Hlb) as Hvb.
  pose proof (dec_value_bound dx Hdx Hlx) as Hvx.
  pose proof (dec_value_bound dy Hdy Hly) as Hvy.
  unfold dec_value in Hvb, Hvx, Hvy.
  assert (Hloop :
    TScreen.sgr_loop
      (intro ++ 60 :: db ++ 59 :: dx ++ 59 :: dy ++ c :: rest) 0
      TScreen.sgr_init
    = TScreen.MouseRecord
        (length dy + S (length dx + S (length db + S (length intro))))
        (dec_value dx) (dec_value dy)
        (if c =? 109
         then Z.ldiff (Z.lor (Z.ldiff (dec_value db) 32) 3) 64
         else Z.ldiff (dec_value db) 32)).
  { rewrite (sgr_intro intro _ Hintro).
    destruct (sgr_digits db (59 :: dx ++ 59 :: dy ++ c :: rest) 0 0 3 false
                ltac:(tauto) Hdb (S (length intro)) false 0 ltac:(lia)
                ltac:(lia)) as [dig1 ->].
    change (TScreen.sgr_loop (59 :: ?b) ?i (TScreen.mk_sgr 0 0 3 dig1 false ?v))
      with (TScreen.sgr_loop b (S i) (TScreen.mk_sgr 0 v 4 false false 0)).
    destruct (sgr_digits dx (59 :: dy ++ c :: rest) 0
                (foldl (fun v d => v * 10 + (d - 48)) 0 db) 4 false
                ltac:(tauto) Hdx (S (length db + S (length intro))) false 0
                ltac:(lia) ltac:(lia)) as [dig2 ->].
    change (TScreen.sgr_loop (59 :: ?b) ?i (TScreen.mk_sgr 0 ?bt 4 dig2 false ?v))
      with (TScreen.sgr_loop b (S i) (TScreen.mk_sgr v bt 5 false false 0)).
    destruct (sgr_digits dy (c :: rest)
                (foldl (fun v d => v * 10 + (d - 48)) 0 dx)
                (foldl (fun v d => v * 10 + (d - 48)) 0 db) 5 false
                ltac:(tauto) Hdy
                (S (length dx + S (length db + S (length intro)))) false 0
                ltac:(lia) ltac:(lia)) as [dig3 ->].
    destruct Hc as [-> | ->]; reflexivity. }
  unfold TScreen.parseSgrMouse. rewrite Hloop. cbn [TScreen.finish_mouse].
  f_equal. f_equal.
  replace (intro ++ 60 :: db ++ 59 :: dx ++ 59 :: dy ++ c :: rest)
    with ((intro ++ 60 :: db ++ 59 :: dx ++ 59 :: dy ++ [c]) ++ rest)
    by (rewrite <- !app_assoc; cbn; repeat (rewrite <- !app_assoc; cbn);
        reflexivity).
  apply drop_app_length'.
  repeat (rewrite length_app || rewrite length_cons). cbn [length]. lia.
Qed.

(** An SGR report [ESC [ < btn ; x ; y M] (or [m]; also with the
    one-byte introducer 0x9b), its three fields written with at most 18
    decimal digits each, is consumed whole, leaving what follows it in the
    buffer, and is handed to [postMouseEvent] with the values of the x and
    y fields as they are written and the button field without its motion
    bit 32; for the final [m] the button field also gets its bits 0 and 1
    set and its bit 64 cleared. *)
Theorem sgr_report_decoding
    (intro db dx dy : list Z) (c : Z) (rest : list Z) (t : TScreen.tScreen) :
  intro = [27; 91] \/ intro = [155] ->
  Forall (fun d => is_digit d = true) db -> (length db <= 18)%nat ->
  Forall (fun d => is_digit d = true) dx -> (length dx <= 18)%nat ->
  Forall (fun d => is_digit d = true) dy -> (length dy <= 18)%nat ->
  c = 77 \/ c = 109 ->
  TScreen.parseSgrMouse
    (intro ++ 60 :: db ++ 59 :: dx ++ 59 :: dy ++ c :: rest) t
  = (true, true, rest,
     TScreen.postMouseEvent (dec_value dx) (dec_value dy)
       (if c =? 109
        then Z.ldiff (Z.lor (Z.ldiff (dec_value db) 32) 3) 64
        else Z.ldiff (dec_value db) 32) t).
Proof. apply parseSgrMouse_report. Qed.

(** A release report, whatever its button field says, is posted as
    [ButtonNone] and clears the debounce flag. *)
Theorem sgr_release_is_button_none
    (intro db dx dy rest : list Z) (t : TScreen.tScreen) :
  intro = [27; 91] \/ intro = [155] ->
  Forall (fun d => is_digit d = true) db -> (length db <= 18)%nat ->
  Forall (fun d => is_digit d = true) dx -> (length dx <= 18)%nat ->
  Forall (fun d => is_digit d = true) dy -> (length dy <= 18)%nat ->
  exists x' y' m,
    TScreen.parseSgrMouse
      (intro ++ 60 :: db ++ 59 :: dx ++ 59 :: dy ++ 109 :: rest) t
    = (true, true, rest,
       TScreen.PostEvent (NewEventMouse x' y' ButtonNone m)
         (TScreen.set_wasbtn false t)).
Proof.
  intros Hintro Hdb Hlb Hdx Hlx Hdy Hly.
  rewrite (parseSgrMouse_report intro db dx dy 109 rest t)
    by (try assumption; tauto).
  change (109 =? 109) with true. cbv iota.
  destruct (postMouseEvent_release (dec_value dx) (dec_value dy)
              (Z.ldiff (Z.lor (Z.ldiff (dec_value db) 32) 3) 64) t
              (release_bits (dec_value db))) as (x' & y' & m & ->).
  exists x', y', m. reflexivity.
Qed.

End MouseMore.

(** * Further properties of the scan loop *)

Section ScanMore.
Context {MK : Masks} {ST : StyleOps} {CO : CellOps} {U8 : Utf8}.

Lemma parseRune_printable (b0 : Z) (rest : list Z) (t : TScreen.tScreen) :
  printable b0 = true ->
  TScreen.parseRune (b0 :: rest) t
  = Returns (true, true, rest,
             TScreen.PostEvent (NewEventKey KeyRune b0 ModNone) t).
Proof.
  intros Hp. unfold TScreen.parseRune.
  change ((32 <=? b0) && (b0 <=? 127)) with (printable b0). rewrite Hp.
  reflexivity.
Qed.

(** Printable ASCII (and DEL) is delivered byte by byte: on a buffer of
    such bytes the scan loop posts one [Key=Rune] event per byte, in
    order, whatever the key table, the mouse support and [expire], and
    empties the buffer.  A key whose escape consists of such bytes (a
    backspace key sending 0x7f, say) is therefore never reported. *)
Theorem printable_text_is_delivered_bytewise
    (buf : list Z) (fuel : nat) (ord : nat -> list (Key * list Z))
    (expire : bool) (t : TScreen.tScreen) :
  Forall (fun b => printable b = true) buf -> (length buf < fuel)%nat ->
  TScreen.scanInput fuel ord buf expire t
  = Finished ([], post_all
                    (map (fun b => NewEventKey KeyRune b ModNone) buf) t).
Proof.
  intros Hbuf. revert fuel ord t.
  induction Hbuf as [| b0 rest Hb Hrest IH]; intros fuel ord t Hlen.
  - destruct fuel; [cbn in Hlen; lia | reflexivity].
  - destruct fuel as [| fuel]; [cbn in Hlen; lia |].
    cbn [TScreen.scanInput length Nat.eqb].
    rewrite (parseRune_printable b0 rest t Hb).
    cbv iota beta. rewrite IH by (cbn in Hlen; lia). reflexivity.
Qed.

(** *** What the scan loop leaves alone *)

Lemma decoder_frame_refl (t : TScreen.tScreen) : decoder_frame t t.
Proof. destruct t. reflexivity. Qed.

Lemma decoder_frame_trans (t1 t2 t3 : TScreen.tScreen) :
  decoder_frame t1 t2 -> decoder_frame t2 t3 -> decoder_frame t1 t3.
Proof.
  unfold decoder_frame. intros H12 H23. rewrite H23. rewrite H12.
  reflexivity.
Qed.

Lemma decoder_frame_PostEvent (ev : Event) (t : TScreen.tScreen) :
  decoder_frame t (TScreen.PostEvent ev t).
Proof.
  unfold TScreen.PostEvent.
  destruct (select_arm _ _ _ _) as [[] |]; destruct t; reflexivity.
Qed.

Lemma decoder_frame_postMouseEvent (x y btn : Z) (t : TScreen.tScreen) :
  decoder_frame t (TScreen.postMouseEvent x y btn t).
Proof.
  unfold TScreen.postMouseEvent.
  repeat match goal with
         | |- context [if ?b then (_, _) else _] => destruct b
         end;
    (eapply decoder_frame_trans; [| apply decoder_frame_PostEvent]);
    destruct t; reflexivity.
Qed.

Lemma kept_parseRune (buf : list Z) (t : TScreen.tScreen) :
  kept buf t (TScreen.parseRune buf t).
Proof.
  unfold TScreen.parseRune. destruct buf as [| b0 rest]; [exact I |].
  destruct ((32 <=? b0) && (b0 <=? 127)).
  { split; [apply decoder_frame_PostEvent | exists 1%nat; reflexivity]. }
  destruct (b0 <? 128).
  { split; [apply decoder_frame_refl | exists 0%nat; reflexivity]. }
  destruct (TScreen.is_utf8 (TScreen.charset t)).
  { destruct (utf8_FullRune (b0 :: rest)).
    - destruct (TScreen.ReadRune (b0 :: rest)) as [[r n] |].
      + split; [apply decoder_frame_PostEvent | exists n; reflexivity].
      + split; [apply decoder_frame_refl | exists 0%nat; reflexivity].
    - split; [apply decoder_frame_refl | exists 0%nat; reflexivity]. }
  destruct (TScreen.is_ascii (TScreen.charset t)).
  { split; [apply decoder_frame_PostEvent | exists 1%nat; reflexivity]. }
  destruct (TScreen.decoder t) as [dec |]; [| exact I].
  generalize 1%nat at 1 as l. generalize (length (b0 :: rest)) as k.
  intros k. induction k as [| k IH]; intros l; cbn [TScreen.decode_loop].
  - split; [apply decoder_frame_refl | exists 0%nat; reflexivity].
  - destruct (Transform dec (take l (b0 :: rest))) as [[o nin] err].
    destruct (negb (length o =? 0)%nat); [| apply IH].
    split; [| exists nin; reflexivity].
    destruct (negb _);
      [apply decoder_frame_PostEvent | apply decoder_frame_refl].
Qed.

Lemma kept_parseFunctionKey (ord : list (Key * list Z)) (buf : list Z)
    (t : TScreen.tScreen) :
  kept buf t (TScreen.parseFunctionKey ord buf t).
Proof.
  unfold TScreen.parseFunctionKey.
  destruct (TScreen.fkey_loop ord buf false) as [[k e] | p].
  - destruct (length e =? 1)%nat; [destruct buf; [exact I |] |];
      (split; [apply decoder_frame_PostEvent | eexists; reflexivity]).
  - split; [apply decoder_frame_refl | exists 0%nat; reflexivity].
Qed.

Lemma kept_finish_mouse (r : TScreen.mouse_scan) (buf : list Z)
    (t : TScreen.tScreen) :
  kept buf t (Returns (TScreen.finish_mouse r buf t)).
Proof.
  destruct r; cbn [TScreen.finish_mouse kept].
  - split; [apply decoder_frame_refl | exists 0%nat; reflexivity].
  - split; [apply decoder_frame_refl | exists 0%nat; reflexivity].
  - split; [apply decoder_frame_postMouseEvent | eexists; reflexivity].
Qed.

Lemma kept_sub_parsers (ord : list (Key * list Z)) (buf : list Z)
    (t : TScreen.tScreen) :
  Forall (kept buf t) (map (fun p => p buf t) (sub_parsers ord t)).
Proof.
  unfold sub_parsers. cbn [app map].
  constructor; [apply kept_parseRune |].
  constructor; [apply kept_parseFunctionKey |].
  destruct (negb _); cbn [map]; [| constructor].
  constructor; [apply kept_finish_mouse |].
  constructor; [apply kept_finish_mouse | constructor].
Qed.

Lemma judge_restart_kept (buf : list Z) (t : TScreen.tScreen)
    (rs : list (outcome TScreen.parsed)) (any_partial expire : bool)
    (buf' : list Z) (t' : TScreen.tScreen) :
  Forall (kept buf t) rs ->
  judge rs any_partial expire = Restart buf' t' ->
  decoder_frame t t' /\ exists n, buf' = drop n buf.
Proof.
  intros Hrs. revert any_partial.
  induction Hrs as [| r rs Hr Hrs IH]; intros any_partial; cbn [judge].
  - destruct (any_partial && negb expire); discriminate.
  - destruct r as [[[[part comp] b1] t1] |]; [| discriminate].
    destruct comp; [intros [= <- <-]; exact Hr | apply IH].
Qed.

(** The decoder touches nothing but the event channel and the debounce
    flag, and it consumes the buffer from the front: when the scan loop
    returns, the screen is the old one up to [evch] and [wasbtn] (so the
    grid, the size, the styles, the cursor and the output are as they
    were), and the buffer left is the old one without some of its leading
    bytes. *)
Theorem scan_loop_frame
    (fuel : nat) (ord : nat -> list (Key * list Z)) (buf : list Z)
    (expire : bool) (t : TScreen.tScreen)
    (buf' : list Z) (t' : TScreen.tScreen) :
  TScreen.scanInput fuel ord buf expire t = Finished (buf', t') ->
  decoder_frame t t' /\ exists n, buf' = drop n buf.
Proof.
  rewrite scanInput_refines_spec_scan.
  revert ord buf t. induction fuel as [| fuel IH]; intros ord buf t;
    [discriminate |].
  destruct buf as [| b0 rest]; cbn [spec_scan].
  - intros [= <- <-].
    split; [apply decoder_frame_refl | exists 0%nat; reflexivity].
  - pose proof (kept_sub_parsers (ord 0%nat) (b0 :: rest) t) as Hkept.
    destruct (judge _ false expire) as [b1 t1 | | |] eqn:Hj.
    + destruct (judge_restart_kept _ _ _ _ _ _ _ Hkept Hj) as [Hf [n ->]].
      intros Hscan. destruct (IH _ _ _ Hscan) as [Hf' [n' ->]].
      split; [exact (decoder_frame_trans _ _ _ Hf Hf') |].
      exists (n + n')%nat. apply drop_drop.
    + intros [= <- <-].
      split; [apply decoder_frame_refl | exists 0%nat; reflexivity].
    + intros Hscan. destruct (IH _ _ _ Hscan) as [Hf' [n' ->]].
      split.
      * exact (decoder_frame_trans _ _ _ (decoder_frame_PostEvent _ t) Hf').
      * exists (S n'). reflexivity.
    + discriminate.
Qed.

(** *** Flushing on a read timeout *)

Lemma judge_expired (rs : list (outcome TScreen.parsed))
    (any_partial : bool) :
  judge rs any_partial true <> Wait.
Proof.
  revert any_partial. induction rs as [| r rs IH]; intros any_partial;
    cbn [judge].
  - rewrite andb_false_r. discriminate.
  - destruct r as [[[[part comp] b1] t1] |]; [| discriminate].
    destruct comp; [discriminate | apply IH].
Qed.

Lemma spec_scan_drains (n : nat) :
  decode_progress ->
  forall (ord : nat -> list (Key * list Z)) (buf : list Z)
         (t : TScreen.tScreen),
    (forall i k e, (k, e) ∈ ord i -> e <> []) ->
    decoder_ready t -> (length buf < n)%nat ->
    exists t', spec_scan n ord buf true t = Finished ([], t').
Proof.
  intros Hutf. induction n as [| n IH]; intros ord buf t Hord Hready Hlen;
    [lia |].
  destruct buf as [| b0 rest]; [cbn; eauto |].
  cbn [spec_scan].
  pose proof (judge_progresses (b0 :: rest) t _ false true
                (sub_parsers_progress (ord 0%nat) (b0 :: rest) t Hutf Hready
                   (Hord 0%nat) ltac:(discriminate))) as Hj.
  pose proof (judge_expired
                (map (fun p => p (b0 :: rest) t) (sub_parsers (ord 0%nat) t))
                false) as Hnw.
  destruct (judge _ false true) as [buf' t' | | |].
  - destruct Hj as [Hshort Hcfg]. apply IH.
    + intros i. apply Hord.
    + exact (decoder_ready_config t t' Hcfg Hready).
    + cbn in Hshort, Hlen. lia.
  - contradiction.
  - apply IH.
    + intros i. apply Hord.
    + exact (decoder_ready_config _ _ (same_config_PostEvent _ t) Hready).
    + cbn in Hlen. lia.
  - contradiction.
Qed.

(** When the read times out ([io.EOF]), the turn of the input loop leaves
    no byte behind: whatever is pending in the buffer is decoded or
    delivered as raw bytes, and the buffer is empty afterwards. *)
Theorem read_timeout_flushes_the_buffer
    (ord : nat -> list (Key * list Z)) (buf : list Z) (t : TScreen.tScreen) :
  (forall i, ord i ≡ₚ map_to_list (TScreen.keys t)) ->
  map_Forall (fun _ e => e <> []) (TScreen.keys t) ->
  decoder_ready t ->
  decode_progress ->
  exists t',
    TScreen.inputTurn (S (length buf)) ord TScreen.ReadEOF buf t
    = Finished ([], t').
Proof.
  intros Hord Hkeys Hready Hutf. unfold TScreen.inputTurn.
  destruct buf as [| b0 rest]; [cbn; eauto |].
  cbn [length Nat.ltb Nat.leb].
  rewrite scanInput_refines_spec_scan.
  apply spec_scan_drains; [assumption | | assumption | cbn; lia].
  intros i k e Hin. rewrite (Hord i) in Hin.
  apply elem_of_map_to_list in Hin. exact (Hkeys k e Hin).
Qed.

End ScanMore.

(** * Keys and control bytes through the scan loop *)

Section KeysMore.
Context {MK : Masks} {ST : StyleOps} {CO : CellOps} {U8 : Utf8}.

Lemma parseRune_control (b0 : Z) (rest : list Z) (t : TScreen.tScreen) :
  0 <= b0 < 32 ->
  TScreen.parseRune (b0 :: rest) t = Returns (false, false, b0 :: rest, t).
Proof.
  intros Hb. unfold TScreen.parseRune.
  destruct (Z.leb_spec 32 b0); [lia |]. cbn [andb].
  destruct (Z.ltb_spec b0 128); [reflexivity | lia].
Qed.

(** Round trip of a declared key.  If a key's escape starts with a
    control byte and no other declared escape is a prefix of it, then
    feeding exactly that escape makes the scan loop post exactly the event
    of that key and empty the buffer, whatever [expire] is; the rune of
    the event is the byte itself for a one-byte escape and 0 otherwise. *)
Theorem declared_key_round_trip
    (ord : nat -> list (Key * list Z)) (t : TScreen.tScreen)
    (k : Key) (b0 : Z) (e : list Z) (expire : bool) (fuel : nat) :
  (forall i, ord i ≡ₚ map_to_list (TScreen.keys t)) ->
  TScreen.keys t !! k = Some (b0 :: e) -> 0 <= b0 < 32 ->
  (forall k' e', TScreen.keys t !! k' = Some e' ->
                 HasPrefix (b0 :: e) e' = true -> k' = k) ->
  TScreen.scanInput (S (S fuel)) ord (b0 :: e) expire t
  = Finished ([], TScreen.PostEvent
                    (NewEventKey k (if (length e =? 0)%nat then b0 else 0)
                       ModNone) t).
Proof.
  intros Hord Hk Hb Huniq.
  assert (Hin : (k, b0 :: e) ∈ ord 0%nat)
    by (apply (visited_is_declared t ord Hord); exact Hk).
  assert (Hself : HasPrefix (b0 :: e) (b0 :: e) = true).
  { generalize (b0 :: e) as l. intros l.
    induction l as [| c l IH]; [reflexivity |].
    cbn [HasPrefix]. rewrite Z.eqb_refl, IH. reflexivity. }
  destruct (fkey_loop_match (ord 0%nat) (b0 :: e) false k (b0 :: e) Hin Hself)
    as (k2 & e2 & Hloop).
  destruct (fkey_loop_inl _ _ _ _ _ Hloop) as [Hin2 Hpre2].
  apply (visited_is_declared t ord Hord) in Hin2.
  pose proof (Huniq k2 e2 Hin2 Hpre2) as ->.
  assert (e2 = b0 :: e) as -> by congruence.
  rewrite scanInput_refines_spec_scan. cbn [spec_scan].
  unfold sub_parsers. cbn [app map judge].
  rewrite (parseRune_control b0 e t Hb). cbn [judge].
  unfold TScreen.parseFunctionKey. rewrite Hloop, drop_all.
  destruct e as [| c e']; reflexivity.
Qed.

Lemma HasPrefix_single (c : Z) (e : list Z) :
  HasPrefix [c] e = true <-> e = [] \/ e = [c].
Proof.
  destruct e as [| c0 [| c1 e']]; cbn -[Z.eqb].
  - tauto.
  - rewrite andb_true_r. destruct (Z.eqb_spec c c0) as [<- | Hne].
    + tauto.
    + split; [discriminate |].
      intros [H | H]; [discriminate H | congruence].
  - rewrite andb_false_r. split; [discriminate |].
    intros [H | H]; discriminate H.
Qed.

Lemma sgr_loop_control (c : Z) :
  0 <= c < 32 -> c <> 27 ->
  TScreen.sgr_loop [c] 0 TScreen.sgr_init = TScreen.MousePartial.
Proof.
  intros Hc Hne. cbn [TScreen.sgr_loop TScreen.sgr_init].
  destruct (Z.eqb_spec c 27); [lia |].
  destruct (Z.eqb_spec c 155); [lia |].
  destruct (Z.eqb_spec c 91); [lia |].
  destruct (Z.eqb_spec c 60); [lia |].
  destruct (Z.eqb_spec c 45); [lia |].
  destruct (Z.leb_spec 48 c); [lia |]. cbn [andb].
  destruct (Z.eqb_spec c 59); [lia |].
  destruct (Z.eqb_spec c 109); [lia |].
  destruct (Z.eqb_spec c 77); [lia |]. reflexivity.
Qed.

Lemma xterm_loop_control (c : Z) :
  0 <= c < 32 -> c <> 27 ->
  TScreen.xterm_loop [c] 0 0 0 0 = TScreen.MouseFail.
Proof.
  intros Hc Hne. cbn [TScreen.xterm_loop].
  change (0 =? 0) with true. cbv iota.
  destruct (Z.eqb_spec c 27); [lia |].
  destruct (Z.eqb_spec c 155); [lia |]. reflexivity.
Qed.

(** On a terminal that declares mouse support, a lone control byte other
    than ESC that is no key (Ctrl-A, say) is not delivered when it
    arrives: the SGR mouse parser, which skips every byte outside its
    alphabet, reports partial, so the scan loop keeps the byte and posts
    nothing.  It is delivered as [Key=Rune] only when the read times out. *)
Theorem lone_control_byte_waits_for_timeout
    (ord : nat -> list (Key * list Z)) (t : TScreen.tScreen) (c : Z)
    (fuel : nat) :
  (forall i, ord i ≡ₚ map_to_list (TScreen.keys t)) ->
  map_Forall (fun _ e => e <> [] /\ e <> [c]) (TScreen.keys t) ->
  Terminfo.Mouse (TScreen.ti t) <> [] ->
  0 <= c < 32 -> c <> 27 ->
  TScreen.scanInput (S fuel) ord [c] false t = Finished ([c], t) /\
  TScreen.scanInput (S (S fuel)) ord [c] true t
  = Finished ([], TScreen.PostEvent (NewEventKey KeyRune c ModNone) t).
Proof.
  intros Hord Hkeys Hmouse Hc Hne.
  assert (Hno : forall k e, (k, e) ∈ ord 0%nat -> HasPrefix [c] e = false).
  { intros k e Hin. apply (visited_is_declared t ord Hord) in Hin.
    destruct (Hkeys k e Hin) as [He1 He2].
    destruct (HasPrefix [c] e) eqn:Hpre; [| reflexivity].
    apply HasPrefix_single in Hpre. tauto. }
  assert (Hjudge : forall expire,
    judge (map (fun p => p [c] t) (sub_parsers (ord 0%nat) t)) false expire
    = if negb expire then Wait else RawByte).
  { intros expire. unfold sub_parsers. cbn [app map judge].
    rewrite (parseRune_control c [] t Hc). cbn [judge orb].
    unfold TScreen.parseFunctionKey.
    rewrite (fkey_loop_inr (ord 0%nat) [c] false Hno). cbn [judge orb].
    unfold bytes_eqb. rewrite bool_decide_eq_false_2 by exact Hmouse.
    cbn [negb map judge].
    unfold TScreen.parseXtermMouse, TScreen.parseSgrMouse.
    rewrite (xterm_loop_control c Hc Hne), (sgr_loop_control c Hc Hne).
    cbn [TScreen.finish_mouse judge]. rewrite orb_true_r. reflexivity. }
  split; rewrite scanInput_refines_spec_scan; cbn [spec_scan];
    rewrite Hjudge; reflexivity.
Qed.

End KeysMore.

(** * The event channel *)

Section ChannelMore.
Context {MK : Masks} {ST : StyleOps} {CO : CellOps} {U8 : Utf8}.

Lemma take_app_one_full {A : Type} (n : nat) (l : list A) (x : A) :
  (n <= length l)%nat -> take n (l ++ [x]) = take n l.
Proof. intros Hn. rewrite take_app_le by exact Hn. reflexivity. Qed.

(** A burst of events fills the channel up to its capacity and no
    further: after posting a sequence of events the queue holds what it
    held before followed by the first of the new events that fit, in
    order; the later ones are dropped.  Nothing else of the screen
    changes. *)
Theorem posted_events_fill_the_channel
    (evs : list Event) (t : TScreen.tScreen) (c : chan) :
  TScreen.evch t = Some c -> (length (queue c) <= cap c)%nat ->
  post_all evs t
  = TScreen.set_evch
      (Some {| cap := cap c; queue := take (cap c) (queue c ++ evs) |}) t.
Proof.
  revert t c. induction evs as [| ev evs IH]; intros t c Hc Hlen.
  - cbn [post_all foldl]. rewrite app_nil_r, take_ge by exact Hlen.
    destruct t, c. cbn in Hc. subst. reflexivity.
  - unfold post_all. cbn [foldl]. fold (post_all evs (TScreen.PostEvent ev t)).
    unfold TScreen.PostEvent at 1. rewrite Hc. cbn [send_ready].
    destruct (Nat.ltb_spec (length (queue c)) (cap c)) as [Hroom | Hfull];
      cbn [select_arm enqueue].
    + rewrite (IH _ {| cap := cap c; queue := queue c ++ [ev] |});
        [| reflexivity | cbn; rewrite length_app; cbn; lia].
      cbn [cap queue]. rewrite <- app_assoc. destruct t; reflexivity.
    + rewrite (IH t c Hc Hlen).
      rewrite !take_app_le by lia. reflexivity.
Qed.

(** Post and poll.  With [quit] not closed and the event channel empty,
    a poll blocks; an event posted to the channel (of non-zero capacity)
    is what the next poll returns, and the screen is then as it was before
    the post. *)
Theorem post_then_poll
    (pick : bool) (ev : Event) (t : TScreen.tScreen) (c : chan) :
  TScreen.evch t = Some c -> queue c = [] -> (0 < cap c)%nat ->
  TScreen.quit t <> SigClosed ->
  TScreen.PollEvent pick t = Blocks /\
  TScreen.PollEvent pick (TScreen.PostEvent ev t) = Proceeds (Some ev, t).
Proof.
  intros Hc Hq. destruct c as [cp q]. cbn [queue] in Hq. subst q.
  destruct t as [ti0 fini0 w0 h0 out0 cur0 st0 evch0 quit0 keys0 cx0 cy0
                 mouse0 cells0 clear0 cursorx0 cursory0 baud0 wasbtn0 acs0
                 charset0 enc0 dec0].
  cbn [TScreen.evch TScreen.quit cap] in *. subst evch0.
  intros Hcap Hquit. split.
  - unfold TScreen.PollEvent.
    cbn [TScreen.evch TScreen.quit TScreen.recv_event_ready queue length
         Nat.eqb negb].
    destruct quit0; try contradiction; reflexivity.
  - unfold TScreen.PostEvent, TScreen.PollEvent.
    cbn [TScreen.evch send_ready queue cap length].
    destruct (Nat.ltb_spec 0 cp) as [_ | Hbad]; [| lia].
    cbn [select_arm enqueue app TScreen.set_evch TScreen.quit TScreen.evch
         TScreen.recv_event_ready queue cap length Nat.eqb negb].
    destruct quit0; try contradiction; reflexivity.
Qed.

(** [Fini] closes [quit] and does not check that it is still open: once
    [Fini] has returned on a screen that [Init] had started, a second
    [Fini] panics, on either backend; on the console screen so does a
    [Fini] without a preceding [Init]. *)
Theorem second_fini_panics
    {PA : Palette} {U16 : Utf16}
    (t t' : TScreen.tScreen) (s s' : CScreen.cScreen) :
  TScreen.quit t = SigOpen ->
  TScreen.Fini t = Returns t' ->
  CScreen.Fini s = Returns s' ->
  TScreen.Fini t' = Panics /\ CScreen.Fini s' = Panics /\
  CScreen.quit s = SigOpen.
Proof.
  intros Hopen Ht Hs.
  assert (Hqt : TScreen.quit t' = SigClosed).
  { revert Ht. unfold TScreen.Fini.
    cbn [TScreen.quit TScreen.TPuts TScreen.set_out TScreen.set_fini
         TScreen.set_h TScreen.set_w].
    rewrite Hopen. cbn [close_sig obind]. intros [= <-]. reflexivity. }
  assert (Hqs : CScreen.quit s = SigOpen /\ CScreen.quit s' = SigClosed).
  { revert Hs. unfold CScreen.Fini.
    change (CScreen.quit (CScreen.call _ _)) with (CScreen.quit s).
    destruct (CScreen.quit s); cbn [close_sig obind]; try discriminate.
    intros [= <-]. split; reflexivity. }
  split; [| split; [| apply Hqs]].
  - unfold TScreen.Fini.
    cbn [TScreen.quit TScreen.TPuts TScreen.set_out TScreen.set_fini
         TScreen.set_h TScreen.set_w].
    rewrite Hqt. reflexivity.
  - unfold CScreen.Fini.
    change (CScreen.quit (CScreen.call _ _)) with (CScreen.quit s').
    destruct Hqs as [_ ->]. reflexivity.
Qed.

End ChannelMore.

(** * Cells and drawing *)

Section GridMore.
Context {MK : Masks} {ST : StyleOps} {CO : CellOps} {U8 : Utf8}
  {PA : Palette} {U16 : Utf16}.

Lemma row_major_injective (w x y x' y' : Z) :
  0 <= x < w -> 0 <= x' < w -> y * w + x = y' * w + x' ->
  x = x' /\ y = y'.
Proof. intros Hx Hx' Heq. assert (y = y') by nia. subst. lia. Qed.

Lemma index_cell_lookup (cs : list Cell) (i : Z) (c : Cell) :
  0 <= i -> cs !! Z.to_nat i = Some c -> index_cell cs i = Returns c.
Proof.
  intros Hi Hc. unfold index_cell.
  destruct (Z.ltb_spec i 0); [lia |]. rewrite Hc. reflexivity.
Qed.

Lemma grid_lookup (x y w h : Z) (cs : list Cell) :
  grid_ok w h cs -> 0 <= x < w -> 0 <= y < h ->
  exists c, cs !! Z.to_nat (y * w + x) = Some c.
Proof.
  intros Hg Hx Hy.
  destruct (cell_index_in_grid x y w h cs Hg Hx Hy) as [_ Hidx].
  destruct Hg as (_ & _ & _ & Hlen).
  apply lookup_lt_is_Some_2. lia.
Qed.

(** Write and read back.  On a live screen with a well-formed grid,
    [SetCell] at an in-range position returns without a panic and
    replaces the cell at row-major index [y * w + x] by what
    [Cell.SetCell] makes of it; a [GetCell] at the same position then
    returns that cell, and a [GetCell] at any other position returns what
    it returned before the write. *)
Theorem set_cell_then_get_cell
    (x y : Z) (style : Style) (ch : RuneSlice) (hp : RuneHeap)
    (t : TScreen.tScreen) :
  TScreen.fini t = false ->
  grid_ok (TScreen.w t) (TScreen.h t) (TScreen.cells t) ->
  0 <= x < TScreen.w t -> 0 <= y < TScreen.h t ->
  exists (c c' : Cell) (hp' : RuneHeap) (t' : TScreen.tScreen),
    TScreen.cells t !! Z.to_nat (y * TScreen.w t + x) = Some c /\
    Cell_SetCell hp c ch style = (hp', c') /\
    t' = TScreen.set_cells
           (<[Z.to_nat (y * TScreen.w t + x) := c']> (TScreen.cells t)) t /\
    TScreen.SetCell x y style ch hp t = Returns (hp', t') /\
    TScreen.GetCell x y hp' t' = Returns (Some c', hp', t') /\
    grid_ok (TScreen.w t') (TScreen.h t') (TScreen.cells t') /\
    forall x' y', (x', y') <> (x, y) ->
      exists oc, TScreen.GetCell x' y' hp t = Returns (oc, hp, t) /\
                 TScreen.GetCell x' y' hp' t' = Returns (oc, hp', t').
Proof.
  intros Hf Hg Hx Hy.
  destruct (grid_lookup x y _ _ _ Hg Hx Hy) as [c Hc].
  destruct (cell_index_in_grid x y _ _ _ Hg Hx Hy) as [Hi Hidx].
  destruct (Cell_SetCell hp c ch style) as [hp' c'] eqn:Hset.
  set (i := Z.to_nat (y * TScreen.w t + x)) in *.
  set (t' := TScreen.set_cells (<[i := c']> (TScreen.cells t)) t).
  assert (Hw' : TScreen.w t' = TScreen.w t) by reflexivity.
  assert (Hh' : TScreen.h t' = TScreen.h t) by reflexivity.
  assert (Hf' : TScreen.fini t' = false) by exact Hf.
  assert (Hcs' : TScreen.cells t' = <[i := c']> (TScreen.cells t))
    by reflexivity.
  assert (Hg' : grid_ok (TScreen.w t') (TScreen.h t') (TScreen.cells t')).
  { rewrite Hw', Hh', Hcs'. destruct Hg as (H1 & H2 & H3 & H4).
    repeat split; try assumption. rewrite length_insert. exact H4. }
  exists c, c', hp', t'.
  split; [exact Hc |]. split; [exact Hset |]. split; [reflexivity |].
  split; [| split; [| split; [exact Hg' |]]].
  - unfold TScreen.SetCell.
    rewrite (tscreen_outside_false x y t Hf Hx Hy).
    unfold TScreen.cell_index. rewrite Hi.
    rewrite (index_cell_lookup _ _ c) by (lia || exact Hc).
    cbn [obind]. fold i. rewrite Hset. reflexivity.
  - unfold TScreen.GetCell.
    rewrite (tscreen_outside_false x y t' Hf') by (rewrite ?Hw', ?Hh'; lia).
    unfold TScreen.cell_index. rewrite Hw', Hi.
    rewrite (index_cell_lookup _ _ c'); [reflexivity | lia |].
    rewrite Hcs'. fold i. apply list_lookup_insert_eq.
    apply lookup_lt_Some in Hc. exact Hc.
  - intros x' y' Hne. unfold TScreen.GetCell.
    assert (Hout : TScreen.outside x' y' t' = TScreen.outside x' y' t)
      by reflexivity.
    rewrite Hout.
    destruct (TScreen.outside x' y' t) eqn:Ho; [eexists; split; reflexivity |].
    assert (Hin : 0 <= x' < TScreen.w t /\ 0 <= y' < TScreen.h t).
    { destruct (decide (0 <= x' < TScreen.w t /\ 0 <= y' < TScreen.h t))
        as [Hyes | Hno]; [exact Hyes |].
      rewrite (tscreen_outside_true x' y' t Hno) in Ho. discriminate. }
    destruct Hin as [Hx' Hy'].
    destruct (grid_lookup x' y' _ _ _ Hg Hx' Hy') as [d Hd].
    destruct (cell_index_in_grid x' y' _ _ _ Hg Hx' Hy') as [Hi' Hidx'].
    unfold TScreen.cell_index. rewrite Hw', Hi'.
    exists (Some d). rewrite (index_cell_lookup _ _ d) by (lia || exact Hd).
    rewrite (index_cell_lookup _ _ d); [split; reflexivity | lia |].
    rewrite Hcs'. rewrite list_lookup_insert_ne; [exact Hd |].
    unfold i. intros Heq. apply Z2Nat.inj in Heq; [| lia | lia].
    destruct (row_major_injective _ _ _ _ _ Hx Hx' Heq). congruence.
Qed.

(** ** Drawing a grid *)

Lemma add_one_below (c bound : Z) :
  0 <= c < bound -> GoInt.in_range bound -> GoInt.add c 1 = c + 1.
Proof.
  intros Hc Hb. unfold GoInt.add. apply wrap_in_range.
  unfold GoInt.in_range in *. assert (0 < GoInt.half) by reflexivity. lia.
Qed.

Lemma tscreen_draw_row_clean (n : nat) (row col : Z) (hp : RuneHeap)
    (t : TScreen.tScreen) :
  grid_ok (TScreen.w t) (TScreen.h t) (TScreen.cells t) ->
  GoInt.in_range (TScreen.w t) ->
  0 <= row < TScreen.h t -> 0 <= col ->
  Forall (fun c => Cell.Dirty c = false) (TScreen.cells t) ->
  TScreen.draw_row n row col hp t = Returns t.
Proof.
  intros Hg Hw Hrow. revert col.
  induction n as [| n IH]; intros col Hcol Hclean; [reflexivity |].
  cbn [TScreen.draw_row].
  destruct (Z.ltb_spec col (TScreen.w t)) as [Hlt |]; [| reflexivity].
  destruct (cell_index_in_grid col row _ _ _ Hg) as [Hi Hidx]; [lia | lia |].
  destruct (grid_lookup col row _ _ _ Hg) as [c Hc]; [lia | lia |].
  rewrite Hi, (index_cell_lookup _ _ c) by (lia || exact Hc).
  cbn [obind].
  rewrite (proj1 (Forall_lookup _ _) Hclean _ _ Hc). cbn [negb].
  rewrite (add_one_below col (TScreen.w t)) by (lia || exact Hw).
  apply IH; [lia | exact Hclean].
Qed.

Lemma tscreen_draw_rows_clean (n : nat) (row : Z) (hp : RuneHeap)
    (t : TScreen.tScreen) :
  grid_ok (TScreen.w t) (TScreen.h t) (TScreen.cells t) ->
  GoInt.in_range (TScreen.w t) -> GoInt.in_range (TScreen.h t) ->
  0 <= row ->
  Forall (fun c => Cell.Dirty c = false) (TScreen.cells t) ->
  TScreen.draw_rows n row hp t = Returns t.
Proof.
  intros Hg Hw Hh. revert row.
  induction n as [| n IH]; intros row Hrow Hclean; [reflexivity |].
  cbn [TScreen.draw_rows].
  destruct (Z.ltb_spec row (TScreen.h t)) as [Hlt |]; [| reflexivity].
  rewrite (tscreen_draw_row_clean _ row 0 hp t Hg Hw) by (lia || assumption).
  cbn [obind].
  rewrite (add_one_below row (TScreen.h t)) by (lia || exact Hh).
  apply IH; [lia | exact Hclean].
Qed.

Lemma tscreen_draw_clean (hp : RuneHeap) (t : TScreen.tScreen) :
  grid_ok (TScreen.w t) (TScreen.h t) (TScreen.cells t) ->
  GoInt.in_range (TScreen.w t) -> GoInt.in_range (TScreen.h t) ->
  Forall (fun c => Cell.Dirty c = false) (TScreen.cells t) ->
  TScreen.draw hp t
  = Returns (TScreen.showCursor
               (let t0 := TScreen.hideCursor
                            (TScreen.set_cy (-1) (TScreen.set_cx (-1) t)) in
                if TScreen.clear t then TScreen.clearScreen t0 else t0)).
Proof.
  intros Hg Hw Hh Hclean. unfold TScreen.draw.
  change (TScreen.clear (TScreen.hideCursor _)) with (TScreen.clear t).
  cbv zeta.
  set (t0 := TScreen.hideCursor _).
  set (t1 := if TScreen.clear t then TScreen.clearScreen t0 else t0).
  assert (Hsame : TScreen.w t1 = TScreen.w t /\ TScreen.h t1 = TScreen.h t /\
                  TScreen.cells t1 = TScreen.cells t).
  { unfold t1. destruct (TScreen.clear t); repeat split. }
  destruct Hsame as (Hw1 & Hh1 & Hc1).
  rewrite Hh1, tscreen_draw_rows_clean; [reflexivity | | | | lia |];
    rewrite ?Hw1, ?Hh1, ?Hc1; assumption.
Qed.

Lemma pen_flush_empty (x y : Z) (style : Style) (s : CScreen.cScreen) :
  CScreen.writeString x y style [] s = s.
Proof. reflexivity. Qed.

Lemma cscreen_draw_row_clean (n : nat) (row col x y : Z) (hp : RuneHeap)
    (s : CScreen.cScreen) :
  grid_ok (CScreen.w s) (CScreen.h s) (CScreen.cells s) ->
  CScreen.w s < 65536 ->
  0 <= row < CScreen.h s -> 0 <= col ->
  Forall (fun c => Cell.Dirty c = false /\ Cell.Width c <= 2)
    (CScreen.cells s) ->
  CScreen.draw_row n row col (CScreen.mk_pen [] (-1) x y) hp s
  = Returns (CScreen.mk_pen [] (-1) x y, s).
Proof.
  intros Hg Hw Hrow. revert col.
  induction n as [| n IH]; intros col Hcol Hclean; [reflexivity |].
  cbn [CScreen.draw_row].
  destruct (Z.ltb_spec col (CScreen.w s)) as [Hlt |]; [| reflexivity].
  destruct (cell_index_in_grid col row _ _ _ Hg) as [Hi Hidx]; [lia | lia |].
  destruct (grid_lookup col row _ _ _ Hg) as [c Hc]; [lia | lia |].
  rewrite Hi, (index_cell_lookup _ _ c) by (lia || exact Hc).
  cbn [obind].
  destruct (proj1 (Forall_lookup _ _) Hclean _ _ Hc) as [Hd Hwd].
  rewrite Hd. cbn [negb orb andb CScreen.px CScreen.py CScreen.wcs
                   CScreen.pstyle].
  rewrite pen_flush_empty.
  apply IH; [| exact Hclean].
  unfold GoInt.add. rewrite wrap_in_range.
  - destruct (Z.ltb_spec (Cell.Width c) 1); lia.
  - unfold GoInt.in_range.
    change GoInt.half with 9223372036854775808.
    destruct (Z.ltb_spec (Cell.Width c) 1); lia.
Qed.

Lemma cscreen_draw_rows_clean (n : nat) (row x y : Z) (hp : RuneHeap)
    (s : CScreen.cScreen) :
  grid_ok (CScreen.w s) (CScreen.h s) (CScreen.cells s) ->
  CScreen.w s < 65536 -> GoInt.in_range (CScreen.h s) ->
  0 <= row ->
  Forall (fun c => Cell.Dirty c = false /\ Cell.Width c <= 2)
    (CScreen.cells s) ->
  CScreen.draw_rows n row (CScreen.mk_pen [] (-1) x y) hp s = Returns s.
Proof.
  intros Hg Hw Hh. revert row.
  induction n as [| n IH]; intros row Hrow Hclean; [reflexivity |].
  cbn [CScreen.draw_rows].
  destruct (Z.ltb_spec row (CScreen.h s)) as [Hlt |]; [| reflexivity].
  rewrite (cscreen_draw_row_clean _ row 0 x y hp s Hg Hw)
    by (lia || assumption).
  cbn [obind CScreen.px CScreen.py CScreen.wcs CScreen.pstyle].
  rewrite pen_flush_empty.
  rewrite (add_one_below row (CScreen.h s)) by (lia || exact Hh).
  apply IH; [lia | exact Hclean].
Qed.

(** Nothing to draw.  When no cell of a well-formed grid is dirty, [draw]
    returns without a panic and writes no cell.  The terminfo screen
    emits only the cursor management around the loop (hide, the pending
    clear if any, then show or hide again) and leaves the cells alone; the
    console screen with no clear pending makes no console call at all and
    is left exactly as it was. *)
Theorem draw_of_a_clean_grid_writes_no_cell
    (hp : RuneHeap) (t : TScreen.tScreen) (s : CScreen.cScreen) :
  grid_ok (TScreen.w t) (TScreen.h t) (TScreen.cells t) ->
  GoInt.in_range (TScreen.w t) -> GoInt.in_range (TScreen.h t) ->
  Forall (fun c => Cell.Dirty c = false) (TScreen.cells t) ->
  grid_ok (CScreen.w s) (CScreen.h s) (CScreen.cells s) ->
  CScreen.w s < 65536 -> GoInt.in_range (CScreen.h s) ->
  Forall (fun c => Cell.Dirty c = false /\ Cell.Width c <= 2)
    (CScreen.cells s) ->
  CScreen.clear s = false ->
  (exists t',
     TScreen.draw hp t = Returns t' /\
     TScreen.cells t' = TScreen.cells t /\
     TScreen.out t'
     = TScreen.out
         (TScreen.showCursor
            (let t0 := TScreen.hideCursor
                         (TScreen.set_cy (-1) (TScreen.set_cx (-1) t)) in
             if TScreen.clear t then TScreen.clearScreen t0 else t0))) /\
  CScreen.draw hp s = Returns s.
Proof.
  intros Hg Hw Hh Hclean Hgs Hws Hhs Hcs Hclr. split.
  - eexists. split; [apply tscreen_draw_clean; assumption |].
    split; [| reflexivity].
    unfold TScreen.showCursor.
    destruct (_ || _); destruct (TScreen.clear t);
      try destruct (_ || _); reflexivity.
  - unfold CScreen.draw. rewrite Hclr.
    apply cscreen_draw_rows_clean; (assumption || lia).
Qed.

(** ** What a draw leaves behind *)

Lemma clean_upto_lookup (i : nat) (cs : list Cell) :
  clean_upto i cs !! i = cs !! i.
Proof.
  unfold clean_upto.
  destruct (decide (i < length cs)%nat) as [Hlt | Hge].
  - rewrite lookup_app_r by (rewrite length_map, length_take; lia).
    rewrite length_map, length_take, lookup_drop.
    f_equal. lia.
  - rewrite take_ge, drop_ge by lia. rewrite app_nil_r.
    rewrite list_lookup_fmap.
    rewrite (lookup_ge_None_2 cs i) by lia. reflexivity.
Qed.

Lemma clean_upto_step (i : nat) (cs : list Cell) (c : Cell) :
  cs !! i = Some c ->
  <[i := Cell.with_Dirty false c]> (clean_upto i cs) = clean_upto (S i) cs.
Proof.
  intros Hc. unfold clean_upto.
  pose proof (lookup_lt_Some _ _ _ Hc) as Hlt.
  rewrite (take_S_r _ _ _ Hc), (drop_S _ _ _ Hc).
  rewrite insert_app_r_alt by (rewrite length_map, length_take; lia).
  rewrite length_map, length_take.
  replace (i - i `min` length cs)%nat with 0%nat by lia.
  rewrite map_app. cbn [map list_insert]. rewrite <- app_assoc. reflexivity.
Qed.

Lemma clean_upto_skip (i : nat) (cs : list Cell) (c : Cell) :
  cs !! i = Some c -> Cell.Dirty c = false ->
  clean_upto (S i) cs = clean_upto i cs.
Proof.
  intros Hc Hd. rewrite <- (clean_upto_step i cs c Hc).
  apply list_insert_id. rewrite clean_upto_lookup, Hc.
  destruct c; cbn in Hd; subst; reflexivity.
Qed.

Lemma clean_upto_all (k : nat) (cs : list Cell) :
  (length cs <= k)%nat -> clean_upto k cs = map (Cell.with_Dirty false) cs.
Proof.
  intros Hk. unfold clean_upto.
  rewrite take_ge, drop_ge by lia. apply app_nil_r.
Qed.

Lemma emit_style_grid (style : Style) (t : TScreen.tScreen) :
  TScreen.w (TScreen.emit_style style t) = TScreen.w t /\
  TScreen.h (TScreen.emit_style style t) = TScreen.h t /\
  TScreen.cells (TScreen.emit_style style t) = TScreen.cells t /\
  TScreen.clear (TScreen.emit_style style t) = TScreen.clear t.
Proof.
  unfold TScreen.emit_style.
  destruct (Decompose style) as [[fg bg] attrs].
  repeat match goal with
         | |- context [if ?b then _ else _] => destruct b
         end; repeat split.
Qed.

Lemma drawCell_grid (x y : Z) (cell : Cell) (hp : RuneHeap)
    (t : TScreen.tScreen) :
  TScreen.w (TScreen.drawCell x y cell hp t) = TScreen.w t /\
  TScreen.h (TScreen.drawCell x y cell hp t) = TScreen.h t /\
  TScreen.cells (TScreen.drawCell x y cell hp t) = TScreen.cells t /\
  TScreen.clear (TScreen.drawCell x y cell hp t) = TScreen.clear t.
Proof.
  unfold TScreen.drawCell.
  set (t1 := if _ || _ then _ else t).
  assert (H1 : TScreen.w t1 = TScreen.w t /\ TScreen.h t1 = TScreen.h t /\
               TScreen.cells t1 = TScreen.cells t /\
               TScreen.clear t1 = TScreen.clear t)
    by (unfold t1; destruct (_ || _); repeat split).
  clearbody t1. cbv zeta.
  set (st := if _ =? _ then _ else _). clearbody st.
  set (t2 := if negb _ then _ else t1).
  assert (H2 : TScreen.w t2 = TScreen.w t /\ TScreen.h t2 = TScreen.h t /\
               TScreen.cells t2 = TScreen.cells t /\
               TScreen.clear t2 = TScreen.clear t).
  { unfold t2. destruct (negb _); [| exact H1].
    destruct (emit_style_grid st t1) as (-> & -> & -> & ->). exact H1. }
  clearbody t2.
  destruct (TScreen.cell_text x cell hp t2) as [str width].
  exact H2.
Qed.

Lemma tscreen_draw_row_cleans (n : nat) (row col : Z) (hp : RuneHeap)
    (t : TScreen.tScreen) (cs0 : list Cell) :
  grid_ok (TScreen.w t) (TScreen.h t) cs0 ->
  GoInt.in_range (TScreen.w t) ->
  0 <= row < TScreen.h t -> 0 <= col <= TScreen.w t ->
  (Z.to_nat (TScreen.w t - col) <= n)%nat ->
  Forall (fun c => Cell.Width c <= 1) cs0 ->
  TScreen.cells t = clean_upto (Z.to_nat (row * TScreen.w t + col)) cs0 ->
  exists t',
    TScreen.draw_row n row col hp t = Returns t' /\
    TScreen.w t' = TScreen.w t /\ TScreen.h t' = TScreen.h t /\
    TScreen.clear t' = TScreen.clear t /\
    TScreen.cells t'
    = clean_upto (Z.to_nat (row * TScreen.w t + TScreen.w t)) cs0.
Proof.
  revert col t.
  induction n as [| n IH]; intros col t Hg Hw Hrow Hcol Hn Hnarrow Hcells.
  - exists t. replace col with (TScreen.w t) in Hcells by lia.
    repeat split; assumption.
  - cbn [TScreen.draw_row].
    destruct (Z.ltb_spec col (TScreen.w t)) as [Hlt | Hge].
    2:{ exists t. replace col with (TScreen.w t) in Hcells by lia.
        repeat split; assumption. }
    assert (H0 : 0 <= row * TScreen.w t) by nia.
    destruct (cell_index_in_grid col row _ _ _ Hg) as [Hi Hidx];
      [lia | lia |].
    destruct (grid_lookup col row _ _ _ Hg) as [c Hc]; [lia | lia |].
    set (i := Z.to_nat (row * TScreen.w t + col)) in *.
    assert (Hct : TScreen.cells t !! i = Some c)
      by (rewrite Hcells, clean_upto_lookup; exact Hc).
    rewrite Hi, (index_cell_lookup _ _ c) by (lia || exact Hct).
    cbn [obind]. fold i.
    rewrite (add_one_below col (TScreen.w t)) by (lia || exact Hw).
    assert (Hnext : Z.to_nat (row * TScreen.w t + (col + 1)) = S i)
      by (unfold i; lia).
    destruct (Cell.Dirty c) eqn:Hd; cbn [negb].
    + pose proof (proj1 (Forall_lookup _ _) Hnarrow _ _ Hc) as Hwd.
      cbn beta in Hwd.
      destruct (Z.ltb_spec 1 (Cell.Width c)); [lia |].
      rewrite (add_one_below col (TScreen.w t)) by (lia || exact Hw).
      destruct (drawCell_grid col row c hp t) as (Hw1 & Hh1 & Hc1 & Hk1).
      set (t1 := TScreen.drawCell col row c hp t) in *.
      set (t2 := TScreen.set_cells _ t1).
      assert (Hw2 : TScreen.w t2 = TScreen.w t) by exact Hw1.
      assert (Hh2 : TScreen.h t2 = TScreen.h t) by exact Hh1.
      assert (Hk2 : TScreen.clear t2 = TScreen.clear t) by exact Hk1.
      assert (Hc2 : TScreen.cells t2 = clean_upto (S i) cs0).
      { unfold t2. cbn [TScreen.cells TScreen.set_cells].
        rewrite Hc1, Hcells. apply clean_upto_step. exact Hc. }
      destruct (IH (col + 1) t2) as (t' & Hr & Hw' & Hh' & Hk' & Hc');
        rewrite ?Hw2, ?Hh2, ?Hnext; try assumption; try lia.
      rewrite Hw2 in Hc'. exists t'.
      split; [exact Hr |]. repeat split; congruence.
    + destruct (IH (col + 1) t) as (t' & Hr & Hw' & Hh' & Hk' & Hc');
        rewrite ?Hnext; try assumption; try lia.
      { rewrite (clean_upto_skip i cs0 c Hc Hd). exact Hcells. }
      exists t'. repeat split; assumption.
Qed.

Lemma tscreen_draw_rows_cleans (n : nat) (row : Z) (hp : RuneHeap)
    (t : TScreen.tScreen) (cs0 : list Cell) :
  grid_ok (TScreen.w t) (TScreen.h t) cs0 ->
  GoInt.in_range (TScreen.w t) -> GoInt.in_range (TScreen.h t) ->
  0 <= row <= TScreen.h t ->
  (Z.to_nat (TScreen.h t - row) <= n)%nat ->
  Forall (fun c => Cell.Width c <= 1) cs0 ->
  TScreen.cells t = clean_upto (Z.to_nat (row * TScreen.w t)) cs0 ->
  exists t',
    TScreen.draw_rows n row hp t = Returns t' /\
    TScreen.w t' = TScreen.w t /\ TScreen.h t' = TScreen.h t /\
    TScreen.clear t' = TScreen.clear t /\
    TScreen.cells t' = map (Cell.with_Dirty false) cs0.
Proof.
  revert row t.
  induction n as [| n IH]; intros row t Hg Hw Hh Hrow Hn Hnarrow Hcells.
  - exists t. replace row with (TScreen.h t) in Hcells by lia.
    rewrite clean_upto_all in Hcells
      by (destruct Hg as (_ & _ & _ & Hlen); lia).
    repeat split; assumption.
  - cbn [TScreen.draw_rows].
    destruct (Z.ltb_spec row (TScreen.h t)) as [Hlt | Hge].
    2:{ exists t. replace row with (TScreen.h t) in Hcells by lia.
        rewrite clean_upto_all in Hcells
          by (destruct Hg as (_ & _ & _ & Hlen); lia).
        repeat split; assumption. }
    destruct (tscreen_draw_row_cleans (Z.to_nat (TScreen.w t)) row 0 hp t cs0)
      as (t1 & Hr & Hw1 & Hh1 & Hk1 & Hc1); try assumption; try lia.
    { destruct Hg; lia. }
    { rewrite Z.add_0_r. exact Hcells. }
    rewrite Hr. cbn [obind].
    rewrite (add_one_below row (TScreen.h t)) by (lia || exact Hh).
    destruct (IH (row + 1) t1) as (t' & Hr' & Hw' & Hh' & Hk' & Hc');
      rewrite ?Hw1, ?Hh1; try assumption; try lia.
    { rewrite Hc1. f_equal. lia. }
    exists t'. split; [exact Hr' |]. repeat split; congruence.
Qed.

Lemma showCursor_grid (t : TScreen.tScreen) :
  TScreen.w (TScreen.showCursor t) = TScreen.w t /\
  TScreen.h (TScreen.showCursor t) = TScreen.h t /\
  TScreen.cells (TScreen.showCursor t) = TScreen.cells t /\
  TScreen.clear (TScreen.showCursor t) = TScreen.clear t.
Proof.
  unfold TScreen.showCursor.
  destruct (_ || _); [repeat split |].
  cbv zeta. destruct (_ || _); repeat split.
Qed.

(** A draw leaves a clean grid.  On a well-formed grid whose cells are
    at most one column wide, [draw] returns without a panic, keeps the
    size, and leaves every cell as it was except that no cell is dirty;
    no clear is pending afterwards.  Hence a second [draw] right after
    writes no cell at all: it emits the cursor management only. *)
Theorem draw_leaves_a_clean_grid (hp : RuneHeap) (t : TScreen.tScreen) :
  grid_ok (TScreen.w t) (TScreen.h t) (TScreen.cells t) ->
  GoInt.in_range (TScreen.w t) -> GoInt.in_range (TScreen.h t) ->
  Forall (fun c => Cell.Width c <= 1) (TScreen.cells t) ->
  exists t',
    TScreen.draw hp t = Returns t' /\
    TScreen.w t' = TScreen.w t /\ TScreen.h t' = TScreen.h t /\
    TScreen.clear t' = false /\
    TScreen.cells t' = map (Cell.with_Dirty false) (TScreen.cells t) /\
    TScreen.draw hp t'
    = Returns (TScreen.showCursor
                 (TScreen.hideCursor
                    (TScreen.set_cy (-1) (TScreen.set_cx (-1) t')))).
Proof.
  intros Hg Hw Hh Hnarrow. unfold TScreen.draw at 1.
  change (TScreen.clear (TScreen.hideCursor _)) with (TScreen.clear t).
  cbv zeta.
  set (t0 := TScreen.hideCursor _).
  set (t1 := if TScreen.clear t then TScreen.clearScreen t0 else t0).
  assert (Hsame : TScreen.w t1 = TScreen.w t /\ TScreen.h t1 = TScreen.h t /\
                   TScreen.cells t1 = TScreen.cells t /\
                   TScreen.clear t1 = false).
  { unfold t1. destruct (TScreen.clear t) eqn:Hk; repeat split. exact Hk. }
  destruct Hsame as (Hw1 & Hh1 & Hc1 & Hk1). clearbody t1.
  destruct (tscreen_draw_rows_cleans (Z.to_nat (TScreen.h t1)) 0 hp t1
              (TScreen.cells t))
    as (t2 & Hr & Hw2 & Hh2 & Hk2 & Hc2);
    rewrite ?Hw1, ?Hh1; try assumption; try lia.
  { destruct Hg; lia. }
  rewrite Hh1 in Hr. rewrite Hr. cbn [obind].
  destruct (showCursor_grid t2) as (Hw3 & Hh3 & Hc3 & Hk3).
  exists (TScreen.showCursor t2).
  split; [reflexivity |].
  split; [congruence |]. split; [congruence |]. split; [congruence |].
  split; [congruence |].
  rewrite tscreen_draw_clean.
  - rewrite Hk3, Hk2, Hk1. reflexivity.
  - rewrite Hw3, Hh3, Hc3, Hw2, Hh2, Hc2, Hw1, Hh1.
    destruct Hg as (G1 & G2 & G3 & G4). repeat split; try assumption.
    rewrite length_map. exact G4.
  - rewrite Hw3, Hw2, Hw1. exact Hw.
  - rewrite Hh3, Hh2, Hh1. exact Hh.
  - rewrite Hc3, Hc2. apply Forall_forall. intros c Hin.
    apply in_map_iff in Hin. destruct Hin as (c0 & <- & _).
    reflexivity.
Qed.

End GridMore.

(** * The alternate character set *)

Section AcsMore.
Context {MK : Masks} {ST : StyleOps} {CO : CellOps} {U8 : Utf8} {RN : Runes}.

Lemma acs_pairs_listed (ti : Terminfo) (ps : list (Z * Z)) (tail : list Z)
    (m : gmap Z gostring) :
  (0 < length tail <= 2)%nat ->
  TScreen.acs_pairs ti (pairs_string ps ++ tail) m
  = foldl (fun m p => TScreen.acs_assign ti p.1 (utf8_EncodeRune p.2) m) m ps.
Proof.
  intros Htail. revert m.
  induction ps as [| [src dst] ps IH]; intros m.
  - cbn [pairs_string flat_map app foldl].
    destruct tail as [| a [| b [| c tail']]]; cbn in Htail; try lia;
      reflexivity.
  - cbn [pairs_string flat_map app foldl fst snd].
    fold (pairs_string ps). cbn [TScreen.acs_pairs].
    destruct (Nat.ltb_spec 2 (length (src :: dst :: pairs_string ps ++ tail)))
      as [_ | Hshort].
    + apply IH.
    + cbn [length] in Hshort. rewrite length_app in Hshort. lia.
Qed.

(** The terminal's alternate character set is a string of pairs, and
    [buildAcsMap] stops as soon as two bytes or fewer remain: the pairs
    before the last one are applied in order to the table of defaults,
    and the last pair never takes effect, whatever it is.  In particular
    a capability made of a single pair changes nothing. *)
Theorem acs_last_pair_is_dropped
    (t : TScreen.tScreen) (ps : list (Z * Z)) (a b : Z) :
  Terminfo.AltChars (TScreen.ti t) = pairs_string (ps ++ [(a, b)]) ->
  TScreen.buildAcsMap t
  = TScreen.set_acs
      (foldl (fun m p =>
                TScreen.acs_assign (TScreen.ti t) p.1 (utf8_EncodeRune p.2) m)
         TScreen.acs_defaults ps) t.
Proof.
  intros Hacs. unfold TScreen.buildAcsMap. rewrite Hacs.
  unfold pairs_string at 1. rewrite flat_map_app. fold (pairs_string ps).
  cbn [flat_map app fst snd].
  rewrite acs_pairs_listed by (cbn; lia). reflexivity.
Qed.

Lemma acs_assign_keeps (ti : Terminfo) (srcv : Z) (dstv : gostring)
    (m : gmap Z gostring) (r : Z) :
  is_Some (m !! r) -> is_Some (TScreen.acs_assign ti srcv dstv m !! r).
Proof.
  intros Hr. unfold TScreen.acs_assign.
  destruct (find _ _) as [e |]; [| exact Hr].
  rewrite lookup_insert_is_Some. destruct (decide (rune_of (utf e) = r));
    [left; assumption | right; split; assumption].
Qed.

Lemma acs_pairs_keeps (ti : Terminfo) (l : list Z) (r : Z) :
  (forall m, is_Some (m !! r) -> is_Some (TScreen.acs_pairs ti l m !! r)) /\
  (forall x m, is_Some (m !! r) ->
               is_Some (TScreen.acs_pairs ti (x :: l) m !! r)).
Proof.
  induction l as [| y l [IH1 IH2]].
  - split; intros; assumption.
  - split; [exact (IH2 y) |].
    intros x m Hm. cbn [TScreen.acs_pairs].
    destruct (2 <? _)%nat; [| exact Hm].
    apply IH1, acs_assign_keeps, Hm.
Qed.

Lemma defaults_fold_has (l : list acsMap) (m : gmap Z gostring) (r : Z) :
  is_Some (m !! r) \/ (exists e, In e l /\ rune_of (utf e) = r) ->
  is_Some (foldl (fun m e => <[rune_of (utf e) := ascii e]> m) m l !! r).
Proof.
  revert m. induction l as [| e l IH]; intros m H.
  - destruct H as [H | (e & [] & _)]. exact H.
  - cbn [foldl]. apply IH.
    destruct H as [H | (e' & [<- | Hin] & Hr)].
    + left. rewrite lookup_insert_is_Some.
      destruct (decide (rune_of (utf e) = r)); [left | right; split];
        assumption.
    + left. rewrite Hr. rewrite lookup_insert_eq. eexists. reflexivity.
    + right. exists e'. split; assumption.
Qed.

Lemma vtNames_complete (n : RuneName) : In n (map utf TScreen.vtNames).
Proof.
  destruct n; cbn [map TScreen.vtNames utf In];
    repeat (first [left; reflexivity | right]).
Qed.

(** Every drawing rune has a fallback.  Whatever the terminal's alternate
    character set says, after [buildAcsMap] the table holds an entry for
    each of the 32 drawing runes, so the fallback of [encodeRune] for a
    rune the codec cannot encode never lacks one of them. *)
Theorem acs_covers_every_drawing_rune (t : TScreen.tScreen) (n : RuneName) :
  is_Some (TScreen.acs (TScreen.buildAcsMap t) !! rune_of n).
Proof.
  unfold TScreen.buildAcsMap.
  change (TScreen.acs (TScreen.set_acs ?m t)) with m.
  apply (proj1 (acs_pairs_keeps _ _ _)).
  unfold TScreen.acs_defaults. apply defaults_fold_has. right.
  pose proof (vtNames_complete n) as Hin.
  apply in_map_iff in Hin. destruct Hin as (e & He & Hin).
  exists e. split; [exact Hin | rewrite He; reflexivity].
Qed.

End AcsMore.

(** * Console input records *)

Section ConsoleMore.
Context {MK : Masks} {ST : StyleOps} {CO : CellOps} {U8 : Utf8}
  {PA : Palette} {U16 : Utf16}.

Lemma getu16_bytes (n : Z) (rest : list Z) :
  0 <= n < 65536 ->
  CScreen.getu16 (n mod 256 :: (n / 256) mod 256 :: rest) = Returns n.
Proof.
  intros Hn. unfold CScreen.getu16, CScreen.byte_at. cbn [lookup list_lookup obind].
  f_equal. rewrite Z.shiftl_mul_pow2 by lia. change (2 ^ 8) with 256.
  Z.div_mod_to_equations. lia.
Qed.

Lemma getu32_bytes (n : Z) (rest : list Z) :
  0 <= n < 4294967296 ->
  CScreen.getu32 (n mod 256 :: (n / 256) mod 256 :: (n / 65536) mod 256
                  :: (n / 16777216) mod 256 :: rest) = Returns n.
Proof.
  intros Hn. unfold CScreen.getu32, CScreen.byte_at. cbn [lookup list_lookup obind].
  f_equal. rewrite !Z.shiftl_mul_pow2 by lia.
  change (2 ^ 8) with 256. change (2 ^ 16) with 65536.
  change (2 ^ 24) with 16777216. change (2 ^ 32) with 4294967296.
  Z.div_mod_to_equations. lia.
Qed.

(** The four field readers invert the little-endian layout: an unsigned
    value is read back from its bytes, and a signed value from the bytes
    of its two's complement, whatever follows them; a slice too short for
    the field is a run-time panic. *)
Theorem console_fields_round_trip (u16 i16 u32 i32 : Z) (rest : list Z) :
  0 <= u16 < 65536 -> -32768 <= i16 < 32768 ->
  0 <= u32 < 4294967296 -> -2147483648 <= i32 < 2147483648 ->
  CScreen.getu16 (le16 u16 ++ rest) = Returns u16 /\
  CScreen.geti16 (le16 (i16 mod 65536) ++ rest) = Returns i16 /\
  CScreen.getu32 (le32 u32 ++ rest) = Returns u32 /\
  CScreen.geti32 (le32 (i32 mod 4294967296) ++ rest) = Returns i32 /\
  CScreen.getu16 (take 1 (le16 u16)) = Panics /\
  CScreen.getu32 (take 3 (le32 u32)) = Panics.
Proof.
  intros H16 Hi16 H32 Hi32.
  split; [apply getu16_bytes; exact H16 |].
  split.
  { unfold CScreen.geti16. cbn [le16 app].
    rewrite getu16_bytes by (apply Z.mod_pos_bound; lia).
    cbn [obind]. f_equal. unfold CScreen.int16.
    Z.div_mod_to_equations. lia. }
  split; [apply getu32_bytes; exact H32 |].
  split; [| split; reflexivity].
  unfold CScreen.geti32. cbn [le32 app].
  rewrite getu32_bytes by (apply Z.mod_pos_bound; lia).
  cbn [obind]. f_equal.
  change (2 ^ 31) with 2147483648. change (2 ^ 32) with 4294967296.
  Z.div_mod_to_equations. lia.
Qed.

Lemma geti32_bytes (n : Z) (rest : list Z) :
  0 <= n < 2147483648 ->
  CScreen.geti32 (n mod 256 :: (n / 256) mod 256 :: (n / 65536) mod 256
                  :: (n / 16777216) mod 256 :: rest) = Returns n.
Proof.
  intros Hn. unfold CScreen.geti32. rewrite getu32_bytes by lia.
  cbn [obind]. f_equal.
  change (2 ^ 31) with 2147483648. change (2 ^ 32) with 4294967296.
  Z.div_mod_to_equations. lia.
Qed.

Lemma cscreen_set_evch_twice (a b : option chan) (s : CScreen.cScreen) :
  CScreen.set_evch a (CScreen.set_evch b s) = CScreen.set_evch a s.
Proof. reflexivity. Qed.

Lemma post_repeat_room (n : nat) (pick : nat -> bool) (ev : Event)
    (s : CScreen.cScreen) (c : chan) :
  CScreen.evch s = Some c -> (length (queue c) <= cap c)%nat ->
  CScreen.quit s <> SigClosed ->
  CScreen.post_repeat n pick ev s
  = if (length (queue c) + n <=? cap c)%nat
    then Proceeds (CScreen.set_evch
                     (Some {| cap := cap c;
                              queue := queue c ++ replicate n ev |}) s)
    else Blocks.
Proof.
  revert pick s c. induction n as [| n IH]; intros pick s c Hc Hle Hq.
  - cbn [CScreen.post_repeat replicate]. rewrite Nat.add_0_r, app_nil_r.
    destruct (Nat.leb_spec (length (queue c)) (cap c)) as [_ | Hgt]; [| lia].
    f_equal. destruct s, c. cbn in Hc. subst. reflexivity.
  - cbn [CScreen.post_repeat]. unfold CScreen.PostEvent. rewrite Hc.
    assert (Hrq : recv_ready (CScreen.quit s) = false)
      by (destruct (CScreen.quit s); [reflexivity | reflexivity | contradiction]).
    rewrite Hrq. cbn [send_ready].
    destruct (Nat.ltb_spec (length (queue c)) (cap c)) as [Hroom | Hfull];
      cbn [select_arm enqueue].
    + rewrite (IH _ _ {| cap := cap c; queue := queue c ++ [ev] |});
        [| reflexivity | cbn [queue cap]; rewrite length_app; cbn; lia
         | exact Hq].
      cbn [queue cap]. rewrite length_app. cbn [length].
      rewrite cscreen_set_evch_twice, <- app_assoc. cbn [app replicate].
      replace (length (queue c) + 1 + n)%nat
        with (length (queue c) + S n)%nat by lia.
      reflexivity.
    + destruct (Nat.leb_spec (length (queue c) + S n) (cap c)); [lia |].
      reflexivity.
Qed.

(** A held key.  A key-down record carrying a character and a repeat
    count [n] posts the [Key=Rune] event of that character [n] times, with
    the modifiers of the record, when the event channel has room for all
    of them.  When it has not, and [quit] is not closed, the reader does
    not return: it blocks in [PostEvent] until events are polled. *)
Theorem console_key_repeat
    (isdown repeat_ kcode scode ch mod_ : Z) (pick : nat -> bool)
    (s : CScreen.cScreen) (c : chan) :
  CScreen.evch s = Some c -> (length (queue c) <= cap c)%nat ->
  CScreen.quit s <> SigClosed ->
  0 < isdown < 2147483648 -> 0 < repeat_ < 65536 -> 0 < ch < 65536 ->
  0 <= kcode < 65536 -> 0 <= scode < 65536 -> 0 <= mod_ < 4294967296 ->
  CScreen.getConsoleInput
    (Some (1, {| CScreen.typ := CScreen.keyEvent;
                 CScreen.data := key_data isdown repeat_ kcode scode ch mod_ |}))
    pick s
  = if (length (queue c) + Z.to_nat repeat_ <=? cap c)%nat
    then Proceeds
           (Returns
              (CScreen.set_evch
                 (Some {| cap := cap c;
                          queue := queue c ++
                            replicate (Z.to_nat repeat_)
                              (NewEventKey KeyRune ch (CScreen.mod2mask mod_)) |})
                 s, false))
    else Blocks.
Proof.
  intros Hc Hle Hq Hdown Hrep Hch Hk Hsc Hmod.
  unfold CScreen.getConsoleInput.
  change (negb (1 =? 1)) with false. cbv iota.
  cbn [CScreen.typ CScreen.data].
  change (CScreen.keyEvent =? CScreen.keyEvent) with true. cbv iota.
  unfold key_data. cbn [le32 le16 app drop].
  rewrite geti32_bytes by lia. cbn [obind].
  rewrite !getu16_bytes by lia. cbn [obind].
  rewrite getu32_bytes by lia. cbn [obind].
  destruct (Z.eqb_spec isdown 0); [lia |].
  destruct (Z.ltb_spec repeat_ 1); [lia |]. cbn [orb].
  destruct (Z.eqb_spec ch 0); [lia |]. cbn [negb].
  rewrite (post_repeat_room _ _ _ s c Hc Hle Hq).
  destruct (_ <=? _)%nat; reflexivity.
Qed.

Lemma cscreen_resize_posts (pick : bool) (info : CScreen.consoleInfo)
    (hp : RuneHeap) (s : CScreen.cScreen) (w' h' : Z) :
  w' = CScreen.int16
         (CScreen.int16 (CScreen.right (CScreen.ci_win info)
                         - CScreen.left (CScreen.ci_win info)) + 1) ->
  h' = CScreen.int16
         (CScreen.int16 (CScreen.bottom (CScreen.ci_win info)
                         - CScreen.top (CScreen.ci_win info)) + 1) ->
  (CScreen.w s, CScreen.h s) <> (w', h') ->
  CScreen.evch s = Some (make_chan 2) -> CScreen.quit s = SigOpen ->
  exists (hp' : RuneHeap) (s' : CScreen.cScreen),
    CScreen.resize pick info hp s = Proceeds (hp', s') /\
    CScreen.quit s' = SigOpen /\
    CScreen.w s' = w' /\ CScreen.h s' = h' /\
    CScreen.evch s' = Some {| cap := 2; queue := [NewEventResize w' h'] |}.
Proof.
  intros Hw Hh Hne Hev Hq.
  destruct s as [mb ev q cx0 cy0 st cl w0 h0 os oc oi oo cs cl0].
  cbn [CScreen.w CScreen.h CScreen.evch CScreen.quit] in Hne, Hev, Hq.
  subst ev q.
  unfold CScreen.resize. cbn [CScreen.w CScreen.h CScreen.cells].
  rewrite <- Hw, <- Hh.
  assert (Hcond : (w0 =? w') && (h0 =? h') = false).
  { destruct (Z.eqb_spec w0 w'); [| reflexivity].
    destruct (Z.eqb_spec h0 h'); [| reflexivity]. congruence. }
  rewrite Hcond.
  destruct (ResizeCells hp cs w0 h0 w' h') as [hp1 cs1].
  unfold CScreen.PostEvent, CScreen.setBufferSize, CScreen.call.
  cbn [CScreen.set_h CScreen.set_w CScreen.set_cells CScreen.set_calls
       CScreen.calls CScreen.evch CScreen.quit CScreen.set_evch].
  cbn [recv_ready send_ready make_chan queue cap length Nat.ltb Nat.leb
       select_arm enqueue app].
  eexists _, _. split; [reflexivity |].
  cbn [CScreen.w CScreen.h CScreen.evch CScreen.quit].
  repeat split.
Qed.

Lemma cscreen_init_tail (s : CScreen.cScreen) :
  let s1 := CScreen.setOutMode 0 (CScreen.setInMode CScreen.modeResizeEn s) in
  let s2 := CScreen.hideCursor (CScreen.clearScreen (CScreen.style s1) s1) in
  CScreen.quit s2 = CScreen.quit s /\ CScreen.w s2 = CScreen.w s /\
  CScreen.h s2 = CScreen.h s /\ CScreen.evch s2 = CScreen.evch s.
Proof. repeat split. Qed.

Lemma cscreen_init_head (ocur : CScreen.cursorInfo)
    (oscr : CScreen.consoleInfo) (oom oim : Z) (s : CScreen.cScreen) :
  let s0 := CScreen.set_oimode oim
              (CScreen.set_oomode oom
                 (CScreen.set_oscreen oscr
                    (CScreen.set_ocursor ocur
                       (CScreen.set_cury (-1)
                          (CScreen.set_curx (-1)
                             (CScreen.set_quit SigOpen
                                (CScreen.set_evch (Some (make_chan 2)) s))))))) in
  CScreen.quit s0 = SigOpen /\ CScreen.w s0 = CScreen.w s /\
  CScreen.h s0 = CScreen.h s /\ CScreen.evch s0 = Some (make_chan 2).
Proof. repeat split. Qed.

(** The first event.  When the console opens and the window of the
    console differs in size from the screen, [Init] succeeds with [quit]
    open, takes the window's size, and leaves exactly one event in the
    channel of capacity 2: the resize event carrying that size, which is
    what the first [PollEvent] returns. *)
Theorem console_init_posts_the_window_size
    (ocur : CScreen.cursorInfo) (oscr info : CScreen.consoleInfo)
    (oom oim : Z) (pick pick' : bool) (hp : RuneHeap) (s : CScreen.cScreen)
    (w' h' : Z) :
  w' = CScreen.int16
         (CScreen.int16 (CScreen.right (CScreen.ci_win info)
                         - CScreen.left (CScreen.ci_win info)) + 1) ->
  h' = CScreen.int16
         (CScreen.int16 (CScreen.bottom (CScreen.ci_win info)
                         - CScreen.top (CScreen.ci_win info)) + 1) ->
  (CScreen.w s, CScreen.h s) <> (w', h') ->
  exists (hp' : RuneHeap) (s' : CScreen.cScreen),
    CScreen.Init true true ocur oscr info oom oim pick hp s
    = Proceeds (hp', s', false) /\
    CScreen.quit s' = SigOpen /\
    CScreen.w s' = w' /\ CScreen.h s' = h' /\
    CScreen.evch s'
    = Some {| cap := 2; queue := [NewEventResize w' h'] |} /\
    CScreen.PollEvent pick' s'
    = Proceeds (Some (NewEventResize w' h'),
                CScreen.set_evch (Some (make_chan 2)) s').
Proof.
  intros Hw Hh Hne.
  unfold CScreen.Init. cbn [negb]. cbv zeta.
  destruct (cscreen_init_head ocur oscr oom oim s) as (Hq0 & Hw0 & Hh0 & He0).
  cbv zeta in Hq0, Hw0, Hh0, He0.
  match goal with
  | |- context [CScreen.resize pick info hp ?s0] => set (s0' := s0) in *
  end.
  destruct (cscreen_resize_posts pick info hp s0' w' h' Hw Hh)
    as (hp1 & s1 & Hres & Hq1 & Hw1 & Hh1 & He1);
    [rewrite Hw0, Hh0; exact Hne | exact He0 | exact Hq0 |].
  rewrite Hres.
  destruct (cscreen_init_tail s1) as (Hq2 & Hw2 & Hh2 & He2).
  cbv zeta in Hq2, Hw2, Hh2, He2.
  match goal with
  | |- context [Proceeds (hp1, ?sf, false)] => set (s2 := sf) in *
  end.
  clearbody s2. exists hp1, s2.
  split; [reflexivity |].
  split; [congruence |]. split; [congruence |]. split; [congruence |].
  split; [congruence |].
  unfold CScreen.PollEvent. rewrite Hq2, Hq1, He2, He1. reflexivity.
Qed.

End ConsoleMore.

(** * Start-up and the edges of a row *)

Section SetupMore.
Context {MK : Masks} {ST : StyleOps} {CO : CellOps} {U8 : Utf8}.

Lemma prepareKeys_frame (t : TScreen.tScreen) :
  TScreen.out (TScreen.prepareKeys t) = TScreen.out t /\
  TScreen.quit (TScreen.prepareKeys t) = TScreen.quit t /\
  TScreen.cells (TScreen.prepareKeys t) = TScreen.cells t /\
  TScreen.fini (TScreen.prepareKeys t) = TScreen.fini t.
Proof.
  unfold TScreen.prepareKeys. generalize TScreen.prepared as ks.
  intros ks. revert t. induction ks as [| k ks IH]; intros t.
  - repeat split.
  - cbn [foldl].
    destruct (IH (TScreen.prepareKey k (Terminfo.KeyString (TScreen.ti t) k) t))
      as (-> & -> & -> & ->).
    unfold TScreen.prepareKey. destruct (bytes_eqb _ _); repeat split.
Qed.

Lemma NewTerminfoScreen_fresh (lookup : option Terminfo) (lines columns : Z)
    (acsmap : gmap Z gostring) (t : TScreen.tScreen) :
  TScreen.NewTerminfoScreen lookup lines columns acsmap = Some t ->
  TScreen.out t = [] /\ TScreen.quit t = SigNil /\ TScreen.cells t = [] /\
  TScreen.fini t = false.
Proof.
  unfold TScreen.NewTerminfoScreen.
  destruct lookup as [ti |]; [| discriminate].
  match goal with
  | |- context [TScreen.prepareKeys ?t0] =>
      assert (Hfresh : TScreen.out (TScreen.prepareKeys t0) = [] /\
                       TScreen.quit (TScreen.prepareKeys t0) = SigNil /\
                       TScreen.cells (TScreen.prepareKeys t0) = [] /\
                       TScreen.fini (TScreen.prepareKeys t0) = false)
        by (destruct (prepareKeys_frame t0) as (-> & -> & -> & ->);
            destruct (0 <? Z.of_nat (length (Terminfo.Mouse ti)));
            repeat split);
      generalize dependent (TScreen.prepareKeys t0)
  end.
  intros t1 Hfresh [= <-].
  destruct (columns =? 0), (lines =? 0); exact Hfresh.
Qed.

(** A failed start-up leaves no grid.  When [Init] on a screen fresh from
    [NewTerminfoScreen] returns an error (no codec for the character set,
    or the terminal cannot be set up), it has written nothing to the
    terminal and left [quit] nil; the screen keeps the size the terminal
    description gave it but has no cell, and it is not marked finalized,
    so [SetCell] and [GetCell] at any position inside that size panic. *)
Theorem failed_init_leaves_no_grid
    (lookup : option Terminfo) (lines columns : Z) (acsmap : gmap Z gostring)
    (cs : gostring) (ge : gostring -> option (Transformer * Transformer))
    (ok : bool) (hp hp' : RuneHeap) (t0 t' : TScreen.tScreen) :
  TScreen.NewTerminfoScreen lookup lines columns acsmap = Some t0 ->
  TScreen.Init cs ge ok hp t0 = (hp', t', true) ->
  hp' = hp /\ TScreen.out t' = [] /\ TScreen.quit t' = SigNil /\
  TScreen.w t' = TScreen.w t0 /\ TScreen.h t' = TScreen.h t0 /\
  forall (x y : Z) (style : Style) (ch : RuneSlice),
    0 <= x < TScreen.w t' -> 0 <= y < TScreen.h t' ->
    TScreen.SetCell x y style ch hp' t' = Panics /\
    TScreen.GetCell x y hp' t' = Panics.
Proof.
  intros Hnew Hinit.
  destruct (NewTerminfoScreen_fresh _ _ _ _ _ Hnew)
    as (Hout & Hquit & Hcells & Hfini).
  assert (Hkeep : hp' = hp /\ TScreen.out t' = TScreen.out t0 /\
                  TScreen.cells t' = TScreen.cells t0 /\
                  TScreen.quit t' = TScreen.quit t0 /\
                  TScreen.fini t' = TScreen.fini t0 /\
                  TScreen.w t' = TScreen.w t0 /\
                  TScreen.h t' = TScreen.h t0).
  { revert Hinit. unfold TScreen.Init.
    change (TScreen.charset (TScreen.set_charset cs
              (TScreen.set_evch (Some (make_chan 10)) t0))) with cs.
    destruct (TScreen.is_utf8 cs || TScreen.is_ascii cs).
    - destruct ok; cbn [negb].
      + destruct (ResizeCells _ _ _ _ _ _); discriminate.
      + intros [= <- <-]. repeat split.
    - destruct (ge cs) as [[e d] |].
      + destruct ok; cbn [negb].
        * destruct (ResizeCells _ _ _ _ _ _); discriminate.
        * intros [= <- <-]. repeat split.
      + intros [= <- <-]. repeat split. }
  destruct Hkeep as (Hhp & Ho & Hc & Hq & Hf & Hw & Hh).
  rewrite Hout in Ho. rewrite Hcells in Hc. rewrite Hquit in Hq.
  rewrite Hfini in Hf.
  split; [exact Hhp |]. split; [exact Ho |]. split; [exact Hq |].
  split; [exact Hw |]. split; [exact Hh |].
  intros x y style ch Hx Hy.
  assert (Hidx : forall i, index_cell (TScreen.cells t') i = Panics).
  { intros i. unfold index_cell. rewrite Hc.
    destruct (i <? 0); reflexivity. }
  unfold TScreen.SetCell, TScreen.GetCell.
  rewrite (tscreen_outside_false x y t' Hf Hx Hy), Hidx.
  split; reflexivity.
Qed.

(** The last column holds no wide glyph.  For a cell marked two columns
    wide and drawn in the last column (or beyond), [drawCell] settles on a
    text of width 1: a single space, or, when the character set is not
    UTF-8 and the cell's runes cannot be encoded, a single question
    mark. *)
Theorem wide_cell_in_the_last_column
    (x : Z) (cell : Cell) (hp : RuneHeap) (t : TScreen.tScreen) :
  Cell.Width cell = 2 ->
  0 < TScreen.w t -> GoInt.in_range (TScreen.w t) ->
  TScreen.w t - 1 <= x ->
  TScreen.cell_text x cell hp t = (lit " ", 1) \/
  (TScreen.is_utf8 (TScreen.charset t) = false /\
   TScreen.cell_text x cell hp t = (lit "?", 1)).
Proof.
  intros Hwd Hpos Hw Hx.
  assert (Hsub : GoInt.sub (TScreen.w t) 1 = TScreen.w t - 1).
  { unfold GoInt.sub. apply wrap_in_range. unfold GoInt.in_range in *. lia. }
  unfold TScreen.cell_text. rewrite Hsub, Hwd.
  change (1 <? 2) with true. cbn [andb].
  assert (Hge : (x >=? TScreen.w t - 1) = true)
    by (destruct (Z.geb_spec x (TScreen.w t - 1)); [reflexivity | lia]).
  assert (Hlt : (x <? TScreen.w t - 1) = false)
    by (destruct (Z.ltb_spec x (TScreen.w t - 1)); [lia | reflexivity]).
  rewrite Hge, Hlt.
  destruct (TScreen.is_utf8 (TScreen.charset t)).
  - destruct (length _ =? 0)%nat; left; reflexivity.
  - destruct (length (slice_runes hp (Cell.Ch cell)) =? 0)%nat.
    + left. reflexivity.
    + destruct (length (foldl _ _ _) =? 0)%nat.
      * left. reflexivity.
      * destruct (bytes_eqb _ (lit "?")); [right | left]; split; reflexivity.
Qed.

End SetupMore.

(** * What a console draw leaves behind *)

Section ConsoleDrawMore.
Context {MK : Masks} {ST : StyleOps} {CO : CellOps} {U8 : Utf8}
  {PA : Palette} {U16 : Utf16}.

Lemma writeString_grid (x y : Z) (style : Style) (ch : list Z)
    (s : CScreen.cScreen) :
  CScreen.w (CScreen.writeString x y style ch s) = CScreen.w s /\
  CScreen.h (CScreen.writeString x y style ch s) = CScreen.h s /\
  CScreen.cells (CScreen.writeString x y style ch s) = CScreen.cells s /\
  CScreen.clear (CScreen.writeString x y style ch s) = CScreen.clear s.
Proof.
  unfold CScreen.writeString. destruct (length ch =? 0)%nat; repeat split.
Qed.

Lemma cscreen_draw_row_cleans (n : nat) (row col : Z) (p : CScreen.pen)
    (hp : RuneHeap) (s : CScreen.cScreen) (cs0 : list Cell) :
  grid_ok (CScreen.w s) (CScreen.h s) cs0 ->
  GoInt.in_range (CScreen.w s) ->
  0 <= row < CScreen.h s -> 0 <= col <= CScreen.w s ->
  (Z.to_nat (CScreen.w s - col) <= n)%nat ->
  Forall (fun c => Cell.Width c <= 1) cs0 ->
  CScreen.cells s = clean_upto (Z.to_nat (row * CScreen.w s + col)) cs0 ->
  exists p' s',
    CScreen.draw_row n row col p hp s = Returns (p', s') /\
    CScreen.w s' = CScreen.w s /\ CScreen.h s' = CScreen.h s /\
    CScreen.clear s' = CScreen.clear s /\
    CScreen.cells s'
    = clean_upto (Z.to_nat (row * CScreen.w s + CScreen.w s)) cs0.
Proof.
  revert col p s.
  induction n as [| n IH]; intros col p s Hg Hw Hrow Hcol Hn Hnarrow Hcells.
  - exists p, s. replace col with (CScreen.w s) in Hcells by lia.
    repeat split; assumption.
  - cbn [CScreen.draw_row].
    destruct (Z.ltb_spec col (CScreen.w s)) as [Hlt | Hge].
    2:{ exists p, s. replace col with (CScreen.w s) in Hcells by lia.
        repeat split; assumption. }
    assert (H0 : 0 <= row * CScreen.w s) by nia.
    destruct (cell_index_in_grid col row _ _ _ Hg) as [Hi Hidx];
      [lia | lia |].
    destruct (grid_lookup col row _ _ _ Hg) as [c Hc]; [lia | lia |].
    set (i := Z.to_nat (row * CScreen.w s + col)) in *.
    assert (Hct : CScreen.cells s !! i = Some c)
      by (rewrite Hcells, clean_upto_lookup; exact Hc).
    rewrite Hi, (index_cell_lookup _ _ c) by (lia || exact Hct).
    cbn [obind]. fold i. cbv zeta.
    pose proof (proj1 (Forall_lookup _ _) Hnarrow _ _ Hc) as Hwd.
    cbn beta in Hwd.
    assert (Hone : (if Cell.Width c <? 1 then 1 else Cell.Width c) = 1)
      by (destruct (Z.ltb_spec (Cell.Width c) 1); lia).
    rewrite Hone.
    rewrite (add_one_below col (CScreen.w s)) by (lia || exact Hw).
    assert (Hnext : Z.to_nat (row * CScreen.w s + (col + 1)) = S i)
      by (unfold i; lia).
    set (flush := negb (Cell.Dirty c) || _).
    set (s1 := if flush then CScreen.writeString _ _ _ _ s else s).
    assert (H1 : CScreen.w s1 = CScreen.w s /\ CScreen.h s1 = CScreen.h s /\
                 CScreen.cells s1 = CScreen.cells s /\
                 CScreen.clear s1 = CScreen.clear s).
    { unfold s1. destruct flush; [apply writeString_grid | repeat split]. }
    destruct H1 as (Hw1 & Hh1 & Hc1 & Hk1).
    destruct (Cell.Dirty c) eqn:Hd.
    + replace (flush && negb true) with false
        by (destruct flush; reflexivity).
      match goal with
      | |- context [CScreen.draw_row n row (col + 1) ?q hp ?sx] =>
          set (p2 := q); set (s2 := sx)
      end.
      assert (Hw2 : CScreen.w s2 = CScreen.w s) by exact Hw1.
      assert (Hh2 : CScreen.h s2 = CScreen.h s) by exact Hh1.
      assert (Hk2 : CScreen.clear s2 = CScreen.clear s) by exact Hk1.
      assert (Hc2 : CScreen.cells s2 = clean_upto (S i) cs0).
      { unfold s2. cbn [CScreen.cells CScreen.set_cells].
        rewrite Hc1, Hcells. apply clean_upto_step. exact Hc. }
      destruct (IH (col + 1) p2 s2)
        as (p' & s' & Hr & Hw' & Hh' & Hk' & Hc');
        rewrite ?Hw2, ?Hh2, ?Hnext; try assumption; try lia.
      rewrite Hw2 in Hc'. exists p', s'.
      split; [exact Hr |]. repeat split; congruence.
    + replace (flush && negb false) with true
        by (unfold flush; reflexivity).
      match goal with
      | |- context [CScreen.draw_row n row (col + 1) ?q hp s1] =>
          set (p2 := q)
      end.
      destruct (IH (col + 1) p2 s1)
        as (p' & s' & Hr & Hw' & Hh' & Hk' & Hc');
        rewrite ?Hw1, ?Hh1, ?Hnext; try assumption; try lia.
      { rewrite Hc1, (clean_upto_skip i cs0 c Hc Hd). exact Hcells. }
      rewrite Hw1 in Hc'. exists p', s'.
      split; [exact Hr |]. repeat split; congruence.
Qed.

Lemma cscreen_draw_rows_cleans (n : nat) (row : Z) (p : CScreen.pen)
    (hp : RuneHeap) (s : CScreen.cScreen) (cs0 : list Cell) :
  grid_ok (CScreen.w s) (CScreen.h s) cs0 ->
  GoInt.in_range (CScreen.w s) -> GoInt.in_range (CScreen.h s) ->
  0 <= row <= CScreen.h s ->
  (Z.to_nat (CScreen.h s - row) <= n)%nat ->
  Forall (fun c => Cell.Width c <= 1) cs0 ->
  CScreen.cells s = clean_upto (Z.to_nat (row * CScreen.w s)) cs0 ->
  exists s',
    CScreen.draw_rows n row p hp s = Returns s' /\
    CScreen.w s' = CScreen.w s /\ CScreen.h s' = CScreen.h s /\
    CScreen.clear s' = CScreen.clear s /\
    CScreen.cells s' = map (Cell.with_Dirty false) cs0.
Proof.
  revert row p s.
  induction n as [| n IH]; intros row p s Hg Hw Hh Hrow Hn Hnarrow Hcells.
  - exists s. replace row with (CScreen.h s) in Hcells by lia.
    rewrite clean_upto_all in Hcells
      by (destruct Hg as (_ & _ & _ & Hlen); lia).
    repeat split; assumption.
  - cbn [CScreen.draw_rows].
    destruct (Z.ltb_spec row (CScreen.h s)) as [Hlt | Hge].
    2:{ exists s. replace row with (CScreen.h s) in Hcells by lia.
        rewrite clean_upto_all in Hcells
          by (destruct Hg as (_ & _ & _ & Hlen); lia).
        repeat split; assumption. }
    destruct (cscreen_draw_row_cleans (Z.to_nat (CScreen.w s)) row 0 p hp s
                cs0)
      as (p1 & s1 & Hr & Hw1 & Hh1 & Hk1 & Hc1); try assumption; try lia.
    { destruct Hg; lia. }
    { rewrite Z.add_0_r. exact Hcells. }
    rewrite Hr. cbn [obind].
    rewrite (add_one_below row (CScreen.h s)) by (lia || exact Hh).
    destruct (writeString_grid (CScreen.px p1) (CScreen.py p1)
                (CScreen.pstyle p1) (CScreen.wcs p1) s1)
      as (Hw2 & Hh2 & Hc2 & Hk2).
    set (s2 := CScreen.writeString _ _ _ _ s1) in *.
    destruct (IH (row + 1)
                (CScreen.mk_pen [] (-1) (CScreen.px p1) (CScreen.py p1)) s2)
      as (s' & Hr' & Hw' & Hh' & Hk' & Hc');
      rewrite ?Hw2, ?Hh2, ?Hw1, ?Hh1; try assumption; try lia.
    { rewrite Hc2, Hc1. f_equal. lia. }
    exists s'. split; [exact Hr' |]. repeat split; congruence.
Qed.

(** The console screen, too, is clean after a draw.  On a well-formed
    grid whose cells are at most one column wide, the console [draw]
    returns without a panic, keeps the size, marks every cell clean and
    changes nothing else in the cells, and leaves no clear pending; a
    second [draw] right after makes no console call and changes
    nothing. *)
Theorem console_draw_leaves_a_clean_grid
    (hp : RuneHeap) (s : CScreen.cScreen) :
  grid_ok (CScreen.w s) (CScreen.h s) (CScreen.cells s) ->
  CScreen.w s < 65536 -> GoInt.in_range (CScreen.h s) ->
  Forall (fun c => Cell.Width c <= 1) (CScreen.cells s) ->
  exists s',
    CScreen.draw hp s = Returns s' /\
    CScreen.w s' = CScreen.w s /\ CScreen.h s' = CScreen.h s /\
    CScreen.clear s' = false /\
    CScreen.cells s' = map (Cell.with_Dirty false) (CScreen.cells s) /\
    CScreen.draw hp s' = Returns s'.
Proof.
  intros Hg Hw Hh Hnarrow. unfold CScreen.draw at 1.
  set (s1 := if CScreen.clear s then _ else s).
  assert (Hsame : CScreen.w s1 = CScreen.w s /\ CScreen.h s1 = CScreen.h s /\
                  CScreen.cells s1 = CScreen.cells s /\
                  CScreen.clear s1 = false).
  { unfold s1. destruct (CScreen.clear s) eqn:Hk; repeat split. exact Hk. }
  destruct Hsame as (Hw1 & Hh1 & Hc1 & Hk1). clearbody s1.
  assert (Hwr : GoInt.in_range (CScreen.w s)).
  { destruct Hg as (G1 & _). unfold GoInt.in_range.
    change GoInt.half with 9223372036854775808. lia. }
  destruct (cscreen_draw_rows_cleans (Z.to_nat (CScreen.h s1)) 0
              (CScreen.mk_pen [] (-1) (-1) (-1)) hp s1 (CScreen.cells s))
    as (s2 & Hr & Hw2 & Hh2 & Hk2 & Hc2);
    rewrite ?Hw1, ?Hh1; try assumption; try lia.
  { destruct Hg; lia. }
  rewrite Hh1 in Hr. exists s2.
  split; [exact Hr |].
  split; [congruence |]. split; [congruence |]. split; [congruence |].
  split; [congruence |].
  unfold CScreen.draw. replace (CScreen.clear s2) with false by congruence.
  apply cscreen_draw_rows_clean.
  - rewrite Hw2, Hh2, Hc2, Hw1, Hh1.
    destruct Hg as (G1 & G2 & G3 & G4). repeat split; try assumption.
    rewrite length_map. exact G4.
  - rewrite Hw2, Hw1. exact Hw.
  - rewrite Hh2, Hh1. exact Hh.
  - lia.
  - rewrite Hc2. apply Forall_forall. intros c Hin.
    apply in_map_iff in Hin. destruct Hin as (c0 & <- & Hin0).
    split; [reflexivity |].
    pose proof (proj1 (Forall_forall _ _) Hnarrow c0 Hin0) as Hw0.
    cbn beta in Hw0. destruct c0; cbn in *. lia.
Qed.

End ConsoleDrawMore.

(** * A full redraw on the console *)

Section ConsoleRedraw.
Context {MK : Masks} {ST : StyleOps} {CO : CellOps} {U8 : Utf8}
  {PA : Palette} {U16 : Utf16}.

Lemma writeString_calls (x y : Z) (style : Style) (ch : list Z)
    (s : CScreen.cScreen) :
  ch <> [] ->
  CScreen.writeString x y style ch s
  = CScreen.set_calls
      (CScreen.calls s ++
       [CScreen.SetConsoleTextAttribute (CScreen.mapStyle style);
        CScreen.SetConsoleCursorPosition
          {| CScreen.c_x := CScreen.int16 x; CScreen.c_y := CScreen.int16 y |};
        CScreen.WriteConsole ch]) s.
Proof.
  intros Hne. unfold CScreen.writeString.
  destruct ch as [| u ch]; [contradiction |]. cbn [length Nat.eqb].
  unfold CScreen.setCursorPos, CScreen.call. destruct s.
  cbn [CScreen.calls CScreen.set_calls CScreen.mbtns CScreen.evch
       CScreen.quit CScreen.curx CScreen.cury CScreen.style CScreen.clear
       CScreen.w CScreen.h CScreen.oscreen CScreen.ocursor CScreen.oimode
       CScreen.oomode CScreen.cells].
  rewrite <- !app_assoc. reflexivity.
Qed.

Lemma cscreen_draw_row_step (st : Style) (n : nat) (row col : Z)
    (p : CScreen.pen) (hp : RuneHeap) (s : CScreen.cScreen) (c : Cell) :
  col < CScreen.w s -> GoInt.in_range (CScreen.w s) -> 0 <= col ->
  index_cell (CScreen.cells s) (GoInt.add (GoInt.mul row (CScreen.w s)) col)
  = Returns c ->
  Cell.Dirty c = true -> Cell.Width c <= 1 -> Cell.Style c = st ->
  CScreen.wcs p = [] \/ CScreen.pstyle p = st ->
  CScreen.draw_row (S n) row col p hp s
  = CScreen.draw_row n row (col + 1)
      (CScreen.mk_pen (CScreen.wcs p ++ cell_units hp c) st
         (if (length (CScreen.wcs p) =? 0)%nat then col else CScreen.px p)
         (if (length (CScreen.wcs p) =? 0)%nat then row else CScreen.py p))
      hp
      (CScreen.set_cells
         (<[Z.to_nat (GoInt.add (GoInt.mul row (CScreen.w s)) col)
            := Cell.with_Dirty false c]> (CScreen.cells s)) s).
Proof.
  intros Hlt Hw Hcol Hidx Hd Hwd Hst Hpen.
  cbn [CScreen.draw_row].
  destruct (Z.ltb_spec col (CScreen.w s)); [| lia].
  rewrite Hidx. cbn [obind]. cbv zeta.
  assert (Hone : (if Cell.Width c <? 1 then 1 else Cell.Width c) = 1)
    by (destruct (Z.ltb_spec (Cell.Width c) 1); lia).
  rewrite Hone, (add_one_below col (CScreen.w s)) by (lia || exact Hw).
  rewrite Hd, Hst. cbn [negb orb].
  destruct p as [wc ps x0 y0]. cbn [CScreen.wcs CScreen.pstyle CScreen.px
                                      CScreen.py] in *.
  unfold cell_units.
  destruct (Z.eqb_spec ps st) as [-> | Hne]; cbn [negb andb].
  - destruct wc as [| u wc]; cbn [length Nat.eqb CScreen.wcs CScreen.pstyle
                                    CScreen.px CScreen.py];
      destruct (s_len (Cell.Ch c) <? 1)%nat; reflexivity.
  - destruct Hpen as [-> | Heq]; [| contradiction].
    cbn [length Nat.eqb CScreen.wcs CScreen.pstyle CScreen.px CScreen.py].
    rewrite pen_flush_empty.
    destruct (s_len (Cell.Ch c) <? 1)%nat; reflexivity.
Qed.

Lemma cscreen_set_cells_twice (a b : list Cell) (s : CScreen.cScreen) :
  CScreen.set_cells a (CScreen.set_cells b s) = CScreen.set_cells a s.
Proof. reflexivity. Qed.

Lemma cscreen_draw_row_uniform (st : Style) (n : nat) (row col : Z)
    (p : CScreen.pen) (hp : RuneHeap) (s : CScreen.cScreen)
    (cs0 : list Cell) :
  grid_ok (CScreen.w s) (CScreen.h s) cs0 ->
  GoInt.in_range (CScreen.w s) ->
  0 <= row < CScreen.h s -> 0 <= col < CScreen.w s ->
  (Z.to_nat (CScreen.w s - col) <= n)%nat ->
  Forall (fun c => Cell.Dirty c = true /\ Cell.Width c <= 1 /\
                   Cell.Style c = st /\ cell_units hp c <> []) cs0 ->
  CScreen.cells s = clean_upto (Z.to_nat (row * CScreen.w s + col)) cs0 ->
  CScreen.wcs p = [] \/ CScreen.pstyle p = st ->
  CScreen.draw_row n row col p hp s
  = Returns
      (CScreen.mk_pen
         (CScreen.wcs p ++
          concat (map (cell_units hp)
                    (take (Z.to_nat (CScreen.w s - col))
                       (drop (Z.to_nat (row * CScreen.w s + col)) cs0))))
         st
         (if (length (CScreen.wcs p) =? 0)%nat then col else CScreen.px p)
         (if (length (CScreen.wcs p) =? 0)%nat then row else CScreen.py p),
       CScreen.set_cells
         (clean_upto (Z.to_nat (row * CScreen.w s + CScreen.w s)) cs0) s).
Proof.
  revert col p s.
  induction n as [| n IH];
    intros col p s Hg Hw Hrow Hcol Hn Hall Hcells Hpen; [lia |].
  assert (H0 : 0 <= row * CScreen.w s) by nia.
  destruct (cell_index_in_grid col row _ _ _ Hg) as [Hi Hidx]; [lia | lia |].
  destruct (grid_lookup col row _ _ _ Hg) as [c Hc]; [lia | lia |].
  set (i := Z.to_nat (row * CScreen.w s + col)) in *.
  assert (Hct : CScreen.cells s !! i = Some c)
    by (rewrite Hcells, clean_upto_lookup; exact Hc).
  destruct (proj1 (Forall_lookup _ _) Hall _ _ Hc) as (Hd & Hwd & Hst & Hu).
  rewrite (cscreen_draw_row_step st n row col p hp s c);
    try assumption; try lia.
  2:{ rewrite Hi. apply index_cell_lookup; [lia | exact Hct]. }
  rewrite Hi. fold i.
  assert (Hins : <[i := Cell.with_Dirty false c]> (CScreen.cells s)
                 = clean_upto (S i) cs0)
    by (rewrite Hcells; apply clean_upto_step; exact Hc).
  rewrite Hins.
  assert (Hnext : Z.to_nat (row * CScreen.w s + (col + 1)) = S i)
    by (unfold i; lia).
  assert (Htake : take (Z.to_nat (CScreen.w s - col)) (drop i cs0)
                  = c :: take (Z.to_nat (CScreen.w s - (col + 1)))
                           (drop (S i) cs0)).
  { rewrite (drop_S _ _ _ Hc).
    replace (Z.to_nat (CScreen.w s - col))
      with (S (Z.to_nat (CScreen.w s - (col + 1)))) by lia.
    reflexivity. }
  rewrite Htake. cbn [map concat].
  destruct (Z_lt_le_dec (col + 1) (CScreen.w s)) as [Hmore | Hlast].
  - set (p3 := CScreen.mk_pen _ _ _ _).
    set (s2 := CScreen.set_cells _ s).
    assert (Hw2 : CScreen.w s2 = CScreen.w s) by reflexivity.
    assert (Hh2 : CScreen.h s2 = CScreen.h s) by reflexivity.
    assert (Hlen : (length (CScreen.wcs p ++ cell_units hp c) =? 0)%nat
                   = false).
    { apply Nat.eqb_neq. rewrite length_app.
      destruct (cell_units hp c); [contradiction | cbn; lia]. }
    rewrite (IH (col + 1) p3 s2); rewrite ?Hw2, ?Hh2, ?Hnext;
      try assumption; try lia.
    + unfold p3, s2.
      cbn [CScreen.wcs CScreen.pstyle CScreen.px CScreen.py].
      rewrite cscreen_set_cells_twice, <- app_assoc, Hlen. reflexivity.
    + reflexivity.
    + right. reflexivity.
  - assert (Hend : col + 1 = CScreen.w s) by lia.
    replace (Z.to_nat (CScreen.w s - (col + 1))) with 0%nat by lia.
    cbn [take concat map]. rewrite app_nil_r.
    replace (Z.to_nat (row * CScreen.w s + CScreen.w s)) with (S i)
      by (unfold i; lia).
    destruct n as [| n]; cbn [CScreen.draw_row]; [reflexivity |].
    change (CScreen.w (CScreen.set_cells _ s)) with (CScreen.w s).
    destruct (Z.ltb_spec (col + 1) (CScreen.w s)); [lia | reflexivity].
Qed.

Lemma row_text_nonempty (hp : RuneHeap) (w row : Z) (cs : list Cell) (c : Cell) :
  0 < w -> cs !! Z.to_nat (row * w) = Some c -> cell_units hp c <> [] ->
  row_text hp w row cs <> [].
Proof.
  intros Hw Hc Hu. unfold row_text. rewrite (drop_S _ _ _ Hc).
  replace (Z.to_nat w) with (S (Z.to_nat (w - 1))) by lia.
  cbn [take map concat]. destruct (cell_units hp c); [contradiction |].
  discriminate.
Qed.

Lemma cscreen_draw_rows_uniform (st : Style) (n : nat) (row x y : Z)
    (hp : RuneHeap) (s : CScreen.cScreen) (cs0 : list Cell) :
  grid_ok (CScreen.w s) (CScreen.h s) cs0 ->
  GoInt.in_range (CScreen.w s) -> GoInt.in_range (CScreen.h s) ->
  0 < CScreen.w s -> 0 <= row <= CScreen.h s ->
  (Z.to_nat (CScreen.h s - row) <= n)%nat ->
  Forall (fun c => Cell.Dirty c = true /\ Cell.Width c <= 1 /\
                   Cell.Style c = st /\ cell_units hp c <> []) cs0 ->
  CScreen.cells s = clean_upto (Z.to_nat (row * CScreen.w s)) cs0 ->
  CScreen.draw_rows n row (CScreen.mk_pen [] (-1) x y) hp s
  = Returns
      (CScreen.set_calls
         (CScreen.calls s ++
          flat_map (fun r => row_calls st hp (CScreen.w s) r cs0)
            (seqZ row (CScreen.h s - row)))
         (CScreen.set_cells (map (Cell.with_Dirty false) cs0) s)).
Proof.
  revert row x y s.
  induction n as [| n IH];
    intros row x y s Hg Hw Hh Hpos Hrow Hn Hall Hcells.
  - replace row with (CScreen.h s) in * by lia.
    rewrite Z.sub_diag. cbn [CScreen.draw_rows seqZ flat_map].
    rewrite clean_upto_all in Hcells
      by (destruct Hg as (_ & _ & _ & Hlen); lia).
    rewrite app_nil_r, <- Hcells. destruct s; reflexivity.
  - cbn [CScreen.draw_rows].
    destruct (Z.ltb_spec row (CScreen.h s)) as [Hlt | Hge].
    2:{ replace row with (CScreen.h s) in * by lia.
        rewrite Z.sub_diag. cbn [seqZ flat_map].
        rewrite clean_upto_all in Hcells
          by (destruct Hg as (_ & _ & _ & Hlen); lia).
        rewrite app_nil_r, <- Hcells. destruct s; reflexivity. }
    assert (H0 : 0 <= row * CScreen.w s) by nia.
    rewrite (cscreen_draw_row_uniform st _ row 0
               (CScreen.mk_pen [] (-1) x y) hp s cs0);
      try assumption; try lia.
    2:{ rewrite Z.add_0_r. exact Hcells. }
    2:{ left. reflexivity. }
    cbn [obind CScreen.wcs CScreen.pstyle CScreen.px CScreen.py length
         Nat.eqb app].
    rewrite Z.add_0_r, Z.sub_0_r.
    fold (row_text hp (CScreen.w s) row cs0).
    destruct (grid_lookup 0 row _ _ _ Hg) as [c Hc]; [lia | lia |].
    rewrite Z.add_0_r in Hc.
    destruct (proj1 (Forall_lookup _ _) Hall _ _ Hc) as (_ & _ & _ & Hu).
    rewrite writeString_calls
      by (eapply row_text_nonempty; [exact Hpos | exact Hc | exact Hu]).
    rewrite (add_one_below row (CScreen.h s)) by (lia || exact Hh).
    set (s2 := CScreen.set_calls _ _).
    assert (Hw2 : CScreen.w s2 = CScreen.w s) by reflexivity.
    assert (Hh2 : CScreen.h s2 = CScreen.h s) by reflexivity.
    rewrite (IH (row + 1) 0 row s2); rewrite ?Hw2, ?Hh2;
      try assumption; try lia.
    + rewrite (seqZ_cons row (CScreen.h s - row)) by lia.
      cbn [flat_map].
      replace (Z.succ row) with (row + 1) by lia.
      replace (Z.pred (CScreen.h s - row)) with (CScreen.h s - (row + 1))
        by lia.
      unfold s2, row_calls. destruct s.
      cbn [CScreen.calls CScreen.set_calls CScreen.set_cells CScreen.mbtns
           CScreen.evch CScreen.quit CScreen.curx CScreen.cury CScreen.style
           CScreen.clear CScreen.w CScreen.h CScreen.oscreen CScreen.ocursor
           CScreen.oimode CScreen.oomode CScreen.cells].
      rewrite <- !app_assoc. reflexivity.
    + unfold s2.
      change (CScreen.cells (CScreen.set_calls ?a (CScreen.set_cells ?b s)))
        with b.
      f_equal. lia.
Qed.

(** A full redraw writes each row once.  When every cell of a
    well-formed grid is dirty, one column wide and of the same style, the
    console [draw] (after the pending clear, if any) writes the grid with
    exactly one run of calls per row, top to bottom: set the attribute of
    that style, move to column 0 of the row, and write the text of the
    whole row; it marks every cell clean and changes nothing else. *)
Theorem console_redraw_writes_each_row_once
    (st : Style) (hp : RuneHeap) (s : CScreen.cScreen) :
  grid_ok (CScreen.w s) (CScreen.h s) (CScreen.cells s) ->
  0 < CScreen.w s < 65536 -> GoInt.in_range (CScreen.h s) ->
  Forall (fun c => Cell.Dirty c = true /\ Cell.Width c <= 1 /\
                   Cell.Style c = st /\ cell_units hp c <> [])
    (CScreen.cells s) ->
  CScreen.draw hp s
  = let s1 := if CScreen.clear s
              then CScreen.set_clear false
                     (CScreen.clearScreen (CScreen.style s) s)
              else s in
    Returns
      (CScreen.set_calls
         (CScreen.calls s1 ++
          flat_map (fun r => row_calls st hp (CScreen.w s) r (CScreen.cells s))
            (seqZ 0 (CScreen.h s)))
         (CScreen.set_cells
            (map (Cell.with_Dirty false) (CScreen.cells s)) s1)).
Proof.
  intros Hg Hpos Hh Hall. unfold CScreen.draw. cbv zeta.
  set (s1 := if CScreen.clear s then _ else s).
  assert (Hsame : CScreen.w s1 = CScreen.w s /\ CScreen.h s1 = CScreen.h s /\
                  CScreen.cells s1 = CScreen.cells s).
  { unfold s1. destruct (CScreen.clear s); repeat split. }
  destruct Hsame as (Hw1 & Hh1 & Hc1). clearbody s1.
  assert (Hwr : GoInt.in_range (CScreen.w s)).
  { unfold GoInt.in_range. change GoInt.half with 9223372036854775808. lia. }
  rewrite (cscreen_draw_rows_uniform st _ 0 (-1) (-1) hp s1 (CScreen.cells s));
    rewrite ?Hw1, ?Hh1, ?Z.sub_0_r; try assumption; try lia;
    try reflexivity.
  destruct Hg; lia.
Qed.

End ConsoleRedraw.

(** * The properties above on the sample screens *)

Module MoreExamples.
#[local] Existing Instances Sample.masks Sample.styles Sample.cellops
  Sample.utf8 Sample.palette Sample.utf16 Sample.runes.

Lemma sample_grid :
  grid_ok (TScreen.w Sample.tscreen) (TScreen.h Sample.tscreen)
    (TScreen.cells Sample.tscreen) /\
  GoInt.in_range (TScreen.w Sample.tscreen) /\
  GoInt.in_range (TScreen.h Sample.tscreen).
Proof. vm_compute. repeat split; discriminate. Qed.

Lemma sample_clean_grid :
  grid_ok (TScreen.w Sample.tscreen_clean) (TScreen.h Sample.tscreen_clean)
    (TScreen.cells Sample.tscreen_clean) /\
  GoInt.in_range (TScreen.w Sample.tscreen_clean) /\
  GoInt.in_range (TScreen.h Sample.tscreen_clean) /\
  Forall (fun c => Cell.Dirty c = false) (TScreen.cells Sample.tscreen_clean).
Proof.
  split; [| split; [| split]];
    try (vm_compute; repeat split; discriminate).
  vm_compute. repeat constructor.
Qed.

Lemma sample_clean_console :
  grid_ok (CScreen.w Sample.cscreen_clean) (CScreen.h Sample.cscreen_clean)
    (CScreen.cells Sample.cscreen_clean) /\
  CScreen.w Sample.cscreen_clean < 65536 /\
  GoInt.in_range (CScreen.h Sample.cscreen_clean) /\
  Forall (fun c => Cell.Dirty c = false /\ Cell.Width c <= 2)
    (CScreen.cells Sample.cscreen_clean) /\
  CScreen.clear Sample.cscreen_clean = false.
Proof.
  split; [| split; [| split; [| split]]];
    try (vm_compute; repeat split; discriminate).
  vm_compute. repeat constructor; discriminate.
Qed.

Lemma postMouseEvent_clips_witness :
  GoInt.in_range (TScreen.w Sample.tscreen80) /\
  0 < TScreen.w Sample.tscreen80 /\ 0 < TScreen.h Sample.tscreen80 /\
  exists b m t1,
    TScreen.postMouseEvent 200 (-5) 0 Sample.tscreen80
    = TScreen.PostEvent
        (NewEventMouse
           (Z.min (Z.max 200 0) (TScreen.w Sample.tscreen80 - 1))
           (Z.min (Z.max (-5) 0) (TScreen.h Sample.tscreen80 - 1)) b m) t1.
Proof.
  destruct DecoderExamples.sample_in_range as [Hw Hh].
  assert (Hwp : 0 < TScreen.w Sample.tscreen80) by reflexivity.
  assert (Hhp : 0 < TScreen.h Sample.tscreen80) by reflexivity.
  destruct (postMouseEvent_clips 200 (-5) 0 Sample.tscreen80 Hw Hh Hwp Hhp)
    as (b & m & t1 & Hpost & _).
  split; [exact Hw |]. split; [exact Hwp |]. split; [exact Hhp |].
  exists b, m, t1. exact Hpost.
Defined.

Lemma wheel_reports_are_debounced_witness :
  (Z.land 64 67 = 64 \/ Z.land 64 67 = 65) /\
  0 <= Z.land 0 67 <= 3 /\
  exists x' y' m,
    TScreen.postMouseEvent 5 5 64
      (TScreen.postMouseEvent 5 5 0 Sample.tscreen80)
    = TScreen.PostEvent (NewEventMouse x' y' Button1 m)
        (TScreen.postMouseEvent 5 5 0 Sample.tscreen80).
Proof.
  assert (Hwheel : Z.land 64 67 = 64 \/ Z.land 64 67 = 65)
    by (left; reflexivity).
  assert (Hsel : 0 <= Z.land 0 67 <= 3)
    by (vm_compute; split; discriminate).
  destruct (wheel_reports_are_debounced 5 5 0 5 5 64 Sample.tscreen80
              Hwheel Hsel) as (x' & y' & m & Hpost).
  split; [exact Hwheel |]. split; [exact Hsel |].
  exists x', y', m. exact Hpost.
Defined.

Lemma sample_digits (s : list Z) :
  forallb is_digit s = true -> Forall (fun d => is_digit d = true) s.
Proof.
  intros H. apply Forall_forall. intros d Hd.
  rewrite forallb_forall in H. apply H. exact Hd.
Qed.

Lemma sgr_report_decoding_witness :
  TScreen.parseSgrMouse
    ([27; 91] ++ 60 :: lit "0" ++ 59 :: lit "10" ++ 59 :: lit "20"
       ++ 77 :: [97]) Sample.tscreen80
  = (true, true, [97],
     TScreen.postMouseEvent (dec_value (lit "10")) (dec_value (lit "20"))
       (Z.ldiff (dec_value (lit "0")) 32) Sample.tscreen80).
Proof.
  apply (sgr_report_decoding [27; 91] (lit "0") (lit "10") (lit "20") 77
           [97] Sample.tscreen80).
  - left. reflexivity.
  - apply sample_digits. reflexivity.
  - simpl. lia.
  - apply sample_digits. reflexivity.
  - simpl. lia.
  - apply sample_digits. reflexivity.
  - simpl. lia.
  - left. reflexivity.
Defined.

Lemma sgr_release_is_button_none_witness :
  exists x' y' m,
    TScreen.parseSgrMouse
      ([155] ++ 60 :: lit "2" ++ 59 :: lit "10" ++ 59 :: lit "20"
         ++ 109 :: []) Sample.tscreen80
    = (true, true, [],
       TScreen.PostEvent (NewEventMouse x' y' ButtonNone m)
         (TScreen.set_wasbtn false Sample.tscreen80)).
Proof.
  apply (sgr_release_is_button_none [155] (lit "2") (lit "10") (lit "20")
           [] Sample.tscreen80).
  - right. reflexivity.
  - apply sample_digits. reflexivity.
  - simpl. lia.
  - apply sample_digits. reflexivity.
  - simpl. lia.
  - apply sample_digits. reflexivity.
  - simpl. lia.
Defined.

Lemma printable_text_is_delivered_bytewise_witness :
  TScreen.scanInput 3 Sample.key_order (lit "hi") false Sample.tscreen80
  = Finished ([], post_all
                    [NewEventKey KeyRune 104 ModNone;
                     NewEventKey KeyRune 105 ModNone] Sample.tscreen80).
Proof.
  apply (printable_text_is_delivered_bytewise (lit "hi") 3 Sample.key_order
           false Sample.tscreen80).
  - repeat constructor.
  - simpl. lia.
Defined.

Lemma scan_loop_frame_witness :
  TScreen.scanInput 3 Sample.key_order (Sample.esc "OA" ++ [27]) false
    Sample.tscreen80
  = Finished ([27], TScreen.PostEvent (NewEventKey KeyUp 0 ModNone)
                      Sample.tscreen80) /\
  decoder_frame Sample.tscreen80
    (TScreen.PostEvent (NewEventKey KeyUp 0 ModNone) Sample.tscreen80) /\
  exists n, [27] = drop n (Sample.esc "OA" ++ [27]).
Proof.
  assert (Hscan :
    TScreen.scanInput 3 Sample.key_order (Sample.esc "OA" ++ [27]) false
      Sample.tscreen80
    = Finished ([27], TScreen.PostEvent (NewEventKey KeyUp 0 ModNone)
                        Sample.tscreen80))
    by (vm_compute; reflexivity).
  split; [exact Hscan |].
  exact (scan_loop_frame 3 Sample.key_order (Sample.esc "OA" ++ [27]) false
           Sample.tscreen80 _ _ Hscan).
Defined.

Lemma read_timeout_flushes_the_buffer_witness :
  exists t',
    TScreen.inputTurn (S (length [27; 91])) Sample.key_order TScreen.ReadEOF
      [27; 91] Sample.tscreen80
    = Finished ([], t').
Proof.
  exact (read_timeout_flushes_the_buffer Sample.key_order [27; 91]
           Sample.tscreen80 DecoderExamples.sample_key_order
           DecoderExamples.sample_keys_nonempty
           DecoderExamples.sample_decoder_ready
           DecoderExamples.sample_decode_progress).
Defined.

Lemma sample_pgup_unique (k' : Key) (e' : list Z) :
  TScreen.keys Sample.tscreen80 !! k' = Some e' ->
  HasPrefix (Sample.esc "[5~") e' = true -> k' = KeyPgUp.
Proof.
  revert k' e'.
  change (map_Forall (fun k' e' => HasPrefix (Sample.esc "[5~") e' = true
                                   -> k' = KeyPgUp)
            (TScreen.keys Sample.tscreen80)).
  apply map_Forall_to_list. vm_compute.
  repeat constructor; intros H; first [discriminate H | reflexivity].
Qed.

Lemma declared_key_round_trip_witness :
  TScreen.keys Sample.tscreen80 !! KeyPgUp = Some (Sample.esc "[5~") /\
  TScreen.scanInput 2 Sample.key_order (Sample.esc "[5~") false
    Sample.tscreen80
  = Finished ([], TScreen.PostEvent (NewEventKey KeyPgUp 0 ModNone)
                    Sample.tscreen80).
Proof.
  assert (Hk : TScreen.keys Sample.tscreen80 !! KeyPgUp
               = Some (Sample.esc "[5~")) by (vm_compute; reflexivity).
  split; [exact Hk |].
  apply (declared_key_round_trip Sample.key_order Sample.tscreen80 KeyPgUp
           27 (lit "[5~") false 0 DecoderExamples.sample_key_order Hk).
  - lia.
  - exact sample_pgup_unique.
Defined.

Lemma sample_keys_not_ctrl_a :
  map_Forall (fun (_ : Key) (e : list Z) => e <> [] /\ e <> [1])
    (TScreen.keys Sample.tscreen80).
Proof.
  apply map_Forall_to_list. vm_compute.
  repeat constructor; discriminate.
Qed.

Lemma lone_control_byte_waits_for_timeout_witness :
  Terminfo.Mouse (TScreen.ti Sample.tscreen80) <> [] /\
  TScreen.scanInput 1 Sample.key_order [1] false Sample.tscreen80
  = Finished ([1], Sample.tscreen80) /\
  TScreen.scanInput 2 Sample.key_order [1] true Sample.tscreen80
  = Finished ([], TScreen.PostEvent (NewEventKey KeyRune 1 ModNone)
                    Sample.tscreen80).
Proof.
  assert (Hmouse : Terminfo.Mouse (TScreen.ti Sample.tscreen80) <> [])
    by (vm_compute; discriminate).
  split; [exact Hmouse |].
  apply (lone_control_byte_waits_for_timeout Sample.key_order
           Sample.tscreen80 1 0 DecoderExamples.sample_key_order
           sample_keys_not_ctrl_a Hmouse); lia.
Defined.

Lemma posted_events_fill_the_channel_witness :
  TScreen.evch Sample.tscreen80 = Some (make_chan 10) /\
  post_all (replicate 12 (NewEventResize 80 24)) Sample.tscreen80
  = TScreen.set_evch
      (Some {| cap := 10; queue := replicate 10 (NewEventResize 80 24) |})
      Sample.tscreen80.
Proof.
  assert (Hc : TScreen.evch Sample.tscreen80 = Some (make_chan 10))
    by reflexivity.
  split; [exact Hc |].
  apply (posted_events_fill_the_channel (replicate 12 (NewEventResize 80 24))
           Sample.tscreen80 (make_chan 10) Hc).
  simpl. lia.
Defined.

Lemma post_then_poll_witness :
  TScreen.evch Sample.tscreen80 = Some (make_chan 10) /\
  TScreen.quit Sample.tscreen80 <> SigClosed /\
  TScreen.PollEvent true Sample.tscreen80 = Blocks /\
  TScreen.PollEvent true
    (TScreen.PostEvent (NewEventResize 80 24) Sample.tscreen80)
  = Proceeds (Some (NewEventResize 80 24), Sample.tscreen80).
Proof.
  assert (Hc : TScreen.evch Sample.tscreen80 = Some (make_chan 10))
    by reflexivity.
  assert (Hq : TScreen.quit Sample.tscreen80 <> SigClosed)
    by (vm_compute; discriminate).
  split; [exact Hc |]. split; [exact Hq |].
  apply (post_then_poll true (NewEventResize 80 24) Sample.tscreen80
           (make_chan 10) Hc); [reflexivity | simpl; lia | exact Hq].
Defined.

Lemma second_fini_panics_witness :
  TScreen.Fini Sample.tscreen = Returns Sample.tscreen_done /\
  CScreen.Fini Sample.cscreen = Returns Sample.cscreen_done /\
  TScreen.Fini Sample.tscreen_done = Panics /\
  CScreen.Fini Sample.cscreen_done = Panics.
Proof.
  assert (Hopen : TScreen.quit Sample.tscreen = SigOpen) by reflexivity.
  assert (Ht : TScreen.Fini Sample.tscreen = Returns Sample.tscreen_done)
    by (vm_compute; reflexivity).
  assert (Hs : CScreen.Fini Sample.cscreen = Returns Sample.cscreen_done)
    by (vm_compute; reflexivity).
  destruct (second_fini_panics Sample.tscreen Sample.tscreen_done
              Sample.cscreen Sample.cscreen_done Hopen Ht Hs)
    as (H1 & H2 & _).
  exact (conj Ht (conj Hs (conj H1 H2))).
Defined.

Lemma set_cell_then_get_cell_witness :
  TScreen.fini Sample.tscreen = false /\
  exists (c c' : Cell) (hp' : RuneHeap) (t' : TScreen.tScreen),
    TScreen.SetCell 1 2 7 nil_slice Sample.theap Sample.tscreen
    = Returns (hp', t') /\
    TScreen.GetCell 1 2 hp' t' = Returns (Some c', hp', t').
Proof.
  assert (Hf : TScreen.fini Sample.tscreen = false) by reflexivity.
  destruct sample_grid as (Hg & _ & _).
  assert (Hx : 0 <= 1 < TScreen.w Sample.tscreen) by (vm_compute; split; [discriminate | reflexivity]).
  assert (Hy : 0 <= 2 < TScreen.h Sample.tscreen) by (vm_compute; split; [discriminate | reflexivity]).
  destruct (set_cell_then_get_cell 1 2 7 nil_slice Sample.theap
              Sample.tscreen Hf Hg Hx Hy)
    as (c & c' & hp' & t' & _ & _ & _ & Hset & Hget & _).
  split; [exact Hf |]. exists c, c', hp', t'. split; assumption.
Defined.

Lemma draw_of_a_clean_grid_writes_no_cell_witness :
  Forall (fun c => Cell.Dirty c = false)
    (TScreen.cells Sample.tscreen_clean) /\
  (exists t',
     TScreen.draw Sample.theap Sample.tscreen_clean = Returns t' /\
     TScreen.cells t' = TScreen.cells Sample.tscreen_clean) /\
  CScreen.draw Sample.cheap Sample.cscreen_clean
  = Returns Sample.cscreen_clean.
Proof.
  destruct sample_clean_grid as (Hg & Hw & Hh & Hclean).
  destruct sample_clean_console as (Hgs & Hws & Hhs & Hcs & Hclr).
  split; [exact Hclean |].
  split.
  - destruct (draw_of_a_clean_grid_writes_no_cell Sample.theap
                Sample.tscreen_clean Sample.cscreen_clean
                Hg Hw Hh Hclean Hgs Hws Hhs Hcs Hclr)
      as [(t' & Hd & Hc & _) _].
    exists t'. split; assumption.
  - apply (draw_of_a_clean_grid_writes_no_cell Sample.theap
             Sample.tscreen_clean Sample.cscreen_clean
             Hg Hw Hh Hclean Hgs Hws Hhs Hcs Hclr).
Defined.

Lemma sample_narrow :
  Forall (fun c => Cell.Width c <= 1) (TScreen.cells Sample.tscreen).
Proof. vm_compute. repeat constructor; discriminate. Qed.

Lemma draw_leaves_a_clean_grid_witness :
  exists t',
    TScreen.draw Sample.theap Sample.tscreen = Returns t' /\
    TScreen.cells t'
    = map (Cell.with_Dirty false) (TScreen.cells Sample.tscreen).
Proof.
  destruct sample_grid as (Hg & Hw & Hh).
  destruct (draw_leaves_a_clean_grid Sample.theap Sample.tscreen
              Hg Hw Hh sample_narrow) as (t' & Hd & _ & _ & _ & Hc & _).
  exists t'. split; assumption.
Defined.

Lemma acs_last_pair_is_dropped_witness :
  TScreen.buildAcsMap (Sample.tscreen_zero Sample.acs_term)
  = TScreen.set_acs
      (TScreen.acs_assign Sample.acs_term 113 (utf8_EncodeRune 114)
         TScreen.acs_defaults)
      (Sample.tscreen_zero Sample.acs_term).
Proof.
  apply (acs_last_pair_is_dropped (Sample.tscreen_zero Sample.acs_term)
           [(113, 114)] 120 121).
  reflexivity.
Defined.

Lemma console_fields_round_trip_witness :
  CScreen.getu16 (le16 513 ++ [7]) = Returns 513 /\
  CScreen.geti16 (le16 (-2 mod 65536) ++ [7]) = Returns (-2) /\
  CScreen.getu32 (le32 70000 ++ [7]) = Returns 70000 /\
  CScreen.geti32 (le32 (-3 mod 4294967296) ++ [7]) = Returns (-3).
Proof.
  assert (H1 : 0 <= 513 < 65536) by lia.
  assert (H2 : -32768 <= -2 < 32768) by lia.
  assert (H3 : 0 <= 70000 < 4294967296) by lia.
  assert (H4 : -2147483648 <= -3 < 2147483648) by lia.
  destruct (console_fields_round_trip 513 (-2) 70000 (-3) [7] H1 H2 H3 H4)
    as (R1 & R2 & R3 & R4 & _).
  exact (conj R1 (conj R2 (conj R3 R4))).
Defined.

Lemma console_key_repeat_witness :
  CScreen.evch Sample.cscreen
  = Some {| cap := 2; queue := [NewEventResize 4 3] |} /\
  CScreen.getConsoleInput
    (Some (1, {| CScreen.typ := CScreen.keyEvent;
                 CScreen.data := key_data 1 1 65 30 97 0 |}))
    (fun _ => false) Sample.cscreen
  = Proceeds
      (Returns
         (CScreen.set_evch
            (Some {| cap := 2;
                     queue := [NewEventResize 4 3;
                               NewEventKey KeyRune 97 (CScreen.mod2mask 0)] |})
            Sample.cscreen, false)) /\
  CScreen.getConsoleInput
    (Some (1, {| CScreen.typ := CScreen.keyEvent;
                 CScreen.data := key_data 1 3 65 30 97 0 |}))
    (fun _ => false) Sample.cscreen
  = Blocks.
Proof.
  assert (Hc : CScreen.evch Sample.cscreen
               = Some {| cap := 2; queue := [NewEventResize 4 3] |})
    by (vm_compute; reflexivity).
  assert (Hle : (length (queue {| cap := 2; queue := [NewEventResize 4 3] |})
                 <= cap {| cap := 2; queue := [NewEventResize 4 3] |})%nat)
    by (simpl; lia).
  assert (Hq : CScreen.quit Sample.cscreen <> SigClosed)
    by (vm_compute; discriminate).
  split; [exact Hc |]. split.
  - apply (console_key_repeat 1 1 65 30 97 0 (fun _ => false) Sample.cscreen
             _ Hc Hle Hq); lia.
  - apply (console_key_repeat 1 3 65 30 97 0 (fun _ => false) Sample.cscreen
             _ Hc Hle Hq); lia.
Defined.

Lemma console_init_posts_the_window_size_witness :
  exists (hp' : RuneHeap) (s' : CScreen.cScreen),
    CScreen.Init true true {| CScreen.size := 25; CScreen.visible := 1 |}
      Sample.console_info Sample.console_info 3 7 false ∅
      Sample.cscreen_zero
    = Proceeds (hp', s', false) /\
    CScreen.evch s' = Some {| cap := 2; queue := [NewEventResize 4 3] |} /\
    CScreen.PollEvent true s'
    = Proceeds (Some (NewEventResize 4 3),
                CScreen.set_evch (Some (make_chan 2)) s').
Proof.
  destruct (console_init_posts_the_window_size
              {| CScreen.size := 25; CScreen.visible := 1 |}
              Sample.console_info Sample.console_info 3 7 false true ∅
              Sample.cscreen_zero 4 3)
    as (hp' & s' & Hinit & _ & _ & _ & Hev & Hpoll);
    [reflexivity | reflexivity | vm_compute; discriminate |].
  exists hp', s'. split; [exact Hinit |]. split; assumption.
Defined.

Lemma failed_init_leaves_no_grid_witness :
  exists t0 t',
    TScreen.NewTerminfoScreen (Some Sample.xterm) 3 4 ∅ = Some t0 /\
    TScreen.Init (lit "UTF-8") (fun _ => None) false ∅ t0 = (∅, t', true) /\
    TScreen.out t' = [] /\
    TScreen.SetCell 1 2 7 nil_slice ∅ t' = Panics.
Proof.
  assert (Hnew : TScreen.NewTerminfoScreen (Some Sample.xterm) 3 4 ∅
                 = Some Sample.tscreen_new) by reflexivity.
  pose (t' := snd (fst (TScreen.Init (lit "UTF-8") (fun _ => None) false ∅
                          Sample.tscreen_new))).
  assert (Hinit :
    TScreen.Init (lit "UTF-8") (fun _ => None) false ∅ Sample.tscreen_new
    = (∅, t', true)) by reflexivity.
  assert (Hx : 0 <= 1 < TScreen.w t')
    by (vm_compute; split; [discriminate | reflexivity]).
  assert (Hy : 0 <= 2 < TScreen.h t')
    by (vm_compute; split; [discriminate | reflexivity]).
  destruct (failed_init_leaves_no_grid _ _ _ _ _ _ _ _ _ _ _ Hnew Hinit)
    as (_ & Hout & _ & _ & _ & Hpanic).
  destruct (Hpanic 1 2 7 nil_slice Hx Hy) as [Hset _].
  exists Sample.tscreen_new, t'.
  exact (conj Hnew (conj Hinit (conj Hout Hset))).
Defined.

Lemma wide_cell_in_the_last_column_witness :
  Cell.Width Sample.wide_cell = 2 /\
  TScreen.w Sample.tscreen80 - 1 <= 79 /\
  TScreen.cell_text 79 Sample.wide_cell Sample.theap Sample.tscreen80
  = (lit " ", 1).
Proof.
  assert (Hwd : Cell.Width Sample.wide_cell = 2) by reflexivity.
  assert (Hpos : 0 < TScreen.w Sample.tscreen80) by reflexivity.
  assert (Hx : TScreen.w Sample.tscreen80 - 1 <= 79)
    by (vm_compute; discriminate).
  destruct DecoderExamples.sample_in_range as [Hw _].
  destruct (wide_cell_in_the_last_column 79 Sample.wide_cell Sample.theap
              Sample.tscreen80 Hwd Hpos Hw Hx) as [Hsp | [Hno _]].
  - exact (conj Hwd (conj Hx Hsp)).
  - vm_compute in Hno. discriminate Hno.
Defined.

Lemma sample_console_grid :
  grid_ok (CScreen.w Sample.cscreen) (CScreen.h Sample.cscreen)
    (CScreen.cells Sample.cscreen) /\
  0 < CScreen.w Sample.cscreen < 65536 /\
  GoInt.in_range (CScreen.h Sample.cscreen).
Proof. vm_compute. repeat split; discriminate. Qed.

Lemma console_draw_leaves_a_clean_grid_witness :
  exists s',
    CScreen.draw Sample.cheap Sample.cscreen = Returns s' /\
    CScreen.cells s'
    = map (Cell.with_Dirty false) (CScreen.cells Sample.cscreen) /\
    CScreen.draw Sample.cheap s' = Returns s'.
Proof.
  destruct sample_console_grid as (Hg & [_ Hw] & Hh).
  assert (Hnarrow : Forall (fun c => Cell.Width c <= 1)
                      (CScreen.cells Sample.cscreen))
    by (vm_compute; repeat constructor; discriminate).
  destruct (console_draw_leaves_a_clean_grid Sample.cheap Sample.cscreen
              Hg Hw Hh Hnarrow) as (s' & Hd & _ & _ & _ & Hc & Hagain).
  exists s'. split; [exact Hd |]. split; assumption.
Defined.

Lemma console_redraw_writes_each_row_once_witness :
  0 < CScreen.w Sample.cscreen < 65536 /\
  CScreen.draw Sample.cheap Sample.cscreen
  = let s1 := if CScreen.clear Sample.cscreen
              then CScreen.set_clear false
                     (CScreen.clearScreen (CScreen.style Sample.cscreen)
                        Sample.cscreen)
              else Sample.cscreen in
    Returns
      (CScreen.set_calls
         (CScreen.calls s1 ++
          flat_map
            (fun r => row_calls 0 Sample.cheap (CScreen.w Sample.cscreen) r
                        (CScreen.cells Sample.cscreen))
            (seqZ 0 (CScreen.h Sample.cscreen)))
         (CScreen.set_cells
            (map (Cell.with_Dirty false) (CScreen.cells Sample.cscreen))
            s1)).
Proof.
  destruct sample_console_grid as (Hg & Hw & Hh).
  assert (Hall : Forall (fun c => Cell.Dirty c = true /\ Cell.Width c <= 1 /\
                                  Cell.Style c = 0 /\
                                  cell_units Sample.cheap c <> [])
                   (CScreen.cells Sample.cscreen)).
  { vm_compute.
    repeat (apply Forall_cons;
            [split; [reflexivity |
                     split; [discriminate |
                             split; [reflexivity | discriminate]]] |]).
    apply Forall_nil. }
  split; [exact Hw |].
  exact (console_redraw_writes_each_row_once 0 Sample.cheap Sample.cscreen
           Hg Hw Hh Hall).
Defined.

End MoreExamples.
